(** * Beacon operation pool gateway: handlers of [handlers_pool.go]

    A shallow embedding of the HTTP handlers of
    [beacon-chain/rpc/eth/beacon/handlers_pool.go].  The collaborators of the
    [Server] (chain info fetcher, pools, broadcaster, operation feed) are
    functions over an abstract [World]; every handler is a function that
    threads the world through its calls and returns the list of observable
    events it produced, in program order. *)

From Stdlib Require Import List String Ascii NArith Arith Bool Lia Sorted.
From Stdlib.Strings Require Import Byte.
From Stdlib Require Import DecimalString DecimalNat DecimalFacts.
Import ListNotations.
Open Scope string_scope.

Set Implicit Arguments.

(* ------------------------------------------------------------------ *)
(** ** Errors, strings, contexts *)

(** A Go [error] is identified with its message ([err.Error()]). *)
Definition Error := string.

(** [errors.Wrap(err, msg).Error()] *)
Definition errors_Wrap (err : Error) (msg : string) : Error :=
  msg ++ ": " ++ err.

(** [strconv.Itoa] on a non-negative [int]. *)
Definition Itoa (i : nat) : string := NilEmpty.string_of_uint (Nat.to_uint i).

(** [strings.Join] *)
Definition strings_Join (l : list string) (sep : string) : string :=
  String.concat sep l.

(** [context.Context]: the context of an incoming request carries the
    identifier of its cancel function; [trace.StartSpan] derives a child
    context that shares the parent's [Done] channel. *)
Inductive Context : Type :=
| Background
| WithCancel (parent : Context) (id : nat)
| StartSpan (parent : Context) (name : string).

(** [ctx.Done()] is closed as soon as the cancel function of the context or
    of one of its ancestors has been called. *)
Fixpoint ctx_done (cancelled : nat -> bool) (ctx : Context) : bool :=
  match ctx with
  | Background => false
  | WithCancel parent id => cancelled id || ctx_done cancelled parent
  | StartSpan parent _ => ctx_done cancelled parent
  end.

Definition StatusBadRequest : nat := 400.
Definition StatusInternalServerError : nat := 500.

Definition broadcastBLSChangesRateLimit : nat := 128.

(* ------------------------------------------------------------------ *)
(** ** Fork versions *)

Module version.
(** Modelled from the spec: package [runtime/version] is not part of the
    sources at hand; the forks are numbered in their canonical order
    Phase0, Altair, Bellatrix, Capella, Deneb, Electra. *)
Definition Phase0 : nat := 0.
Definition Altair : nat := 1.
Definition Bellatrix : nat := 2.
Definition Capella : nat := 3.
Definition Deneb : nat := 4.
Definition Electra : nat := 5.
End version.

Definition VersionHeader : string := "Eth-Consensus-Version".

(* ------------------------------------------------------------------ *)
(** ** Consensus objects ([proto/prysm/v1alpha1]) *)

Module eth.

Record Checkpoint := {
  Checkpoint_Epoch : N;
  Checkpoint_Root : list byte }.

Record AttestationData := {
  Data_Slot : N;
  Data_CommitteeIndex : N;
  Data_BeaconBlockRoot : list byte;
  Data_Source : Checkpoint;
  Data_Target : Checkpoint }.

Record Attestation := {
  Att_AggregationBits : list bool;
  Att_Data : AttestationData;
  Att_Signature : list byte }.

Record AttestationElectra := {
  AttE_AggregationBits : list bool;
  AttE_Data : AttestationData;
  AttE_Signature : list byte;
  AttE_CommitteeBits : list bool }.

(** interface [Att] *)
Inductive Att :=
| AttPhase0 (a : Attestation)
| AttElectra (a : AttestationElectra).

Definition GetAggregationBits (a : Att) : list bool :=
  match a with
  | AttPhase0 a => Att_AggregationBits a
  | AttElectra a => AttE_AggregationBits a
  end.

Record VoluntaryExit := {
  Exit_Epoch : N;
  Exit_ValidatorIndex : N }.

Record SignedVoluntaryExit := {
  SignedExit_Exit : VoluntaryExit;
  SignedExit_Signature : list byte }.

Record BLSToExecutionChange := {
  Change_ValidatorIndex : N;
  Change_FromBlsPubkey : list byte;
  Change_ToExecutionAddress : list byte }.

Record SignedBLSToExecutionChange := {
  SignedChange_Message : BLSToExecutionChange;
  SignedChange_Signature : list byte }.

Record IndexedAttestation := {
  Indexed_AttestingIndices : list N;
  Indexed_Data : AttestationData;
  Indexed_Signature : list byte }.

Record AttesterSlashing := {
  Attestation_1 : IndexedAttestation;
  Attestation_2 : IndexedAttestation }.

Record AttesterSlashingElectra := {
  AttestationE_1 : IndexedAttestation;
  AttestationE_2 : IndexedAttestation }.

(** interface [AttSlashing] *)
Inductive AttSlashing :=
| SlashingPhase0 (s : AttesterSlashing)
| SlashingElectra (s : AttesterSlashingElectra).

Definition FirstAttestation (s : AttSlashing) : IndexedAttestation :=
  match s with
  | SlashingPhase0 s => Attestation_1 s
  | SlashingElectra s => AttestationE_1 s
  end.

Record BeaconBlockHeader := {
  Header_Slot : N;
  Header_ProposerIndex : N;
  Header_BodyRoot : list byte }.

Record SignedBeaconBlockHeader := {
  SignedHeader_Header : BeaconBlockHeader;
  SignedHeader_Signature : list byte }.

Record ProposerSlashing := {
  Header_1 : SignedBeaconBlockHeader;
  Header_2 : SignedBeaconBlockHeader }.

(** what [Broadcaster.Broadcast] is given ([proto.Message]) *)
Inductive ProtoMessage :=
| MsgVoluntaryExit (e : SignedVoluntaryExit)
| MsgBLSChange (c : SignedBLSToExecutionChange)
| MsgAttSlashing (s : AttSlashing)
| MsgProposerSlashing (s : ProposerSlashing).

End eth.

(** Modelled from the spec: [corehelpers.IsAggregated] is not part of the
    sources at hand; an attestation is aggregated iff more than one of its
    aggregation bits is set. *)
Definition IsAggregated (a : eth.Att) : bool :=
  Nat.ltb 1 (count_occ bool_dec (eth.GetAggregationBits a) true).

(** [feed.Event] values sent on the operation feed. *)
Inductive FeedEvent :=
| UnaggregatedAttReceived (att : eth.Att)
| BLSToExecutionChangeReceived (c : eth.SignedBLSToExecutionChange)
| AttesterSlashingReceived (s : eth.AttSlashing)
| ProposerSlashingReceived (s : eth.ProposerSlashing).

(** [server.IndexedVerificationFailure] *)
Record IndexedVerificationFailure := {
  Index : nat;
  Message : string }.

(** [server.IndexedVerificationFailureError] *)
Record IndexedVerificationFailureError := {
  Code : nat;
  ErrMessage : string;
  Failures : list IndexedVerificationFailure }.

(** What [json.NewDecoder(r.Body).Decode] yields. *)
Inductive Decoded (A : Type) :=
| DecodeEOF
| DecodeError (err : Error)
| DecodeOk (a : A).
Arguments DecodeEOF {A}.
Arguments DecodeError {A} err.
Arguments DecodeOk {A} a.

(** [http.Request], as far as the handlers read it.  [Header] and [Query]
    return the empty string for an absent key, as [Header.Get] and
    [URL.Query().Get] do. *)
Record Request := {
  Ctx : Context;
  Header : string -> string;
  Query : string -> string;
  Body : string }.

(** [json.RawMessage] *)
Definition RawMessage := string.

(** [consensus_types.ErrOutOfBounds] against any other lookup error. *)
Inductive LookupError :=
| ErrOutOfBounds (msg : Error)
| ErrOther (msg : Error).

(** The two ready cases of the [select] in [broadcastBLSChanges]. *)
Inductive SelectCase := CaseDone | CaseTick.

(* ------------------------------------------------------------------ *)
(** ** The API structs (package [api/server/structs]) and imported
       functions

    The wire structs are opaque to the handlers: they are only produced by
    the JSON decoder and the [...FromConsensus] functions and consumed by
    [ToConsensus] and the JSON encoder. *)

Record Structs := {
  structs_Attestation : Type;
  structs_AttestationElectra : Type;
  structs_SignedVoluntaryExit : Type;
  structs_SignedBLSToExecutionChange : Type;
  structs_AttesterSlashing : Type;
  structs_AttesterSlashingElectra : Type;
  structs_ProposerSlashing : Type }.

(** Entries of the [[]interface{}] slices marshalled by the V2 list
    handlers. *)
Inductive AttEntry (T : Structs) :=
| EntryAtt (a : structs_Attestation T)
| EntryAttElectra (a : structs_AttestationElectra T).

Inductive SlashingEntry (T : Structs) :=
| EntrySlashing (a : structs_AttesterSlashing T)
| EntrySlashingElectra (a : structs_AttesterSlashingElectra T).

Record Packages (T : Structs) (BeaconState Validator : Type) := {
  (* encoding/json *)
  json_DecodeRaw : string -> Decoded RawMessage;
  json_UnmarshalAttestations : RawMessage -> Error + list (structs_Attestation T);
  json_UnmarshalAttestationsElectra :
    RawMessage -> Error + list (structs_AttestationElectra T);
  json_DecodeExit : string -> Decoded (structs_SignedVoluntaryExit T);
  json_DecodeBLSChanges :
    string -> Decoded (list (structs_SignedBLSToExecutionChange T));
  json_DecodeAttesterSlashing : string -> Decoded (structs_AttesterSlashing T);
  json_DecodeAttesterSlashingElectra :
    string -> Decoded (structs_AttesterSlashingElectra T);
  json_DecodeProposerSlashing : string -> Decoded (structs_ProposerSlashing T);
  json_MarshalAttestations : list (AttEntry T) -> Error + RawMessage;
  json_MarshalSlashings : list (SlashingEntry T) -> Error + RawMessage;
  (* strconv *)
  strconv_ParseUint : string -> Error + N;
  (* structs: wire to consensus *)
  Attestation_ToConsensus : structs_Attestation T -> Error + eth.Attestation;
  AttestationElectra_ToConsensus :
    structs_AttestationElectra T -> Error + eth.AttestationElectra;
  SignedVoluntaryExit_ToConsensus :
    structs_SignedVoluntaryExit T -> Error + eth.SignedVoluntaryExit;
  SignedBLSToExecutionChange_ToConsensus :
    structs_SignedBLSToExecutionChange T -> Error + eth.SignedBLSToExecutionChange;
  AttesterSlashing_ToConsensus :
    structs_AttesterSlashing T -> Error + eth.AttesterSlashing;
  AttesterSlashingElectra_ToConsensus :
    structs_AttesterSlashingElectra T -> Error + eth.AttesterSlashingElectra;
  ProposerSlashing_ToConsensus :
    structs_ProposerSlashing T -> Error + eth.ProposerSlashing;
  (* structs: consensus to wire *)
  AttFromConsensus : eth.Attestation -> structs_Attestation T;
  AttElectraFromConsensus : eth.AttestationElectra -> structs_AttestationElectra T;
  AttesterSlashingFromConsensus : eth.AttesterSlashing -> structs_AttesterSlashing T;
  AttesterSlashingElectraFromConsensus :
    eth.AttesterSlashingElectra -> structs_AttesterSlashingElectra T;
  (* runtime/version *)
  version_String : nat -> string;
  version_FromString : string -> Error + nat;
  (* crypto/bls *)
  bls_SignatureFromBytes : list byte -> option Error;
  (* time/slots *)
  slots_ToEpoch : N -> N;
  slots_EpochStart : N -> Error + N;
  (* core/helpers *)
  ComputeSubnetFromCommitteeAndSlot : N -> N -> N -> N;
  GetCommitteeIndex : eth.AttestationElectra -> Error + N;
  (* the beacon state *)
  Version : BeaconState -> nat;
  ValidatorAtIndexReadOnly : BeaconState -> N -> LookupError + Validator;
  (* core/transition *)
  ProcessSlotsIfPossible : Context -> BeaconState -> N -> Error + BeaconState;
  (* core/blocks *)
  VerifyExitAndSignature :
    Validator -> BeaconState -> eth.SignedVoluntaryExit -> option Error;
  ValidateBLSToExecutionChange :
    BeaconState -> eth.SignedBLSToExecutionChange -> option Error;
  VerifyBLSChangeSignature :
    BeaconState -> eth.SignedBLSToExecutionChange -> option Error;
  VerifyAttesterSlashing :
    Context -> BeaconState -> eth.AttSlashing -> option Error;
  VerifyProposerSlashing : BeaconState -> eth.ProposerSlashing -> option Error;
  (* config/features *)
  DisableBroadcastSlashings : bool }.

(** The collaborators held by the [Server] struct.  Each call may observe
    and change the world; a call that takes a [context.Context] in the source
    takes it here. *)
Record Server (World BeaconState : Type) := {
  (* ChainInfoFetcher *)
  HeadState : Context -> World -> (Error + BeaconState) * World;
  HeadStateReadOnly : Context -> World -> (Error + BeaconState) * World;
  (* HeadFetcher *)
  HeadValidatorsIndices : Context -> N -> World -> (Error + list N) * World;
  (* AttestationsPool *)
  AggregatedAttestations : World -> list eth.Att * World;
  UnaggregatedAttestations : World -> (Error + list eth.Att) * World;
  SaveAggregatedAttestation : eth.Att -> World -> option Error * World;
  SaveUnaggregatedAttestation : eth.Att -> World -> option Error * World;
  (* VoluntaryExitsPool, BLSChangesPool, SlashingsPool *)
  InsertVoluntaryExit : eth.SignedVoluntaryExit -> World -> World;
  InsertBLSToExecChange : eth.SignedBLSToExecutionChange -> World -> World;
  PendingAttesterSlashings :
    Context -> BeaconState -> bool -> World -> list eth.AttSlashing * World;
  InsertAttesterSlashing :
    Context -> BeaconState -> eth.AttSlashing -> World -> option Error * World;
  InsertProposerSlashing :
    Context -> BeaconState -> eth.ProposerSlashing -> World -> option Error * World;
  (* Broadcaster *)
  Broadcast : Context -> eth.ProtoMessage -> World -> option Error * World;
  BroadcastAttestation : Context -> N -> eth.Att -> World -> option Error * World;
  (* OperationNotifier *)
  OperationFeed_Send : FeedEvent -> World -> World;
  (* the Go runtime: which cancel functions have been called, the world
     when a blocked [select] wakes up, and whether the ticker case is taken
     when [ctx.Done()] is ready at that moment (Go picks one ready case) *)
  cancelled : World -> nat -> bool;
  select_wake : World -> World;
  ticker_chosen : World -> bool }.

(* ------------------------------------------------------------------ *)
(** ** The handlers *)

Section Gateway.

Context {T : Structs} {World BeaconState Validator : Type}.
Variable pk : Packages T BeaconState Validator.
Variable s : Server World BeaconState.

(** The responses written by the V2 list handlers; [Data] is the output
    of [json.Marshal]. *)
Inductive JsonResponse :=
| ListAttestationsResponse (Version : string) (Data : RawMessage)
| GetAttesterSlashingsResponse (Version : string) (Data : RawMessage).

(** What a handler does to the response writer and to its collaborators.
    Calls that can fail record the error they returned. *)
Inductive Event :=
| EvHandleError (msg : string) (code : nat)
| EvWriteError (e : IndexedVerificationFailureError)
| EvWriteJson (resp : JsonResponse)
| EvSetHeader (key value : string)
| EvFeedSend (ev : FeedEvent)
| EvBroadcastAttestation (subnet : N) (att : eth.Att) (err : option Error)
| EvBroadcast (msg : eth.ProtoMessage) (err : option Error)
| EvSaveAggregatedAttestation (att : eth.Att) (err : option Error)
| EvSaveUnaggregatedAttestation (att : eth.Att) (err : option Error)
| EvInsertVoluntaryExit (e : eth.SignedVoluntaryExit)
| EvInsertBLSToExecChange (c : eth.SignedBLSToExecutionChange)
| EvInsertAttesterSlashing (sl : eth.AttSlashing) (err : option Error)
| EvInsertProposerSlashing (sl : eth.ProposerSlashing) (err : option Error)
| EvSelect (c : SelectCase).

(** A computation reads and updates the world and appends to the trace. *)
Definition M (A : Type) : Type := World -> A * World * list Event.

Definition ret {A} (a : A) : M A := fun w => (a, w, []).

Definition bind {A B} (m : M A) (f : A -> M B) : M B :=
  fun w =>
    let '(a, w1, t1) := m w in
    let '(b, w2, t2) := f a w1 in
    (b, w2, (t1 ++ t2)%list).

Notation "x <- m ;; k" := (bind m (fun x => k))
  (at level 61, m at next level, right associativity).
Notation "m ;;; k" := (bind m (fun _ => k))
  (at level 61, right associativity).

(** a call that leaves no event *)
Definition call {A} (f : World -> A * World) : M A :=
  fun w => let '(a, w1) := f w in (a, w1, []).

(** a call whose outcome is recorded *)
Definition callEv {A} (f : World -> A * World) (ev : A -> Event) : M A :=
  fun w => let '(a, w1) := f w in (a, w1, [ev a]).

Definition emit (e : Event) : M unit := fun w => (tt, w, [e]).

Definition HandleError (msg : string) (code : nat) : M unit :=
  emit (EvHandleError msg code).

Definition WriteError (e : IndexedVerificationFailureError) : M unit :=
  emit (EvWriteError e).

Definition WriteJson (resp : JsonResponse) : M unit :=
  emit (EvWriteJson resp).

Definition FeedSend (ev : FeedEvent) : M unit :=
  fun w => (tt, OperationFeed_Send s ev w, [EvFeedSend ev]).

Definition doBroadcastAttestation (ctx : Context) (subnet : N) (att : eth.Att)
  : M (option Error) :=
  callEv (BroadcastAttestation s ctx subnet att) (EvBroadcastAttestation subnet att).

Definition doBroadcast (ctx : Context) (msg : eth.ProtoMessage) : M (option Error) :=
  callEv (Broadcast s ctx msg) (EvBroadcast msg).

Definition doSaveAggregatedAttestation (att : eth.Att) : M (option Error) :=
  callEv (SaveAggregatedAttestation s att) (EvSaveAggregatedAttestation att).

Definition doSaveUnaggregatedAttestation (att : eth.Att) : M (option Error) :=
  callEv (SaveUnaggregatedAttestation s att) (EvSaveUnaggregatedAttestation att).

(* ---------------------------------------------------------------- *)
(** *** Attestation submission *)

(** First loop of [handleAttestations]: conversion and signature parsing;
    [i] is the index of the head of [src] in the submitted batch. *)
Fixpoint validateAttestations (i : nat) (src : list (structs_Attestation T))
  : list IndexedVerificationFailure * list eth.Attestation :=
  match src with
  | [] => ([], [])
  | sourceAtt :: rest =>
      let '(attFailures, validAttestations) := validateAttestations (S i) rest in
      match Attestation_ToConsensus pk sourceAtt with
      | inl err =>
          ({| Index := i;
              Message := "Could not convert request attestation to consensus attestation: "
                         ++ err |} :: attFailures, validAttestations)
      | inr att =>
          match bls_SignatureFromBytes pk (eth.Att_Signature att) with
          | Some err =>
              ({| Index := i;
                  Message := "Incorrect attestation signature: " ++ err |}
                 :: attFailures, validAttestations)
          | None => (attFailures, att :: validAttestations)
          end
      end
  end.

(** The pool insertion that ends an iteration of the second loop; a failed
    save is only logged. *)
Definition saveAttestation (att : eth.Att) : M unit :=
  if IsAggregated att
  then doSaveAggregatedAttestation att ;;; ret tt
  else doSaveUnaggregatedAttestation att ;;; ret tt.

Definition notifyUnaggregated (att : eth.Att) : M unit :=
  if negb (IsAggregated att)
  then FeedSend (UnaggregatedAttReceived att)
  else ret tt.

(** Second loop of [handleAttestations]: [i] is the index of the head of
    [atts] in [validAttestations]; the result is [failedBroadcasts]. *)
Fixpoint broadcastAttestations (ctx : Context) (i : nat) (atts : list eth.Attestation)
  : M (list string) :=
  match atts with
  | [] => ret []
  | att :: rest =>
      notifyUnaggregated (eth.AttPhase0 att) ;;;
      let wantedEpoch := slots_ToEpoch pk (eth.Data_Slot (eth.Att_Data att)) in
      vals <- call (HeadValidatorsIndices s ctx wantedEpoch) ;;
      match vals with
      | inl _ =>
          failedBroadcasts <- broadcastAttestations ctx (S i) rest ;;
          ret (Itoa i :: failedBroadcasts)
      | inr vals =>
          let subnet :=
            ComputeSubnetFromCommitteeAndSlot pk (N.of_nat (List.length vals))
              (eth.Data_CommitteeIndex (eth.Att_Data att))
              (eth.Data_Slot (eth.Att_Data att)) in
          err <- doBroadcastAttestation ctx subnet (eth.AttPhase0 att) ;;
          match err with
          | Some _ =>
              failedBroadcasts <- broadcastAttestations ctx (S i) rest ;;
              ret (Itoa i :: failedBroadcasts)
          | None =>
              saveAttestation (eth.AttPhase0 att) ;;;
              broadcastAttestations ctx (S i) rest
          end
      end
  end.

(** The Go function returns [(attFailures, failedBroadcasts, err)]. *)
Definition HandleResult : Type :=
  list IndexedVerificationFailure * list string * option Error.

Definition handleAttestations (ctx : Context) (data : RawMessage) : M HandleResult :=
  match json_UnmarshalAttestations pk data with
  | inl err => ret ([], [], Some (errors_Wrap err "failed to unmarshal attestation"))
  | inr sourceAttestations =>
      if Nat.eqb (List.length sourceAttestations) 0
      then ret ([], [], Some "no data submitted")
      else
        let '(attFailures, validAttestations) :=
          validateAttestations 0 sourceAttestations in
        failedBroadcasts <- broadcastAttestations ctx 0 validAttestations ;;
        ret (attFailures, failedBroadcasts, None)
  end.

Fixpoint validateAttestationsElectra (i : nat) (src : list (structs_AttestationElectra T))
  : list IndexedVerificationFailure * list eth.AttestationElectra :=
  match src with
  | [] => ([], [])
  | sourceAtt :: rest =>
      let '(attFailures, validAttestations) :=
        validateAttestationsElectra (S i) rest in
      match AttestationElectra_ToConsensus pk sourceAtt with
      | inl err =>
          ({| Index := i;
              Message := "Could not convert request attestation to consensus attestation: "
                         ++ err |} :: attFailures, validAttestations)
      | inr att =>
          match bls_SignatureFromBytes pk (eth.AttE_Signature att) with
          | Some err =>
              ({| Index := i;
                  Message := "Incorrect attestation signature: " ++ err |}
                 :: attFailures, validAttestations)
          | None => (attFailures, att :: validAttestations)
          end
      end
  end.

(** Second loop of [handleAttestationsElectra]; [inl err] is the early
    [return nil, nil, err] on a committee index that cannot be derived. *)
Fixpoint broadcastAttestationsElectra (ctx : Context) (i : nat)
  (atts : list eth.AttestationElectra) : M (Error + list string) :=
  match atts with
  | [] => ret (inr [])
  | att :: rest =>
      notifyUnaggregated (eth.AttElectra att) ;;;
      let wantedEpoch := slots_ToEpoch pk (eth.Data_Slot (eth.AttE_Data att)) in
      vals <- call (HeadValidatorsIndices s ctx wantedEpoch) ;;
      match vals with
      | inl _ =>
          r <- broadcastAttestationsElectra ctx (S i) rest ;;
          ret (match r with
               | inl e => inl e
               | inr failedBroadcasts => inr (Itoa i :: failedBroadcasts)
               end)
      | inr vals =>
          match GetCommitteeIndex pk att with
          | inl err =>
              ret (inl (errors_Wrap err "failed to retrieve attestation committee index"))
          | inr committeeIndex =>
              let subnet :=
                ComputeSubnetFromCommitteeAndSlot pk (N.of_nat (List.length vals))
                  committeeIndex (eth.Data_Slot (eth.AttE_Data att)) in
              err <- doBroadcastAttestation ctx subnet (eth.AttElectra att) ;;
              match err with
              | Some _ =>
                  r <- broadcastAttestationsElectra ctx (S i) rest ;;
                  ret (match r with
                       | inl e => inl e
                       | inr failedBroadcasts => inr (Itoa i :: failedBroadcasts)
                       end)
              | None =>
                  saveAttestation (eth.AttElectra att) ;;;
                  broadcastAttestationsElectra ctx (S i) rest
              end
          end
      end
  end.

Definition handleAttestationsElectra (ctx : Context) (data : RawMessage)
  : M HandleResult :=
  match json_UnmarshalAttestationsElectra pk data with
  | inl err => ret ([], [], Some (errors_Wrap err "failed to unmarshal attestation"))
  | inr sourceAttestations =>
      if Nat.eqb (List.length sourceAttestations) 0
      then ret ([], [], Some "no data submitted")
      else
        let '(attFailures, validAttestations) :=
          validateAttestationsElectra 0 sourceAttestations in
        r <- broadcastAttestationsElectra ctx 0 validAttestations ;;
        ret (match r with
             | inl err => ([], [], Some err)
             | inr failedBroadcasts => (attFailures, failedBroadcasts, None)
             end)
  end.

(** The part shared by [SubmitAttestations] and [SubmitAttestationsV2] after
    the error check: broadcast failures first, then validation failures. *)
Definition respondAttestations (attFailures : list IndexedVerificationFailure)
  (failedBroadcasts : list string) : M unit :=
  if Nat.ltb 0 (List.length failedBroadcasts) then
    HandleError
      ("Attestations at index " ++ strings_Join failedBroadcasts ", "
       ++ " could not be broadcasted")
      StatusInternalServerError
  else if Nat.ltb 0 (List.length attFailures) then
    WriteError {| Code := StatusBadRequest;
                  ErrMessage := "One or more attestations failed validation";
                  Failures := attFailures |}
  else ret tt.

Definition SubmitAttestations (r : Request) : M unit :=
  let ctx := StartSpan (Ctx r) "beacon.SubmitAttestations" in
  match json_DecodeRaw pk (Body r) with
  | DecodeEOF => HandleError "No data submitted" StatusBadRequest
  | DecodeError err =>
      HandleError ("Could not decode request body: " ++ err) StatusBadRequest
  | DecodeOk data =>
      res <- handleAttestations ctx data ;;
      let '(attFailures, failedBroadcasts, err) := res in
      match err with
      | Some err => HandleError err StatusBadRequest
      | None => respondAttestations attFailures failedBroadcasts
      end
  end.

Definition SubmitAttestationsV2 (r : Request) : M unit :=
  let ctx := StartSpan (Ctx r) "beacon.SubmitAttestationsV2" in
  let versionHeader := Header r VersionHeader in
  if String.eqb versionHeader "" then
    HandleError (VersionHeader ++ " header is required") StatusBadRequest
  else
    match version_FromString pk versionHeader with
    | inl err => HandleError ("Invalid version: " ++ err) StatusBadRequest
    | inr v =>
        match json_DecodeRaw pk (Body r) with
        | DecodeEOF => HandleError "No data submitted" StatusBadRequest
        | DecodeError err =>
            HandleError ("Could not decode request body: " ++ err) StatusBadRequest
        | DecodeOk data =>
            res <- (if Nat.leb version.Electra v
                    then handleAttestationsElectra ctx data
                    else handleAttestations ctx data) ;;
            let '(attFailures, failedBroadcasts, err) := res in
            match err with
            | Some err =>
                HandleError ("Failed to handle attestations: " ++ err) StatusBadRequest
            | None => respondAttestations attFailures failedBroadcasts
            end
        end
    end.

(* ---------------------------------------------------------------- *)
(** *** Voluntary exits *)

Definition doInsertVoluntaryExit (e : eth.SignedVoluntaryExit) : M unit :=
  fun w => (tt, InsertVoluntaryExit s e w, [EvInsertVoluntaryExit e]).

Definition SubmitVoluntaryExit (r : Request) : M unit :=
  let ctx := StartSpan (Ctx r) "beacon.SubmitVoluntaryExit" in
  match json_DecodeExit pk (Body r) with
  | DecodeEOF => HandleError "No data submitted" StatusBadRequest
  | DecodeError err =>
      HandleError ("Could not decode request body: " ++ err) StatusBadRequest
  | DecodeOk req =>
      match SignedVoluntaryExit_ToConsensus pk req with
      | inl err =>
          HandleError ("Could not convert request exit to consensus exit: " ++ err)
            StatusBadRequest
      | inr exit =>
          headState <- call (HeadState s ctx) ;;
          match headState with
          | inl err =>
              HandleError ("Could not get head state: " ++ err) StatusInternalServerError
          | inr headState =>
              match slots_EpochStart pk (eth.Exit_Epoch (eth.SignedExit_Exit exit)) with
              | inl err =>
                  HandleError ("Could not get epoch start: " ++ err)
                    StatusInternalServerError
              | inr epochStart =>
                  match ProcessSlotsIfPossible pk ctx headState epochStart with
                  | inl err =>
                      HandleError ("Could not process slots: " ++ err)
                        StatusInternalServerError
                  | inr headState =>
                      match ValidatorAtIndexReadOnly pk headState
                              (eth.Exit_ValidatorIndex (eth.SignedExit_Exit exit)) with
                      | inl (ErrOutOfBounds err) =>
                          HandleError ("Could not get validator: " ++ err) StatusBadRequest
                      | inl (ErrOther err) =>
                          HandleError ("Could not get validator: " ++ err)
                            StatusInternalServerError
                      | inr val =>
                          match VerifyExitAndSignature pk val headState exit with
                          | Some err =>
                              HandleError ("Invalid exit: " ++ err) StatusBadRequest
                          | None =>
                              doInsertVoluntaryExit exit ;;;
                              err <- doBroadcast ctx (eth.MsgVoluntaryExit exit) ;;
                              match err with
                              | Some err =>
                                  HandleError ("Could not broadcast exit: " ++ err)
                                    StatusInternalServerError
                              | None => ret tt
                              end
                          end
                      end
                  end
              end
          end
      end
  end.

(* ---------------------------------------------------------------- *)
(** *** BLS to execution changes *)

Definition doInsertBLSToExecChange (c : eth.SignedBLSToExecutionChange) : M unit :=
  fun w => (tt, InsertBLSToExecChange s c w, [EvInsertBLSToExecChange c]).

(** A slice of pointers: an element may be [nil]. *)
Definition Changes : Type := list (option eth.SignedBLSToExecutionChange).

(** The loop of [SubmitBLSToExecutionChanges] over [req], from index [i];
    the result is [(failures, toBroadcast)]. *)
Fixpoint validateBLSChanges (st : BeaconState) (i : nat)
  (req : list (structs_SignedBLSToExecutionChange T))
  : M (list IndexedVerificationFailure * Changes) :=
  match req with
  | [] => ret ([], [])
  | change :: rest =>
      match SignedBLSToExecutionChange_ToConsensus pk change with
      | inl err =>
          res <- validateBLSChanges st (S i) rest ;;
          ret ({| Index := i;
                  Message := "Unable to decode SignedBLSToExecutionChange: " ++ err |}
                 :: fst res, snd res)
      | inr sbls =>
          match ValidateBLSToExecutionChange pk st sbls with
          | Some err =>
              res <- validateBLSChanges st (S i) rest ;;
              ret ({| Index := i;
                      Message := "Could not validate SignedBLSToExecutionChange: " ++ err |}
                     :: fst res, snd res)
          | None =>
              match VerifyBLSChangeSignature pk st sbls with
              | Some err =>
                  res <- validateBLSChanges st (S i) rest ;;
                  ret ({| Index := i;
                          Message := "Could not validate signature: " ++ err |}
                         :: fst res, snd res)
              | None =>
                  FeedSend (BLSToExecutionChangeReceived sbls) ;;;
                  doInsertBLSToExecChange sbls ;;;
                  res <- validateBLSChanges st (S i) rest ;;
                  ret (fst res,
                       if Nat.leb version.Capella (Version pk st)
                       then Some sbls :: snd res
                       else snd res)
              end
          end
      end
  end.

(** The [go] statement of [SubmitBLSToExecutionChanges]: the function
    started and its arguments. *)
Inductive GoStmt :=
| GoBroadcastBLSChanges (ctx : Context) (changes : Changes).

(** The handler returns the goroutine it started, if it reached the [go]
    statement. *)
Definition SubmitBLSToExecutionChanges (r : Request) : M (option GoStmt) :=
  let ctx := StartSpan (Ctx r) "beacon.SubmitBLSToExecutionChanges" in
  st <- call (HeadStateReadOnly s ctx) ;;
  match st with
  | inl err =>
      HandleError ("Could not get head state: " ++ err) StatusInternalServerError ;;;
      ret None
  | inr st =>
      match json_DecodeBLSChanges pk (Body r) with
      | DecodeEOF => HandleError "No data submitted" StatusBadRequest ;;; ret None
      | DecodeError err =>
          HandleError ("Could not decode request body: " ++ err) StatusBadRequest ;;;
          ret None
      | DecodeOk req =>
          if Nat.eqb (List.length req) 0 then
            HandleError "No data submitted" StatusBadRequest ;;; ret None
          else
            res <- validateBLSChanges st 0 req ;;
            let '(failures, toBroadcast) := res in
            (if Nat.ltb 0 (List.length failures) then
               WriteError {| Code := StatusBadRequest;
                             ErrMessage := "One or more BLSToExecutionChange failed validation";
                             Failures := failures |}
             else ret tt) ;;;
            ret (Some (GoBroadcastBLSChanges ctx toBroadcast))
      end
  end.

(** The [for] loop of [broadcastBLSBatch] over the first [limit] elements
    of the slice. *)
Fixpoint broadcastBLSEach (ctx : Context) (st : BeaconState) (batch : Changes)
  : M unit :=
  match batch with
  | [] => ret tt
  | None :: rest => broadcastBLSEach ctx st rest
  | Some ch :: rest =>
      match ValidateBLSToExecutionChange pk st ch with
      | Some _ => broadcastBLSEach ctx st rest
      | None =>
          doBroadcast ctx (eth.MsgBLSChange ch) ;;;
          broadcastBLSEach ctx st rest
      end
  end.

(** [broadcastBLSBatch]: the result is the slice behind [ptr] on return. *)
Definition broadcastBLSBatch (ctx : Context) (changes : Changes) : M Changes :=
  let limit :=
    if Nat.ltb (List.length changes) broadcastBLSChangesRateLimit
    then List.length changes
    else broadcastBLSChangesRateLimit in
  st <- call (HeadStateReadOnly s ctx) ;;
  match st with
  | inl _ => ret changes
  | inr st =>
      broadcastBLSEach ctx st (firstn limit changes) ;;;
      ret (skipn limit changes)
  end.

(** The [select] of [broadcastBLSChanges]: it blocks until the ticker fires
    or [ctx.Done()] is closed.  If the context is not done when it wakes up,
    the ticker has fired; if it is, the [Done] case is taken unless the
    ticker is ready too and the runtime picks it. *)
Definition selectDoneOrTick (ctx : Context) : M SelectCase :=
  fun w =>
    let w1 := select_wake s w in
    let c := if ctx_done (cancelled s w1) ctx
             then (if ticker_chosen s w1 then CaseTick else CaseDone)
             else CaseTick in
    (c, w1, [EvSelect c]).

(** The [for] loop of [broadcastBLSChanges].  The loop can run for ever
    (the head state may never be available), so it is given [fuel]: the
    result is [None] when the fuel runs out, and otherwise the content of
    [changes] when the function returns. *)
Fixpoint broadcastBLSTicks (fuel : nat) (ctx : Context) (changes : Changes)
  : M (option Changes) :=
  match fuel with
  | 0 => ret None
  | S fuel =>
      c <- selectDoneOrTick ctx ;;
      match c with
      | CaseDone => ret (Some changes)
      | CaseTick =>
          changes <- broadcastBLSBatch ctx changes ;;
          if Nat.eqb (List.length changes) 0 then ret (Some changes)
          else broadcastBLSTicks fuel ctx changes
      end
  end.

Definition broadcastBLSChanges (fuel : nat) (ctx : Context) (changes : Changes)
  : M (option Changes) :=
  changes <- broadcastBLSBatch ctx changes ;;
  if Nat.eqb (List.length changes) 0 then ret (Some changes)
  else broadcastBLSTicks fuel ctx changes.

Definition runGo (fuel : nat) (g : GoStmt) : M (option Changes) :=
  match g with
  | GoBroadcastBLSChanges ctx changes => broadcastBLSChanges fuel ctx changes
  end.

(* ---------------------------------------------------------------- *)
(** *** Listing attestations and attester slashings (V2) *)

(** Modelled from the spec: [shared.UintFromQuery] is not part of the
    sources at hand; an absent parameter matches any value, and a present
    parameter that does not parse is answered with a 400.  The result is
    [(raw, value, ok)]. *)
Definition UintFromQuery (r : Request) (name : string) (required : bool)
  : M (string * N * bool) :=
  let raw := Query r name in
  if String.eqb raw "" && negb required then ret ("", 0%N, true)
  else
    match strconv_ParseUint pk raw with
    | inl err =>
        HandleError (name ++ " is invalid: " ++ err) StatusBadRequest ;;;
        ret ("", 0%N, false)
    | inr v => ret (raw, v, true)
    end.

Definition shouldIncludeAttestation (data : eth.AttestationData)
  (rawSlot : string) (slot : N) (rawCommitteeIndex : string) (committeeIndex : N)
  : bool :=
  let committeeIndexMatch :=
    if negb (String.eqb rawCommitteeIndex "")
       && negb (N.eqb (eth.Data_CommitteeIndex data) committeeIndex)
    then false else true in
  let slotMatch :=
    if negb (String.eqb rawSlot "") && negb (N.eqb (eth.Data_Slot data) slot)
    then false else true in
  committeeIndexMatch && slotMatch.

(** What the verb [%T] prints. *)
Definition typeOfAtt (a : eth.Att) : string :=
  match a with
  | eth.AttPhase0 _ => "*eth.Attestation"
  | eth.AttElectra _ => "*eth.AttestationElectra"
  end.

Definition typeOfSlashing (a : eth.AttSlashing) : string :=
  match a with
  | eth.SlashingPhase0 _ => "*eth.AttesterSlashing"
  | eth.SlashingElectra _ => "*eth.AttesterSlashingElectra"
  end.

(** The loop of [ListAttestationsV2]: [inl msg] is the early return after
    a failed type assertion, [inr filteredAtts] the slice built otherwise. *)
Fixpoint filterAttestationsV2 (headVersion : nat)
  (rawSlot : string) (slot : N) (rawCommitteeIndex : string) (committeeIndex : N)
  (attestations : list eth.Att) : string + list (AttEntry T) :=
  match attestations with
  | [] => inr []
  | att :: rest =>
      let continue (entry : option (AttEntry T)) :=
        match filterAttestationsV2 headVersion rawSlot slot rawCommitteeIndex
                committeeIndex rest with
        | inl msg => inl msg
        | inr filteredAtts =>
            inr (match entry with
                 | Some e => e :: filteredAtts
                 | None => filteredAtts
                 end)
        end in
      if Nat.leb version.Electra headVersion then
        match att with
        | eth.AttElectra attElectra =>
            if shouldIncludeAttestation (eth.AttE_Data attElectra)
                 rawSlot slot rawCommitteeIndex committeeIndex
            then continue (Some (EntryAttElectra T (AttElectraFromConsensus pk attElectra)))
            else continue None
        | _ => inl ("Unable to convert attestation of type " ++ typeOfAtt att)
        end
      else
        match att with
        | eth.AttPhase0 attOld =>
            if shouldIncludeAttestation (eth.Att_Data attOld)
                 rawSlot slot rawCommitteeIndex committeeIndex
            then continue (Some (EntryAtt T (AttFromConsensus pk attOld)))
            else continue None
        | _ => inl ("Unable to convert attestation of type " ++ typeOfAtt att)
        end
  end.

Definition ListAttestationsV2 (r : Request) : M unit :=
  let ctx := StartSpan (Ctx r) "beacon.ListAttestationsV2" in
  q1 <- UintFromQuery r "slot" false ;;
  let '(rawSlot, slot, ok) := q1 in
  if negb ok then ret tt else
  q2 <- UintFromQuery r "committee_index" false ;;
  let '(rawCommitteeIndex, committeeIndex, ok) := q2 in
  if negb ok then ret tt else
  headState <- call (HeadStateReadOnly s ctx) ;;
  match headState with
  | inl err => HandleError ("Could not get head state: " ++ err) StatusInternalServerError
  | inr headState =>
      attestations <- call (AggregatedAttestations s) ;;
      unaggAtts <- call (UnaggregatedAttestations s) ;;
      match unaggAtts with
      | inl err =>
          HandleError ("Could not get unaggregated attestations: " ++ err)
            StatusInternalServerError
      | inr unaggAtts =>
          let attestations := (attestations ++ unaggAtts)%list in
          match filterAttestationsV2 (Version pk headState) rawSlot slot
                  rawCommitteeIndex committeeIndex attestations with
          | inl msg => HandleError msg StatusInternalServerError
          | inr filteredAtts =>
              match json_MarshalAttestations pk filteredAtts with
              | inl err =>
                  HandleError ("Could not marshal attestations: " ++ err)
                    StatusInternalServerError
              | inr attsData =>
                  WriteJson (ListAttestationsResponse
                               (version_String pk (Version pk headState)) attsData)
              end
          end
      end
  end.

(** The loop of [GetAttesterSlashingsV2]. *)
Fixpoint convertSlashingsV2 (headVersion : nat) (sourceSlashings : list eth.AttSlashing)
  : string + list (SlashingEntry T) :=
  match sourceSlashings with
  | [] => inr []
  | slashing :: rest =>
      let continue (attStruct : SlashingEntry T) :=
        match convertSlashingsV2 headVersion rest with
        | inl msg => inl msg
        | inr attStructs => inr (attStruct :: attStructs)
        end in
      if Nat.leb version.Electra headVersion then
        match slashing with
        | eth.SlashingElectra a =>
            continue (EntrySlashingElectra T (AttesterSlashingElectraFromConsensus pk a))
        | _ => inl ("Unable to convert slashing of type " ++ typeOfSlashing slashing
                    ++ " to an Electra slashing")
        end
      else
        match slashing with
        | eth.SlashingPhase0 a =>
            continue (EntrySlashing T (AttesterSlashingFromConsensus pk a))
        | _ => inl ("Unable to convert slashing of type " ++ typeOfSlashing slashing
                    ++ " to a Phase0 slashing")
        end
  end.

Definition GetAttesterSlashingsV2 (r : Request) : M unit :=
  let ctx := StartSpan (Ctx r) "beacon.GetAttesterSlashingsV2" in
  headState <- call (HeadStateReadOnly s ctx) ;;
  match headState with
  | inl err => HandleError ("Could not get head state: " ++ err) StatusInternalServerError
  | inr headState =>
      sourceSlashings <- call (PendingAttesterSlashings s ctx headState true) ;;
      match convertSlashingsV2 (Version pk headState) sourceSlashings with
      | inl msg => HandleError msg StatusInternalServerError
      | inr attStructs =>
          match json_MarshalSlashings pk attStructs with
          | inl err =>
              HandleError ("Failed to marshal slashing: " ++ err) StatusInternalServerError
          | inr attBytes =>
              emit (EvSetHeader VersionHeader (version_String pk (Version pk headState))) ;;;
              WriteJson (GetAttesterSlashingsResponse
                           (version_String pk (Version pk headState)) attBytes)
          end
      end
  end.

(* ---------------------------------------------------------------- *)
(** *** Submitting slashings *)

Definition doInsertAttesterSlashing (ctx : Context) (st : BeaconState)
  (sl : eth.AttSlashing) : M (option Error) :=
  callEv (InsertAttesterSlashing s ctx st sl) (EvInsertAttesterSlashing sl).

Definition doInsertProposerSlashing (ctx : Context) (st : BeaconState)
  (sl : eth.ProposerSlashing) : M (option Error) :=
  callEv (InsertProposerSlashing s ctx st sl) (EvInsertProposerSlashing sl).

Definition submitAttesterSlashing (ctx : Context) (slashing : eth.AttSlashing) : M unit :=
  headState <- call (HeadState s ctx) ;;
  match headState with
  | inl err => HandleError ("Could not get head state: " ++ err) StatusInternalServerError
  | inr headState =>
      match ProcessSlotsIfPossible pk ctx headState
              (eth.Data_Slot (eth.Indexed_Data (eth.FirstAttestation slashing))) with
      | inl err => HandleError ("Could not process slots: " ++ err) StatusInternalServerError
      | inr headState =>
          match VerifyAttesterSlashing pk ctx headState slashing with
          | Some err => HandleError ("Invalid attester slashing: " ++ err) StatusBadRequest
          | None =>
              err <- doInsertAttesterSlashing ctx headState slashing ;;
              match err with
              | Some err =>
                  HandleError ("Could not insert attester slashing into pool: " ++ err)
                    StatusInternalServerError
              | None =>
                  FeedSend (AttesterSlashingReceived slashing) ;;;
                  if negb (DisableBroadcastSlashings pk) then
                    err <- doBroadcast ctx (eth.MsgAttSlashing slashing) ;;
                    match err with
                    | Some err =>
                        HandleError ("Could not broadcast slashing object: " ++ err)
                          StatusInternalServerError
                    | None => ret tt
                    end
                  else ret tt
              end
          end
      end
  end.

Definition SubmitAttesterSlashings (r : Request) : M unit :=
  let ctx := StartSpan (Ctx r) "beacon.SubmitAttesterSlashings" in
  match json_DecodeAttesterSlashing pk (Body r) with
  | DecodeEOF => HandleError "No data submitted" StatusBadRequest
  | DecodeError err =>
      HandleError ("Could not decode request body: " ++ err) StatusBadRequest
  | DecodeOk req =>
      match AttesterSlashing_ToConsensus pk req with
      | inl err =>
          HandleError ("Could not convert request slashing to consensus slashing: " ++ err)
            StatusBadRequest
      | inr slashing => submitAttesterSlashing ctx (eth.SlashingPhase0 slashing)
      end
  end.

(** In the source the branch that reports the missing header does not
    return: control falls through to [version.FromString]. *)
Definition SubmitAttesterSlashingsV2 (r : Request) : M unit :=
  let ctx := StartSpan (Ctx r) "beacon.SubmitAttesterSlashingsV2" in
  let versionHeader := Header r VersionHeader in
  (if String.eqb versionHeader ""
   then HandleError (VersionHeader ++ " header is required") StatusBadRequest
   else ret tt) ;;;
  match version_FromString pk versionHeader with
  | inl err => HandleError ("Invalid version: " ++ err) StatusBadRequest
  | inr v =>
      if Nat.leb version.Electra v then
        match json_DecodeAttesterSlashingElectra pk (Body r) with
        | DecodeEOF => HandleError "No data submitted" StatusBadRequest
        | DecodeError err =>
            HandleError ("Could not decode request body: " ++ err) StatusBadRequest
        | DecodeOk req =>
            match AttesterSlashingElectra_ToConsensus pk req with
            | inl err =>
                HandleError
                  ("Could not convert request slashing to consensus slashing: " ++ err)
                  StatusBadRequest
            | inr slashing => submitAttesterSlashing ctx (eth.SlashingElectra slashing)
            end
        end
      else
        match json_DecodeAttesterSlashing pk (Body r) with
        | DecodeEOF => HandleError "No data submitted" StatusBadRequest
        | DecodeError err =>
            HandleError ("Could not decode request body: " ++ err) StatusBadRequest
        | DecodeOk req =>
            match AttesterSlashing_ToConsensus pk req with
            | inl err =>
                HandleError
                  ("Could not convert request slashing to consensus slashing: " ++ err)
                  StatusBadRequest
            | inr slashing => submitAttesterSlashing ctx (eth.SlashingPhase0 slashing)
            end
        end
  end.

Definition SubmitProposerSlashing (r : Request) : M unit :=
  let ctx := StartSpan (Ctx r) "beacon.SubmitProposerSlashing" in
  match json_DecodeProposerSlashing pk (Body r) with
  | DecodeEOF => HandleError "No data submitted" StatusBadRequest
  | DecodeError err =>
      HandleError ("Could not decode request body: " ++ err) StatusBadRequest
  | DecodeOk req =>
      match ProposerSlashing_ToConsensus pk req with
      | inl err =>
          HandleError ("Could not convert request slashing to consensus slashing: " ++ err)
            StatusBadRequest
      | inr slashing =>
          headState <- call (HeadState s ctx) ;;
          match headState with
          | inl err =>
              HandleError ("Could not get head state: " ++ err) StatusInternalServerError
          | inr headState =>
              match ProcessSlotsIfPossible pk ctx headState
                      (eth.Header_Slot (eth.SignedHeader_Header (eth.Header_1 slashing))) with
              | inl err =>
                  HandleError ("Could not process slots: " ++ err) StatusInternalServerError
              | inr headState =>
                  match VerifyProposerSlashing pk headState slashing with
                  | Some err =>
                      HandleError ("Invalid proposer slashing: " ++ err) StatusBadRequest
                  | None =>
                      err <- doInsertProposerSlashing ctx headState slashing ;;
                      match err with
                      | Some err =>
                          HandleError
                            ("Could not insert proposer slashing into pool: " ++ err)
                            StatusInternalServerError
                      | None =>
                          FeedSend (ProposerSlashingReceived slashing) ;;;
                          if negb (DisableBroadcastSlashings pk) then
                            err <- doBroadcast ctx (eth.MsgProposerSlashing slashing) ;;
                            match err with
                            | Some err =>
                                HandleError ("Could not broadcast slashing object: " ++ err)
                                  StatusInternalServerError
                            | None => ret tt
                            end
                          else ret tt
                      end
                  end
              end
          end
      end
  end.

(* ---------------------------------------------------------------- *)
(** ** Reading traces *)

Definition result_of {A} (x : A * World * list Event) : A := fst (fst x).
Definition world_of {A} (x : A * World * list Event) : World := snd (fst x).
Definition trace_of {A} (x : A * World * list Event) : list Event := snd x.

(** The three kinds of side effect of an ingestion step. *)
Inductive Kind := Notify | Gossip | PoolInsert.

Definition effectKind (e : Event) : option Kind :=
  match e with
  | EvFeedSend _ => Some Notify
  | EvBroadcastAttestation _ _ _ | EvBroadcast _ _ => Some Gossip
  | EvSaveAggregatedAttestation _ _ | EvSaveUnaggregatedAttestation _ _
  | EvInsertVoluntaryExit _ | EvInsertBLSToExecChange _
  | EvInsertAttesterSlashing _ _ | EvInsertProposerSlashing _ _ => Some PoolInsert
  | _ => None
  end.

Fixpoint kinds (tr : list Event) : list Kind :=
  match tr with
  | [] => []
  | e :: tr =>
      match effectKind e with
      | Some k => k :: kinds tr
      | None => kinds tr
      end
  end.

(** notifier, then broadcast, then pool insert *)
Definition rankNotifyGossipInsert (k : Kind) : nat :=
  match k with Notify => 0 | Gossip => 1 | PoolInsert => 2 end.

(** pool insert, then notifier, then broadcast *)
Definition rankInsertNotifyGossip (k : Kind) : nat :=
  match k with PoolInsert => 0 | Notify => 1 | Gossip => 2 end.

(** Every effect of [tr] happens once at most, in the order of [rank]. *)
Definition inOrder (rank : Kind -> nat) (tr : list Event) : Prop :=
  StronglySorted (fun a b => rank a < rank b) (kinds tr).

Definition isSave (e : Event) : bool :=
  match e with
  | EvSaveAggregatedAttestation _ _ | EvSaveUnaggregatedAttestation _ _ => true
  | _ => false
  end.

(** attestations given to the pool, in order *)
Fixpoint savedAtts (tr : list Event) : list eth.Att :=
  match tr with
  | [] => []
  | EvSaveAggregatedAttestation a _ :: tr => a :: savedAtts tr
  | EvSaveUnaggregatedAttestation a _ :: tr => a :: savedAtts tr
  | _ :: tr => savedAtts tr
  end.

(** attestations whose broadcast succeeded / failed, in order *)
Fixpoint broadcastAtts (ok : bool) (tr : list Event) : list eth.Att :=
  match tr with
  | [] => []
  | EvBroadcastAttestation _ a err :: tr =>
      match err, ok with
      | None, true | Some _, false => a :: broadcastAtts ok tr
      | _, _ => broadcastAtts ok tr
      end
  | _ :: tr => broadcastAtts ok tr
  end.

(** messages handed to [Broadcaster.Broadcast], in order *)
Fixpoint broadcastMsgs (tr : list Event) : list eth.ProtoMessage :=
  match tr with
  | [] => []
  | EvBroadcast m _ :: tr => m :: broadcastMsgs tr
  | _ :: tr => broadcastMsgs tr
  end.

(** what is written to the [http.ResponseWriter], in order *)
Definition isResponse (e : Event) : bool :=
  match e with
  | EvHandleError _ _ | EvWriteError _ | EvWriteJson _ | EvSetHeader _ _ => true
  | _ => false
  end.

Definition response (tr : list Event) : list Event := filter isResponse tr.

(** Events of one iteration of the second loop of [handleAttestations]. *)
Definition notifyEvents (a : eth.Att) : list Event :=
  if IsAggregated a then [] else [EvFeedSend (UnaggregatedAttReceived a)].

Definition saveEvent (a : eth.Att) (err : option Error) : Event :=
  if IsAggregated a
  then EvSaveAggregatedAttestation a err
  else EvSaveUnaggregatedAttestation a err.

(** [failedBroadcasts = append(failedBroadcasts, strconv.Itoa(i))], seen from
    the iterations that follow. *)
Definition consFailed (i : nat) (r : Error + list string) : Error + list string :=
  match r with
  | inl e => inl e
  | inr failedBroadcasts => inr (Itoa i :: failedBroadcasts)
  end.

(** The shape of the traces of the second loop, for the attestations
    [atts] starting at index [i]: every iteration notifies (unaggregated
    attestations only), then either gives up before the broadcast, or
    broadcasts without success, or broadcasts and saves; [inl] is the early
    return of the Electra loop. *)
Inductive phaseB : nat -> list eth.Att -> Error + list string -> list Event -> Prop :=
| PB_nil i : phaseB i [] (inr []) []
| PB_noValidators i a rest r tr :
    phaseB (S i) rest r tr ->
    phaseB i (a :: rest) (consFailed i r) (notifyEvents a ++ tr)%list
| PB_broadcastFailed i a rest r tr subnet err :
    phaseB (S i) rest r tr ->
    phaseB i (a :: rest) (consFailed i r)
      (notifyEvents a ++ EvBroadcastAttestation subnet a (Some err) :: tr)%list
| PB_saved i a rest r tr subnet err :
    phaseB (S i) rest r tr ->
    phaseB i (a :: rest) r
      (notifyEvents a ++ EvBroadcastAttestation subnet a None :: saveEvent a err :: tr)%list
| PB_fatal i a rest e :
    phaseB i (a :: rest) (inl e) (notifyEvents a).

(** The shape of the traces of [broadcastBLSChanges]: rounds of at most
    [broadcastBLSChangesRateLimit] broadcasts, separated by a tick of the
    ticker, possibly ended by the [Done] case of the [select]. *)
Definition isRound (tr : list Event) : Prop :=
  List.length tr <= broadcastBLSChangesRateLimit /\
  Forall (fun e => exists c err, e = EvBroadcast (eth.MsgBLSChange c) err) tr.

Inductive rounds : list Event -> Prop :=
| Rounds_last round : isRound round -> rounds round
| Rounds_done round : isRound round -> rounds (round ++ [EvSelect CaseDone])%list
| Rounds_tick round rest :
    isRound round -> rounds rest -> rounds (round ++ EvSelect CaseTick :: rest)%list.

(** The changes of a batch that pass the validation against [st]. *)
Fixpoint validChanges (st : BeaconState) (batch : Changes)
  : list eth.SignedBLSToExecutionChange :=
  match batch with
  | [] => []
  | None :: rest => validChanges st rest
  | Some ch :: rest =>
      match ValidateBLSToExecutionChange pk st ch with
      | Some _ => validChanges st rest
      | None => ch :: validChanges st rest
      end
  end.

(** The variant of an entry of a V2 list response is the one of the fork. *)
Definition attEntryOfFork (v : nat) (e : AttEntry T) : Prop :=
  match e with
  | EntryAttElectra _ _ => version.Electra <= v
  | EntryAtt _ _ => v < version.Electra
  end.

Definition slashingEntryOfFork (v : nat) (e : SlashingEntry T) : Prop :=
  match e with
  | EntrySlashingElectra _ _ => version.Electra <= v
  | EntrySlashing _ _ => v < version.Electra
  end.

Definition attOfFork (v : nat) (a : eth.Att) : bool :=
  match a with
  | eth.AttElectra _ => Nat.leb version.Electra v
  | eth.AttPhase0 _ => Nat.ltb v version.Electra
  end.

Definition slashingOfFork (v : nat) (a : eth.AttSlashing) : bool :=
  match a with
  | eth.SlashingElectra _ => Nat.leb version.Electra v
  | eth.SlashingPhase0 _ => Nat.ltb v version.Electra
  end.

(** In [tr], every event satisfying [isE] comes right after an event related
    to it by [isPrev]. *)
Definition precededBy (tr : list Event) (isE : Event -> Prop)
  (isPrev : Event -> Event -> Prop) : Prop :=
  forall pre e post,
    tr = (pre ++ e :: post)%list -> isE e ->
    exists pre' p, pre = (pre' ++ [p])%list /\ isPrev p e.

(** The same, read from left to right with the previous event at hand. *)
Fixpoint chain (isE : Event -> Prop) (isPrev : Event -> Event -> Prop)
  (prev : option Event) (tr : list Event) : Prop :=
  match tr with
  | [] => True
  | e :: tr =>
      (isE e -> exists p, prev = Some p /\ isPrev p e) /\
      chain isE isPrev (Some e) tr
  end.

(** a pool save of an attestation, right after its successful broadcast *)
Definition isSaveEvent (e : Event) : Prop := isSave e = true.

Definition savedAfterBroadcast (p e : Event) : Prop :=
  exists subnet a err, p = EvBroadcastAttestation subnet a None /\ e = saveEvent a err.

(** the broadcast of an unaggregated attestation, right after its
    notification *)
Definition isUnaggregatedBroadcast (e : Event) : Prop :=
  exists subnet a err,
    e = EvBroadcastAttestation subnet a err /\ IsAggregated a = false.

Definition broadcastAfterNotify (p e : Event) : Prop :=
  exists subnet a err,
    e = EvBroadcastAttestation subnet a err /\
    p = EvFeedSend (UnaggregatedAttReceived a).

(** What [respondAttestations] writes. *)
Definition respondTrace (attFailures : list IndexedVerificationFailure)
  (failedBroadcasts : list string) : list Event :=
  match failedBroadcasts, attFailures with
  | _ :: _, _ =>
      [EvHandleError
         ("Attestations at index " ++ strings_Join failedBroadcasts ", "
          ++ " could not be broadcasted")
         StatusInternalServerError]
  | [], _ :: _ =>
      [EvWriteError {| Code := StatusBadRequest;
                       ErrMessage := "One or more attestations failed validation";
                       Failures := attFailures |}]
  | [], [] => []
  end.

(** What holds of a run of [handleAttestations] or
    [handleAttestationsElectra]: the pool is given an attestation only
    right after its successful broadcast, once for each successful
    broadcast; the event after a failed broadcast is never a pool save; and
    [failedBroadcasts] has an entry for each failed broadcast. *)
Definition recordedNotSaved (run : HandleResult * World * list Event) : Prop :=
  let '(_, failedBroadcasts, err, _, tr) := run in
  precededBy tr isSaveEvent savedAfterBroadcast /\
  savedAtts tr = broadcastAtts true tr /\
  (forall pre subnet a e post,
      tr = (pre ++ EvBroadcastAttestation subnet a (Some e) :: post)%list ->
      match post with
      | x :: _ => isSave x = false
      | [] => True
      end) /\
  (err = None ->
   List.length (broadcastAtts false tr) <= List.length failedBroadcasts).

(** The handler of [SubmitAttestationsV2] for version [v]. *)
Definition handleAttestationsV2 (v : nat) (ctx : Context) (data : RawMessage)
  : M HandleResult :=
  if Nat.leb version.Electra v
  then handleAttestationsElectra ctx data
  else handleAttestations ctx data.

(** The position, among the attestations that pass the first loop, of the
    one submitted at index [q]: [q] less the number of failures reported
    before it. *)
Definition positionAmongSurvivors (attFailures : list IndexedVerificationFailure)
  (q : nat) : nat :=
  q - List.length (filter (fun f => Nat.ltb (Index f) q) attFailures).

(** What became of one attestation in the second loop of
    [handleAttestations] or [handleAttestationsElectra]: the validators of
    its epoch could not be read, or its broadcast failed, or it was
    broadcast and handed to the pool. *)
Inductive Outcome :=
| NoValidators
| BroadcastFailed (subnet : N) (err : Error)
| Saved (subnet : N) (saveErr : option Error).

(** The events of the iteration for [a], given what became of [a]. *)
Definition iterationEvents (a : eth.Att) (o : Outcome) : list Event :=
  (notifyEvents a ++
   match o with
   | NoValidators => []
   | BroadcastFailed subnet err => [EvBroadcastAttestation subnet a (Some err)]
   | Saved subnet saveErr =>
       [EvBroadcastAttestation subnet a None; saveEvent a saveErr]
   end)%list.

(** The events of the loop over [atts], iteration by iteration. *)
Fixpoint loopEvents (atts : list eth.Att) (outcomes : list Outcome) : list Event :=
  match atts, outcomes with
  | a :: atts, o :: outcomes => (iterationEvents a o ++ loopEvents atts outcomes)%list
  | _, _ => []
  end.

(** An iteration gives up when it ends in [continue]: the attestation is
    neither broadcast with success nor handed to the pool. *)
Definition gaveUp (o : Outcome) : bool :=
  match o with
  | Saved _ _ => false
  | NoValidators | BroadcastFailed _ _ => true
  end.

(** The positions, counted from [i], of the iterations that gave up. *)
Fixpoint positionsGivenUp (i : nat) (outcomes : list Outcome) : list nat :=
  match outcomes with
  | [] => []
  | o :: outcomes =>
      if gaveUp o then i :: positionsGivenUp (S i) outcomes
      else positionsGivenUp (S i) outcomes
  end.

(** What [failedBroadcasts] reports, read against the trace [tr] of the
    second loop.  The trace is made of one iteration for each attestation
    of [validAttestations], in order, and [failedBroadcasts] holds, in
    decimal and in order, the positions in [validAttestations] of the
    iterations that gave up, and of no other.  The attestation at such a
    position [k] was submitted at the index [q] of the batch of which [k]
    is the position among the survivors of the first loop; the two differ
    as soon as a failure is reported before [q]. *)
Definition reportsPositionsOfSurvivors {W A : Type} (toConsensus : W -> Error + A)
  (inj : A -> eth.Att) (src : list W) (attFailures : list IndexedVerificationFailure)
  (validAttestations : list A) (failedBroadcasts : list string) (tr : list Event)
  : Prop :=
  exists outcomes,
    List.length outcomes = List.length validAttestations /\
    tr = loopEvents (map inj validAttestations) outcomes /\
    failedBroadcasts = map Itoa (positionsGivenUp 0 outcomes) /\
    forall k,
      In k (positionsGivenUp 0 outcomes) ->
      exists att q sourceAtt,
        nth_error validAttestations k = Some att /\
        nth_error src q = Some sourceAtt /\
        toConsensus sourceAtt = inr att /\
        k = positionAmongSurvivors attFailures q /\
        ((exists f, In f attFailures /\ Index f < q) -> k < q /\ Itoa k <> Itoa q).

(** The 500 of [SubmitAttestations] and [SubmitAttestationsV2]. *)
Definition couldNotBeBroadcasted (failedBroadcasts : list string) : Event :=
  EvHandleError
    ("Attestations at index " ++ strings_Join failedBroadcasts ", "
     ++ " could not be broadcasted")
    StatusInternalServerError.

(** The 400 that carries the validation failures. *)
Definition failedValidation (attFailures : list IndexedVerificationFailure) : Event :=
  EvWriteError {| Code := StatusBadRequest;
                  ErrMessage := "One or more attestations failed validation";
                  Failures := attFailures |}.

(** Broadcast failures come first in the answer.  [run] is the run of the
    handle function inside the handler and [tr] the trace of the handler:
    a non-empty [failedBroadcasts] is answered with the 500 alone; the 400
    with the validation failures is written only when [failedBroadcasts]
    is empty and no broadcast failed; and a broadcast that failed makes
    [failedBroadcasts] non-empty, unless the handle function returned an
    error, which is answered with a 400 that carries [prefix] and the
    error. *)
Definition broadcastFailuresFirst (prefix : string)
  (run : HandleResult * World * list Event) (tr : list Event) : Prop :=
  let '(attFailures, failedBroadcasts, err, _, _) := run in
  (failedBroadcasts <> [] -> response tr = [couldNotBeBroadcasted failedBroadcasts]) /\
  (forall e,
      In (EvWriteError e) tr ->
      failedBroadcasts = [] /\ broadcastAtts false tr = [] /\ attFailures <> [] /\
      EvWriteError e = failedValidation attFailures) /\
  (broadcastAtts false tr <> [] ->
   failedBroadcasts <> [] \/
   exists e, err = Some e /\
             response tr = [EvHandleError (prefix ++ e) StatusBadRequest]).

(** Per attestation of a batch: the pool save comes right after the
    successful broadcast of the attestation, and the broadcast of an
    unaggregated attestation right after its notification. *)
Definition notifyThenBroadcastThenSave (tr : list Event) : Prop :=
  precededBy tr isSaveEvent savedAfterBroadcast /\
  precededBy tr isUnaggregatedBroadcast broadcastAfterNotify.

(** What the first loop of [SubmitBLSToExecutionChanges] hands to the
    goroutine, for the head state [st] read at the start of the handler and
    the trace [tr] of the handler: nothing below Capella, and otherwise only
    changes that passed both validations against [st] and were notified and
    inserted into the pool. *)
Definition gatedAtSubmission (st : BeaconState) (tr : list Event)
  (toBroadcast : Changes) : Prop :=
  (Version pk st < version.Capella -> toBroadcast = []) /\
  (forall c, In c toBroadcast ->
     exists sbls,
       c = Some sbls /\
       version.Capella <= Version pk st /\
       ValidateBLSToExecutionChange pk st sbls = None /\
       VerifyBLSChangeSignature pk st sbls = None /\
       In (EvFeedSend (BLSToExecutionChangeReceived sbls)) tr /\
       In (EvInsertBLSToExecChange sbls) tr).

End Gateway.

(* ------------------------------------------------------------------ *)
(** ** A simulated node

    Concrete collaborators on which the handlers can be run.  The wire
    structs are the consensus objects themselves, so that conversion never
    fails; a signature parses iff it is not empty.  The behaviour of the
    node is set by a [Config]. *)

Module Sim.

Definition structs : Structs := {|
  structs_Attestation := eth.Attestation;
  structs_AttestationElectra := eth.AttestationElectra;
  structs_SignedVoluntaryExit := eth.SignedVoluntaryExit;
  structs_SignedBLSToExecutionChange := eth.SignedBLSToExecutionChange;
  structs_AttesterSlashing := eth.AttesterSlashing;
  structs_AttesterSlashingElectra := eth.AttesterSlashingElectra;
  structs_ProposerSlashing := eth.ProposerSlashing |}.

(** The head state is reduced to its fork version. *)
Definition BeaconState : Type := nat.

Record World := {
  clock : nat;      (* how often a [select] has woken up *)
  headReads : nat   (* how often the head state has been read *) }.

Definition start : World := {| clock := 0; headReads := 0 |}.

Record Config := {
  (* what the JSON decoder finds in the request body *)
  bodyAttestations : list eth.Attestation;
  bodyAttestationsElectra : list eth.AttestationElectra;
  bodyChanges : list eth.SignedBLSToExecutionChange;
  (* the pools *)
  poolAttestations : list eth.Att;
  poolSlashings : list eth.AttSlashing;
  (* the node *)
  broadcastFails : bool;
  headStateFailsAt : nat -> bool;  (* does the n-th head read fail? *)
  forkAt : nat -> nat;             (* fork version at the n-th head read *)
  cancelledAt : nat -> nat -> bool (* cancel functions called by wake-up n *) }.

Definition checkpoint0 : eth.Checkpoint :=
  {| eth.Checkpoint_Epoch := 1; eth.Checkpoint_Root := [] |}.

Definition data0 : eth.AttestationData :=
  {| eth.Data_Slot := 64; eth.Data_CommitteeIndex := 1;
     eth.Data_BeaconBlockRoot := [];
     eth.Data_Source := checkpoint0; eth.Data_Target := checkpoint0 |}.

(** an unaggregated attestation with a signature that parses *)
Definition att0 : eth.Attestation :=
  {| eth.Att_AggregationBits := [true; false];
     eth.Att_Data := data0; eth.Att_Signature := [x01] |}.

(** an aggregated attestation with a signature that parses *)
Definition att1 : eth.Attestation :=
  {| eth.Att_AggregationBits := [true; true];
     eth.Att_Data := data0; eth.Att_Signature := [x02] |}.

(** an attestation whose signature does not parse *)
Definition attBadSig : eth.Attestation :=
  {| eth.Att_AggregationBits := [true; false];
     eth.Att_Data := data0; eth.Att_Signature := [] |}.

Definition attE0 : eth.AttestationElectra :=
  {| eth.AttE_AggregationBits := [true; false];
     eth.AttE_Data := data0; eth.AttE_Signature := [x01];
     eth.AttE_CommitteeBits := [false; true] |}.

Definition change (validator : N) : eth.SignedBLSToExecutionChange :=
  {| eth.SignedChange_Message :=
       {| eth.Change_ValidatorIndex := validator;
          eth.Change_FromBlsPubkey := [x0a];
          eth.Change_ToExecutionAddress := [x0b] |};
     eth.SignedChange_Signature := [x0c] |}.

Definition changesUpTo (n : nat) : list eth.SignedBLSToExecutionChange :=
  map (fun k => change (N.of_nat k)) (seq 0 n).

Definition indexed0 : eth.IndexedAttestation :=
  {| eth.Indexed_AttestingIndices := [3%N];
     eth.Indexed_Data := data0; eth.Indexed_Signature := [x01] |}.

Definition slashing0 : eth.AttesterSlashing :=
  {| eth.Attestation_1 := indexed0; eth.Attestation_2 := indexed0 |}.

Definition slashingE0 : eth.AttesterSlashingElectra :=
  {| eth.AttestationE_1 := indexed0; eth.AttestationE_2 := indexed0 |}.

Definition exit0 : eth.SignedVoluntaryExit :=
  {| eth.SignedExit_Exit := {| eth.Exit_Epoch := 2; eth.Exit_ValidatorIndex := 3 |};
     eth.SignedExit_Signature := [x01] |}.

Definition header0 : eth.SignedBeaconBlockHeader :=
  {| eth.SignedHeader_Header :=
       {| eth.Header_Slot := 64; eth.Header_ProposerIndex := 3;
          eth.Header_BodyRoot := [] |};
     eth.SignedHeader_Signature := [x01] |}.

Definition proposerSlashing0 : eth.ProposerSlashing :=
  {| eth.Header_1 := header0; eth.Header_2 := header0 |}.

Definition versionString (v : nat) : string :=
  match v with
  | 0 => "phase0" | 1 => "altair" | 2 => "bellatrix"
  | 3 => "capella" | 4 => "deneb" | 5 => "electra"
  | _ => "unknown version"
  end.

Definition versionFromString (name : string) : Error + nat :=
  if String.eqb name "phase0" then inr 0
  else if String.eqb name "altair" then inr 1
  else if String.eqb name "bellatrix" then inr 2
  else if String.eqb name "capella" then inr 3
  else if String.eqb name "deneb" then inr 4
  else if String.eqb name "electra" then inr 5
  else inl ("version name does not map to a known value: " ++ name).

(** An empty body is the end of input; any other body holds a value. *)
Definition decode {A} (found : A) (body : string) : Decoded A :=
  if String.eqb body "" then DecodeEOF else DecodeOk found.

(** first set bit of the committee bits *)
Fixpoint firstSet (i : N) (bits : list bool) : Error + N :=
  match bits with
  | [] => inl "no committee bits found in attestation"
  | true :: _ => inr i
  | false :: bits => firstSet (N.succ i) bits
  end.

(** a change is valid as long as its validator is below 1000 *)
Definition validateChange (st : BeaconState) (c : eth.SignedBLSToExecutionChange)
  : option Error :=
  if N.ltb (eth.Change_ValidatorIndex (eth.SignedChange_Message c)) 1000
  then None else Some "validator has already changed its credentials".

Definition packages (cfg : Config) : Packages structs BeaconState unit := {|
  json_DecodeRaw := fun body => decode body body;
  json_UnmarshalAttestations :=
    (fun _ => inr (bodyAttestations cfg))
    : RawMessage -> Error + list (structs_Attestation structs);
  json_UnmarshalAttestationsElectra := fun _ => inr (bodyAttestationsElectra cfg);
  json_DecodeExit := decode exit0;
  json_DecodeBLSChanges := decode (bodyChanges cfg);
  json_DecodeAttesterSlashing := decode slashing0;
  json_DecodeAttesterSlashingElectra := decode slashingE0;
  json_DecodeProposerSlashing := decode proposerSlashing0;
  json_MarshalAttestations := fun l => inr (Itoa (List.length l) ++ " attestations");
  json_MarshalSlashings := fun l => inr (Itoa (List.length l) ++ " slashings");
  strconv_ParseUint := fun _ => inl "invalid syntax";
  Attestation_ToConsensus := fun a => inr a;
  AttestationElectra_ToConsensus := fun a => inr a;
  SignedVoluntaryExit_ToConsensus := fun a => inr a;
  SignedBLSToExecutionChange_ToConsensus := fun a => inr a;
  AttesterSlashing_ToConsensus := fun a => inr a;
  AttesterSlashingElectra_ToConsensus := fun a => inr a;
  ProposerSlashing_ToConsensus := fun a => inr a;
  AttFromConsensus := fun a => a;
  AttElectraFromConsensus := fun a => a;
  AttesterSlashingFromConsensus := fun a => a;
  AttesterSlashingElectraFromConsensus := fun a => a;
  version_String := versionString;
  version_FromString := versionFromString;
  bls_SignatureFromBytes := fun sig =>
    match sig with [] => Some "could not unmarshal bytes into signature" | _ => None end;
  slots_ToEpoch := fun slot => N.div slot 32;
  slots_EpochStart := fun epoch => inr (N.mul epoch 32);
  ComputeSubnetFromCommitteeAndSlot := fun _ committee slot =>
    N.modulo (committee + slot) 64;
  GetCommitteeIndex := fun a => firstSet 0 (eth.AttE_CommitteeBits a);
  Version := fun st => st;
  ValidatorAtIndexReadOnly := fun _ _ => inr tt;
  ProcessSlotsIfPossible := fun _ st _ => inr st;
  VerifyExitAndSignature := fun _ _ _ => None;
  ValidateBLSToExecutionChange := validateChange;
  VerifyBLSChangeSignature := fun _ _ => None;
  VerifyAttesterSlashing := fun _ _ _ => None;
  VerifyProposerSlashing := fun _ _ => None;
  DisableBroadcastSlashings := false |}.

Definition readHead (cfg : Config) (w : World) : (Error + BeaconState) * World :=
  (if headStateFailsAt cfg (headReads w) then inl "head state is not available"
   else inr (forkAt cfg (headReads w)),
   {| clock := clock w; headReads := S (headReads w) |}).

Definition gossip (cfg : Config) (w : World) : option Error * World :=
  (if broadcastFails cfg then Some "no peers on the topic" else None, w).

Definition server (cfg : Config) : Server World BeaconState := {|
  HeadState := fun _ => readHead cfg;
  HeadStateReadOnly := fun _ => readHead cfg;
  HeadValidatorsIndices := fun _ _ w => (inr [0%N; 1%N; 2%N; 3%N], w);
  AggregatedAttestations := fun w => (poolAttestations cfg, w);
  UnaggregatedAttestations := fun w => (inr [], w);
  SaveAggregatedAttestation := fun _ w => (None, w);
  SaveUnaggregatedAttestation := fun _ w => (None, w);
  InsertVoluntaryExit := fun _ w => w;
  InsertBLSToExecChange := fun _ w => w;
  PendingAttesterSlashings := fun _ _ _ w => (poolSlashings cfg, w);
  InsertAttesterSlashing := fun _ _ _ w => (None, w);
  InsertProposerSlashing := fun _ _ _ w => (None, w);
  Broadcast := fun _ _ => gossip cfg;
  BroadcastAttestation := fun _ _ _ => gossip cfg;
  OperationFeed_Send := fun _ w => w;
  cancelled := fun w => cancelledAt cfg (clock w);
  select_wake := fun w => {| clock := S (clock w); headReads := headReads w |};
  ticker_chosen := fun _ => false |}.

(** A healthy node at Deneb: nothing fails, nothing is cancelled. *)
Definition healthy : Config := {|
  bodyAttestations := [att0];
  bodyAttestationsElectra := [attE0];
  bodyChanges := changesUpTo 3;
  poolAttestations := [eth.AttPhase0 att0; eth.AttPhase0 att1];
  poolSlashings := [eth.SlashingPhase0 slashing0];
  broadcastFails := false;
  headStateFailsAt := fun _ => false;
  forkAt := fun _ => version.Deneb;
  cancelledAt := fun _ _ => false |}.

(** The context of a request: its own cancel function is number 1, the
    one of the server's base context number 0. *)
Definition requestCtx : Context := WithCancel (WithCancel Background 0) 1.

Definition request (versionHeader body : string) : Request := {|
  Ctx := requestCtx;
  Header := fun key => if String.eqb key VersionHeader then versionHeader else "";
  Query := fun _ => "";
  Body := body |}.

(** A node whose broadcaster fails. *)
Definition deaf (atts : list eth.Attestation) : Config := {|
  bodyAttestations := atts;
  bodyAttestationsElectra := [attE0];
  bodyChanges := changesUpTo 3;
  poolAttestations := [];
  poolSlashings := [];
  broadcastFails := true;
  headStateFailsAt := fun _ => false;
  forkAt := fun _ => version.Deneb;
  cancelledAt := fun _ _ => false |}.

(** A healthy node that is sent an empty batch. *)
Definition emptyBatch : Config := {|
  bodyAttestations := [];
  bodyAttestationsElectra := [];
  bodyChanges := [];
  poolAttestations := [];
  poolSlashings := [];
  broadcastFails := false;
  headStateFailsAt := fun _ => false;
  forkAt := fun _ => version.Deneb;
  cancelledAt := fun _ _ => false |}.

(** A healthy node whose pools hold entries of both variants. *)
Definition mixedPools : Config := {|
  bodyAttestations := [];
  bodyAttestationsElectra := [];
  bodyChanges := [];
  poolAttestations := [eth.AttPhase0 att0; eth.AttElectra attE0];
  poolSlashings := [eth.SlashingPhase0 slashing0; eth.SlashingElectra slashingE0];
  broadcastFails := false;
  headStateFailsAt := fun _ => false;
  forkAt := fun _ => version.Deneb;
  cancelledAt := fun _ _ => false |}.

(** 129 changes are submitted, and the context of the request (cancel
    function 1) is cancelled before the first tick; the base context of
    the server (cancel function 0) is never cancelled. *)
Definition cancelledRequest : Config := {|
  bodyAttestations := [];
  bodyAttestationsElectra := [];
  bodyChanges := changesUpTo 129;
  poolAttestations := [];
  poolSlashings := [];
  broadcastFails := false;
  headStateFailsAt := fun _ => false;
  forkAt := fun _ => version.Capella;
  cancelledAt := fun clock id => Nat.eqb id 1 && Nat.leb 1 clock |}.

(** The head state is read at submission (read 0) but not in the first
    round of the loop (read 1). *)
Definition headOutage : Config := {|
  bodyAttestations := [];
  bodyAttestationsElectra := [];
  bodyChanges := changesUpTo 3;
  poolAttestations := [];
  poolSlashings := [];
  broadcastFails := false;
  headStateFailsAt := fun n => Nat.eqb n 1;
  forkAt := fun _ => version.Capella;
  cancelledAt := fun _ _ => false |}.

(** The head is at Bellatrix when the change is submitted (read 0) and at
    Capella from then on. *)
Definition forkTransition : Config := {|
  bodyAttestations := [];
  bodyAttestationsElectra := [];
  bodyChanges := changesUpTo 1;
  poolAttestations := [];
  poolSlashings := [];
  broadcastFails := false;
  headStateFailsAt := fun _ => false;
  forkAt := fun n => if Nat.eqb n 0 then version.Bellatrix else version.Capella;
  cancelledAt := fun _ _ => false |}.

(** an Electra attestation whose signature does not parse *)
Definition attEBadSig : eth.AttestationElectra :=
  {| eth.AttE_AggregationBits := [true; false];
     eth.AttE_Data := data0; eth.AttE_Signature := [];
     eth.AttE_CommitteeBits := [false; true] |}.

(** an Electra attestation with no committee bit set *)
Definition attENoBits : eth.AttestationElectra :=
  {| eth.AttE_AggregationBits := [true; false];
     eth.AttE_Data := data0; eth.AttE_Signature := [x01];
     eth.AttE_CommitteeBits := [false; false] |}.

(** A node whose broadcaster fails is sent, at Electra, an attestation
    with a bad signature, a well-formed one, and one whose committee index
    cannot be derived. *)
Definition deafElectra : Config := {|
  bodyAttestations := [];
  bodyAttestationsElectra := [attEBadSig; attE0; attENoBits];
  bodyChanges := [];
  poolAttestations := [];
  poolSlashings := [];
  broadcastFails := true;
  headStateFailsAt := fun _ => false;
  forkAt := fun _ => version.Electra;
  cancelledAt := fun _ _ => false |}.

(** Running a handler and then the goroutine it started, in the world
    the handler left. *)
Definition thenGo (fuel : nat) (cfg : Config)
  (run : option GoStmt * World * list Event)
  : option Changes * World * list Event :=
  match run with
  | (Some g, w, _) => runGo (packages cfg) (server cfg) fuel g w
  | (None, w, _) => (None, w, [])
  end.

End Sim.

(* ------------------------------------------------------------------ *)
(** ** The rest of the gateway: V1 lists and sync committee messages *)

(** [l1] is [l2] with some of its elements left out. *)
Inductive Subseq {A : Type} : list A -> list A -> Prop :=
| Subseq_nil : Subseq [] []
| Subseq_skip x l1 l2 : Subseq l1 l2 -> Subseq l1 (x :: l2)
| Subseq_keep x l1 l2 : Subseq l1 l2 -> Subseq (x :: l1) (x :: l2).

Section GatewayLists.

Context {T : Structs} {World BeaconState Validator : Type}.
Variable pk : Packages T BeaconState Validator.
Variable s : Server World BeaconState.

(** [json.Marshal] on the slices of the V1 list handlers. *)
Variable json_MarshalAttestationList :
  list (structs_Attestation T) -> Error + RawMessage.
Variable json_MarshalSlashingList :
  list (structs_AttesterSlashing T) -> Error + RawMessage.

Notation "x <- m ;; k" := (bind m (fun x => k))
  (at level 61, m at next level, right associativity).

(** The loop of [ListAttestations]: [inl msg] is the early return after a
    failed type assertion. *)
Fixpoint filterAttestations
  (rawSlot : string) (slot : N) (rawCommitteeIndex : string) (committeeIndex : N)
  (attestations : list eth.Att) : string + list (structs_Attestation T) :=
  match attestations with
  | [] => inr []
  | a :: rest =>
      match a with
      | eth.AttPhase0 att =>
          match filterAttestations rawSlot slot rawCommitteeIndex committeeIndex rest with
          | inl msg => inl msg
          | inr filteredAtts =>
              if shouldIncludeAttestation (eth.Att_Data att)
                   rawSlot slot rawCommitteeIndex committeeIndex
              then inr (AttFromConsensus pk att :: filteredAtts)
              else inr filteredAtts
          end
      | _ => inl ("Unable to convert attestation of type " ++ typeOfAtt a)
      end
  end.

(** [ListAttestations] discards the context of its span; the answer has no
    version. *)
Definition ListAttestations (r : Request) : M unit :=
  q1 <- UintFromQuery pk r "slot" false ;;
  let '(rawSlot, slot, ok) := q1 in
  if negb ok then ret tt else
  q2 <- UintFromQuery pk r "committee_index" false ;;
  let '(rawCommitteeIndex, committeeIndex, ok) := q2 in
  if negb ok then ret tt else
  attestations <- call (AggregatedAttestations s) ;;
  unaggAtts <- call (UnaggregatedAttestations s) ;;
  match unaggAtts with
  | inl err =>
      HandleError ("Could not get unaggregated attestations: " ++ err)
        StatusInternalServerError
  | inr unaggAtts =>
      let attestations := (attestations ++ unaggAtts)%list in
      match filterAttestations rawSlot slot rawCommitteeIndex committeeIndex
              attestations with
      | inl msg => HandleError msg StatusInternalServerError
      | inr filteredAtts =>
          match json_MarshalAttestationList filteredAtts with
          | inl err =>
              HandleError ("Could not marshal attestations: " ++ err)
                StatusInternalServerError
          | inr attsData => WriteJson (ListAttestationsResponse "" attsData)
          end
      end
  end.

(** The loop of [GetAttesterSlashings]. *)
Fixpoint convertSlashings (sourceSlashings : list eth.AttSlashing)
  : string + list (structs_AttesterSlashing T) :=
  match sourceSlashings with
  | [] => inr []
  | slashing :: rest =>
      match slashing with
      | eth.SlashingPhase0 as_ =>
          match convertSlashings rest with
          | inl msg => inl msg
          | inr slashings => inr (AttesterSlashingFromConsensus pk as_ :: slashings)
          end
      | _ => inl ("Unable to convert slashing of type " ++ typeOfSlashing slashing)
      end
  end.

Definition GetAttesterSlashings (r : Request) : M unit :=
  let ctx := StartSpan (Ctx r) "beacon.GetAttesterSlashings" in
  headState <- call (HeadStateReadOnly s ctx) ;;
  match headState with
  | inl err => HandleError ("Could not get head state: " ++ err) StatusInternalServerError
  | inr headState =>
      sourceSlashings <- call (PendingAttesterSlashings s ctx headState true) ;;
      match convertSlashings sourceSlashings with
      | inl msg => HandleError msg StatusInternalServerError
      | inr slashings =>
          match json_MarshalSlashingList slashings with
          | inl err =>
              HandleError ("Failed to marshal slashings: " ++ err)
                StatusInternalServerError
          | inr attBytes => WriteJson (GetAttesterSlashingsResponse "" attBytes)
          end
      end
  end.

(* ---------------------------------------------------------------- *)
(** *** Reading more of the traces *)

(** changes given to the BLS changes pool, in order *)
Fixpoint insertedChanges (tr : list Event) : list eth.SignedBLSToExecutionChange :=
  match tr with
  | [] => []
  | EvInsertBLSToExecChange c :: tr => c :: insertedChanges tr
  | _ :: tr => insertedChanges tr
  end.

(** The changes of a submission that pass the conversion and both
    validations against [st], in the order of the request. *)
Fixpoint acceptedChanges (st : BeaconState)
  (req : list (structs_SignedBLSToExecutionChange T))
  : list eth.SignedBLSToExecutionChange :=
  match req with
  | [] => []
  | change :: rest =>
      match SignedBLSToExecutionChange_ToConsensus pk change with
      | inl _ => acceptedChanges st rest
      | inr sbls =>
          match ValidateBLSToExecutionChange pk st sbls,
                VerifyBLSChangeSignature pk st sbls with
          | None, None => sbls :: acceptedChanges st rest
          | _, _ => acceptedChanges st rest
          end
      end
  end.

(** the changes of a batch that are not [nil] *)
Fixpoint presentChanges (changes : Changes) : list eth.SignedBLSToExecutionChange :=
  match changes with
  | [] => []
  | Some c :: rest => c :: presentChanges rest
  | None :: rest => presentChanges rest
  end.

(** how often the ticker case of the [select] was taken *)
Fixpoint countTicks (tr : list Event) : nat :=
  match tr with
  | [] => 0
  | EvSelect CaseTick :: tr => S (countTicks tr)
  | _ :: tr => countTicks tr
  end.

(** Does an item of a batch pass the first loop of [handleAttestations]
    (or of [handleAttestationsElectra]): its conversion succeeds and the
    signature parses. *)
Definition passesPhaseA {W A : Type} (toConsensus : W -> Error + A)
  (signature : A -> list byte) (sourceAtt : W) : bool :=
  match toConsensus sourceAtt with
  | inl _ => false
  | inr att =>
      match bls_SignatureFromBytes pk (signature att) with
      | Some _ => false
      | None => true
      end
  end.

(** What a failure reported for an index says about the item submitted at
    that index. *)
Definition explainsFailure {W A : Type} (toConsensus : W -> Error + A)
  (signature : A -> list byte) (src : list W) (f : IndexedVerificationFailure)
  : Prop :=
  exists sourceAtt,
    nth_error src (Index f) = Some sourceAtt /\
    ((exists err,
         toConsensus sourceAtt = inl err /\
         Message f =
         "Could not convert request attestation to consensus attestation: " ++ err) \/
     (exists att err,
         toConsensus sourceAtt = inr att /\
         bls_SignatureFromBytes pk (signature att) = Some err /\
         Message f = "Incorrect attestation signature: " ++ err)).

(** attestations announced on the operation feed, in order *)
Fixpoint notifiedAtts (tr : list Event) : list eth.Att :=
  match tr with
  | [] => []
  | EvFeedSend (UnaggregatedAttReceived a) :: tr => a :: notifiedAtts tr
  | _ :: tr => notifiedAtts tr
  end.

(** Is a pool save made through the method that fits the attestation? *)
Definition savedByKind (e : Event) : bool :=
  match e with
  | EvSaveAggregatedAttestation a _ => IsAggregated a
  | EvSaveUnaggregatedAttestation a _ => negb (IsAggregated a)
  | _ => true
  end.

(** The events that answer the request; setting a header does not. *)
Definition isAnswer (e : Event) : bool :=
  match e with
  | EvHandleError _ _ | EvWriteError _ | EvWriteJson _ => true
  | _ => false
  end.

(** Every answer is the last event of the trace: a handler answers once at
    most, and does nothing after it has answered. *)
Fixpoint answersLast (tr : list Event) : bool :=
  match tr with
  | [] => true
  | e :: rest =>
      if isAnswer e
      then match rest with [] => true | _ :: _ => false end
      else answersLast rest
  end.

(** What [SubmitVoluntaryExit] has checked of an exit before it gives it
    to the pool. *)
Definition exitVerified (r : Request) (w : World) (exit : eth.SignedVoluntaryExit)
  : Prop :=
  let ctx := StartSpan (Ctx r) "beacon.SubmitVoluntaryExit" in
  exists req headState w1 epochStart advanced val,
    json_DecodeExit pk (Body r) = DecodeOk req /\
    SignedVoluntaryExit_ToConsensus pk req = inr exit /\
    HeadState s ctx w = (inr headState, w1) /\
    slots_EpochStart pk (eth.Exit_Epoch (eth.SignedExit_Exit exit)) = inr epochStart /\
    ProcessSlotsIfPossible pk ctx headState epochStart = inr advanced /\
    ValidatorAtIndexReadOnly pk advanced
      (eth.Exit_ValidatorIndex (eth.SignedExit_Exit exit)) = inr val /\
    VerifyExitAndSignature pk val advanced exit = None.

(** What [submitAttesterSlashing] has checked of a slashing before it
    gives it to the pool. *)
Definition slashingVerified (ctx : Context) (w : World) (slashing : eth.AttSlashing)
  : Prop :=
  exists headState w1 advanced,
    HeadState s ctx w = (inr headState, w1) /\
    ProcessSlotsIfPossible pk ctx headState
      (eth.Data_Slot (eth.Indexed_Data (eth.FirstAttestation slashing)))
    = inr advanced /\
    VerifyAttesterSlashing pk ctx advanced slashing = None.

Definition proposerSlashingVerified (r : Request) (w : World)
  (slashing : eth.ProposerSlashing) : Prop :=
  let ctx := StartSpan (Ctx r) "beacon.SubmitProposerSlashing" in
  exists req headState w1 advanced,
    json_DecodeProposerSlashing pk (Body r) = DecodeOk req /\
    ProposerSlashing_ToConsensus pk req = inr slashing /\
    HeadState s ctx w = (inr headState, w1) /\
    ProcessSlotsIfPossible pk ctx headState
      (eth.Header_Slot (eth.SignedHeader_Header (eth.Header_1 slashing)))
    = inr advanced /\
    VerifyProposerSlashing pk advanced slashing = None.

End GatewayLists.

(* ------------------------------------------------------------------ *)
(** ** Sync committee messages

    [SubmitSyncCommitteeSignatures] hands the messages to the core service,
    which is one more collaborator; the messages themselves are opaque to
    the handler. *)

Section SyncCommittee.

Context {World : Type}.

(** [structs.SyncCommitteeMessage] and [eth.SyncCommitteeMessage] *)
Variable structs_SyncCommitteeMessage : Type.
Variable SyncCommitteeMessage : Type.

(** [core.RpcError]: the error and its reason. *)
Record RpcError := {
  Err : Error;
  Reason : nat }.

Variable json_DecodeSyncMessages : string -> Decoded (list structs_SyncCommitteeMessage).
Variable SyncCommitteeMessage_ToConsensus :
  structs_SyncCommitteeMessage -> Error + SyncCommitteeMessage.
(** [core.ErrorReasonToHTTP] *)
Variable ErrorReasonToHTTP : nat -> nat.
(** [CoreService.SubmitSyncMessage] *)
Variable SubmitSyncMessage :
  Context -> SyncCommitteeMessage -> World -> option RpcError * World.

(** The events of this handler: what it writes, and its calls of the core
    service with their outcome. *)
Inductive SyncEvent :=
| SyncAnswer (e : Event)
| EvSubmitSyncMessage (msg : SyncCommitteeMessage) (rpcerr : option RpcError).

(** the event of a message that the core service accepts *)
Definition acceptedMessage (msg : SyncCommitteeMessage) : SyncEvent :=
  EvSubmitSyncMessage msg None.

(** First loop: conversion, from index [i]; the result is
    [(msgFailures, validMessages)]. *)
Fixpoint convertSyncMessages (i : nat) (data : list structs_SyncCommitteeMessage)
  : list IndexedVerificationFailure * list SyncCommitteeMessage :=
  match data with
  | [] => ([], [])
  | sourceMsg :: rest =>
      let '(msgFailures, validMessages) := convertSyncMessages (S i) rest in
      match SyncCommitteeMessage_ToConsensus sourceMsg with
      | inl err =>
          ({| Index := i;
              Message := "Could not convert request message to consensus message: "
                         ++ err |} :: msgFailures, validMessages)
      | inr msg => (msgFailures, msg :: validMessages)
      end
  end.

(** Second loop: the first error of the core service ends it. *)
Fixpoint submitSyncMessages (ctx : Context) (validMessages : list SyncCommitteeMessage)
  (w : World) : option RpcError * World * list SyncEvent :=
  match validMessages with
  | [] => (None, w, [])
  | msg :: rest =>
      let '(rpcerr, w1) := SubmitSyncMessage ctx msg w in
      match rpcerr with
      | Some e => (Some e, w1, [EvSubmitSyncMessage msg (Some e)])
      | None =>
          let '(r, w2, tr) := submitSyncMessages ctx rest w1 in
          (r, w2, EvSubmitSyncMessage msg None :: tr)
      end
  end.

Definition SubmitSyncCommitteeSignatures (r : Request) (w : World)
  : unit * World * list SyncEvent :=
  let ctx := StartSpan (Ctx r) "beacon.SubmitPoolSyncCommitteeSignatures" in
  match json_DecodeSyncMessages (Body r) with
  | DecodeEOF =>
      (tt, w, [SyncAnswer (EvHandleError "No data submitted" StatusBadRequest)])
  | DecodeError err =>
      (tt, w, [SyncAnswer (EvHandleError ("Could not decode request body: " ++ err)
                             StatusBadRequest)])
  | DecodeOk data =>
      if Nat.eqb (List.length data) 0 then
        (tt, w, [SyncAnswer (EvHandleError "No data submitted" StatusBadRequest)])
      else
        let '(msgFailures, validMessages) := convertSyncMessages 0 data in
        let '(rpcerr, w1, tr) := submitSyncMessages ctx validMessages w in
        match rpcerr with
        | Some e =>
            (tt, w1,
             (tr ++ [SyncAnswer (EvHandleError ("Could not submit message: " ++ Err e)
                                   (ErrorReasonToHTTP (Reason e)))])%list)
        | None =>
            if Nat.ltb 0 (List.length msgFailures) then
              (tt, w1,
               (tr ++ [SyncAnswer
                         (EvWriteError
                            {| Code := StatusBadRequest;
                               ErrMessage := "One or more messages failed validation";
                               Failures := msgFailures |})])%list)
            else (tt, w1, tr)
        end
  end.

End SyncCommittee.

(* ------------------------------------------------------------------ *)
(** ** Proof automation *)

(** Case analysis on the next thing a computation looks at. *)
Ltac step :=
  match goal with
  | |- context [match ?x with _ => _ end] =>
      match x with
      | context [match _ with _ => _ end] => fail 1
      | _ => let E := fresh "E" in destruct x eqn:E
      end
  end.

Ltac unfold_m :=
  unfold doBroadcastAttestation, doBroadcast, doSaveAggregatedAttestation,
    doSaveUnaggregatedAttestation, doInsertVoluntaryExit, doInsertBLSToExecChange,
    doInsertAttesterSlashing, doInsertProposerSlashing, HandleError, WriteError,
    WriteJson, FeedSend, bind, ret, call, callEv, emit in *.

(** Unfold the computation and split on everything it inspects. *)
Ltac run_handler :=
  unfold trace_of;
  repeat (first
    [ progress unfold_m
    | progress cbn [fst snd List.app kinds effectKind negb]
    | step ]).

Ltac validate_positions IH :=
  match goal with
  | Hv : context [match ?conv with inl _ => _ | inr _ => _ end] |- _ =>
      destruct conv as [err | att'] eqn:Hconv;
      [| match type of Hv with
         | context [match ?sig with Some _ => _ | None => _ end] =>
             destruct sig as [err|] eqn:Hsig
         end];
      inversion Hv; subst; clear Hv
  end.

(** Name the parts of a concrete run and compute them. *)
Ltac compute_run H :=
  let H' := fresh H in
  pose proof H as H'; vm_compute in H'; inversion H'; subst; clear H'.

(** Close the branch of a handler that answers with one error; simplify
    the others. *)
Ltac one_error :=
  cbn [snd app];
  try (left; eexists; eexists; split; [reflexivity | auto]; fail).

(* ------------------------------------------------------------------ *)
(** ** Running the monad *)

Section GatewayProofs.

Context {T : Structs} {World BeaconState Validator : Type}.
Variable pk : Packages T BeaconState Validator.
Variable s : Server World BeaconState.

Lemma notifyUnaggregated_run (a : eth.Att) (w : World) :
  exists w1, notifyUnaggregated s a w = (tt, w1, notifyEvents a).
Proof.
  unfold notifyUnaggregated, notifyEvents.
  destruct (IsAggregated a); simpl; eexists; reflexivity.
Qed.

Lemma saveAttestation_run (a : eth.Att) (w : World) :
  exists w1 err, saveAttestation s a w = (tt, w1, [saveEvent a err]).
Proof.
  unfold saveAttestation, saveEvent. unfold_m.
  destruct (IsAggregated a).
  - destruct (SaveAggregatedAttestation s a w) as [e w1]. simpl. eexists; eexists; reflexivity.
  - destruct (SaveUnaggregatedAttestation s a w) as [e w1]. simpl. eexists; eexists; reflexivity.
Qed.

(** The second loop of [handleAttestations] produces a [phaseB] trace. *)
Lemma broadcastAttestations_phaseB (ctx : Context) (atts : list eth.Attestation) :
  forall i w fb w1 tr,
    broadcastAttestations pk s ctx i atts w = (fb, w1, tr) ->
    phaseB i (map eth.AttPhase0 atts) (inr fb) tr.
Proof.
  induction atts as [|att rest IH]; intros i w fb w' tr H; simpl in H.
  - inversion H; subst. constructor.
  - unfold bind at 1 in H.
    destruct (notifyUnaggregated_run (eth.AttPhase0 att) w) as [w1 E1].
    rewrite E1 in H. unfold bind at 1, call at 1 in H.
    destruct (HeadValidatorsIndices s ctx _ w1) as [[e|vals] w2].
    + unfold bind at 1 in H.
      destruct (broadcastAttestations pk s ctx (S i) rest w2) as [[fb' w3] tr'] eqn:E.
      simpl in H. inversion H; subst. rewrite ?List.app_nil_r.
      apply (@PB_noValidators i _ _ (inr _)). eapply IH; eauto.
    + unfold bind at 1, doBroadcastAttestation at 1, callEv at 1 in H.
      destruct (BroadcastAttestation s ctx _ (eth.AttPhase0 att) w2) as [[e|] w3].
      * unfold bind at 1 in H.
        destruct (broadcastAttestations pk s ctx (S i) rest w3) as [[fb' w4] tr'] eqn:E.
        simpl in H. inversion H; subst. rewrite ?List.app_nil_r.
        apply (@PB_broadcastFailed i _ _ (inr _)). eapply IH; eauto.
      * unfold bind at 1 in H.
        destruct (saveAttestation_run (eth.AttPhase0 att) w3) as (w4 & err & E4).
        rewrite E4 in H.
        destruct (broadcastAttestations pk s ctx (S i) rest w4) as [[fb' w5] tr'] eqn:E.
        simpl in H. inversion H; subst.
        apply PB_saved. eapply IH; eauto.
Qed.

Lemma broadcastAttestationsElectra_phaseB (ctx : Context)
  (atts : list eth.AttestationElectra) :
  forall i w r w1 tr,
    broadcastAttestationsElectra pk s ctx i atts w = (r, w1, tr) ->
    phaseB i (map eth.AttElectra atts) r tr.
Proof.
  induction atts as [|att rest IH]; intros i w r w' tr H; simpl in H.
  - inversion H; subst. constructor.
  - unfold bind at 1 in H.
    destruct (notifyUnaggregated_run (eth.AttElectra att) w) as [w1 E1].
    rewrite E1 in H. unfold bind at 1, call at 1 in H.
    destruct (HeadValidatorsIndices s ctx _ w1) as [[e|vals] w2].
    + unfold bind at 1 in H.
      destruct (broadcastAttestationsElectra pk s ctx (S i) rest w2)
        as [[r' w3] tr'] eqn:E.
      simpl in H. inversion H; subst. rewrite ?List.app_nil_r.
      apply (@PB_noValidators i _ _ r'). eapply IH; eauto.
    + destruct (GetCommitteeIndex pk att) as [e|committeeIndex].
      * simpl in H. inversion H; subst. rewrite ?List.app_nil_r. apply PB_fatal.
      * unfold bind at 1, doBroadcastAttestation at 1, callEv at 1 in H.
        destruct (BroadcastAttestation s ctx _ (eth.AttElectra att) w2) as [[e|] w3].
        -- unfold bind at 1 in H.
           destruct (broadcastAttestationsElectra pk s ctx (S i) rest w3)
             as [[r' w4] tr'] eqn:E.
           simpl in H. inversion H; subst. rewrite ?List.app_nil_r.
           apply (@PB_broadcastFailed i _ _ r'). eapply IH; eauto.
        -- unfold bind at 1 in H.
           destruct (saveAttestation_run (eth.AttElectra att) w3) as (w4 & err & E4).
           rewrite E4 in H.
           destruct (broadcastAttestationsElectra pk s ctx (S i) rest w4)
             as [[r' w5] tr'] eqn:E.
           simpl in H. inversion H; subst.
           apply PB_saved. eapply IH; eauto.
Qed.

(* ---------------------------------------------------------------- *)
(** ** Facts about [phaseB] traces *)

Lemma chain_precededBy_gen (isE : Event -> Prop) isPrev e post :
  isE e ->
  forall pre prev tr,
    chain isE isPrev prev tr -> tr = (pre ++ e :: post)%list ->
    exists p, isPrev p e /\
      ((pre = [] /\ prev = Some p) \/ exists pre', pre = (pre' ++ [p])%list).
Proof.
  intros He. induction pre as [|x pre IH]; intros prev tr Hc Htr; subst tr; simpl in Hc.
  - destruct Hc as [Hc _]. destruct (Hc He) as (p & Hp & Hpe).
    exists p. split; [assumption | left; split; [reflexivity | assumption]].
  - destruct Hc as [_ Hc].
    destruct (IH (Some x) _ Hc eq_refl) as (p & Hpe & [[Hnil Hsome] | [pre' Hpre]]).
    + inversion Hsome; subst. exists p. split; [assumption|].
      right. exists []. reflexivity.
    + exists p. split; [assumption|]. right. exists (x :: pre'). subst pre. reflexivity.
Qed.

Lemma chain_precededBy (isE : Event -> Prop) isPrev tr :
  chain isE isPrev None tr -> precededBy tr isE isPrev.
Proof.
  intros Hc pre e post Htr He.
  destruct (@chain_precededBy_gen isE isPrev e post He pre None tr Hc Htr)
    as (p & Hpe & [[_ Hnone] | [pre' Hpre]]); [discriminate|].
  exists pre', p. split; assumption.
Qed.

Lemma phaseB_chain_saves i atts r tr :
  phaseB i atts r tr ->
  forall prev, chain isSaveEvent savedAfterBroadcast prev tr.
Proof.
  unfold isSaveEvent.
  induction 1 as [i | i a rest r tr H IH | i a rest r tr subnet err H IH
                 | i a rest r tr subnet err H IH | i a rest e];
    intros prev; [exact I | ..]; unfold notifyEvents;
    destruct (IsAggregated a) eqn:Ha; simpl;
    repeat split; try discriminate; auto.
  all: intros _; eexists; split; [reflexivity|];
    exists subnet, a, err; split; reflexivity.
Qed.

Lemma phaseB_chain_broadcasts i atts r tr :
  phaseB i atts r tr ->
  forall prev, chain isUnaggregatedBroadcast broadcastAfterNotify prev tr.
Proof.
  unfold isUnaggregatedBroadcast.
  induction 1 as [i | i a rest r tr H IH | i a rest r tr subnet err H IH
                 | i a rest r tr subnet err H IH | i a rest e];
    intros prev; [exact I | ..]; unfold notifyEvents, saveEvent;
    destruct (IsAggregated a) eqn:Ha; simpl;
    repeat split; auto;
    try (intros (sn & b & e' & He & Hb); inversion He; subst; congruence).
  all: intros _; eexists; split; [reflexivity|];
    eexists subnet, a, _; split; reflexivity.
Qed.

Lemma savedAtts_app tr1 tr2 :
  savedAtts (tr1 ++ tr2) = (savedAtts tr1 ++ savedAtts tr2)%list.
Proof.
  induction tr1 as [|e tr1 IH]; simpl; [reflexivity|].
  destruct e; simpl; rewrite ?IH; reflexivity.
Qed.

Lemma broadcastAtts_app ok tr1 tr2 :
  broadcastAtts ok (tr1 ++ tr2) = (broadcastAtts ok tr1 ++ broadcastAtts ok tr2)%list.
Proof.
  induction tr1 as [|e tr1 IH]; simpl; [reflexivity|].
  destruct e; simpl; rewrite ?IH; try reflexivity.
  destruct err, ok; simpl; rewrite ?IH; reflexivity.
Qed.

Lemma notifyEvents_quiet a :
  savedAtts (notifyEvents a) = [] /\
  (forall ok, broadcastAtts ok (notifyEvents a) = []) /\
  response (notifyEvents a) = [].
Proof.
  unfold notifyEvents. destruct (IsAggregated a); simpl; auto.
Qed.

Lemma savedAtts_saveEvent a err tr :
  savedAtts (saveEvent a err :: tr) = a :: savedAtts tr.
Proof. unfold saveEvent. destruct (IsAggregated a); reflexivity. Qed.

Lemma broadcastAtts_saveEvent ok a err tr :
  broadcastAtts ok (saveEvent a err :: tr) = broadcastAtts ok tr.
Proof. unfold saveEvent. destruct (IsAggregated a); reflexivity. Qed.

(** One pool save for each successful broadcast, of the same attestations
    in the same order. *)
Lemma savedAtts_broadcast subnet a err tr :
  savedAtts (EvBroadcastAttestation subnet a err :: tr) = savedAtts tr.
Proof. reflexivity. Qed.

Lemma broadcastAtts_ok subnet a tr :
  broadcastAtts true (EvBroadcastAttestation subnet a None :: tr)
  = a :: broadcastAtts true tr.
Proof. reflexivity. Qed.

Lemma broadcastAtts_failed subnet a err tr :
  broadcastAtts true (EvBroadcastAttestation subnet a (Some err) :: tr)
  = broadcastAtts true tr.
Proof. reflexivity. Qed.

Lemma broadcastAtts_false_ok subnet a tr :
  broadcastAtts false (EvBroadcastAttestation subnet a None :: tr)
  = broadcastAtts false tr.
Proof. reflexivity. Qed.

Lemma broadcastAtts_false_failed subnet a err tr :
  broadcastAtts false (EvBroadcastAttestation subnet a (Some err) :: tr)
  = a :: broadcastAtts false tr.
Proof. reflexivity. Qed.

Lemma phaseB_saved i atts r tr :
  phaseB i atts r tr -> savedAtts tr = broadcastAtts true tr.
Proof.
  induction 1 as [i | i a rest r tr H IH | i a rest r tr subnet err H IH
                 | i a rest r tr subnet err H IH | i a rest e];
    [reflexivity | ..];
    destruct (notifyEvents_quiet a) as (Hs & Hb & _);
    rewrite ?savedAtts_app, ?broadcastAtts_app, ?Hs, ?Hb;
    rewrite ?savedAtts_broadcast, ?broadcastAtts_ok, ?broadcastAtts_failed,
      ?savedAtts_saveEvent, ?broadcastAtts_saveEvent;
    cbn [app]; congruence.
Qed.

(** The loop writes nothing to the response. *)
Lemma response_app tr1 tr2 : response (tr1 ++ tr2) = (response tr1 ++ response tr2)%list.
Proof. apply filter_app. Qed.

Lemma phaseB_response i atts r tr : phaseB i atts r tr -> response tr = [].
Proof.
  induction 1 as [i | i a rest r tr H IH | i a rest r tr subnet err H IH
                 | i a rest r tr subnet err H IH | i a rest e];
    [reflexivity | ..];
    destruct (notifyEvents_quiet a) as (_ & _ & Hr);
    rewrite ?response_app, ?Hr; simpl; auto.
  unfold saveEvent. destruct (IsAggregated a); simpl; assumption.
Qed.

(** [failedBroadcasts] holds the indices, within [atts], of the iterations
    that gave up before the pool save, in increasing order. *)
Lemma phaseB_indices i atts fb tr :
  phaseB i atts (inr fb) tr ->
  exists ks,
    fb = map Itoa ks /\
    Forall (fun k => i <= k < i + List.length atts) ks /\
    List.length (broadcastAtts false tr) <= List.length ks /\
    List.length ks + List.length (broadcastAtts true tr) = List.length atts.
Proof.
  intros H. remember (inr fb) as r eqn:Hr. revert fb Hr.
  induction H as [i | i a rest r tr H IH | i a rest r tr subnet err H IH
                 | i a rest r tr subnet err H IH | i a rest e];
    intros fb Hr.
  - inversion Hr; subst. exists []. simpl. repeat split; auto.
  - destruct r as [e | fb']; simpl in Hr; inversion Hr; subst.
    destruct (IH fb' eq_refl) as (ks & -> & Hks & Hf & Hlen).
    destruct (notifyEvents_quiet a) as (_ & Hb & _).
    exists (i :: ks). rewrite !broadcastAtts_app, !Hb. cbn [app List.length map].
    repeat split; try lia.
    constructor; [lia|]. eapply Forall_impl; [|exact Hks]. simpl. intros; lia.
  - destruct r as [e | fb']; simpl in Hr; inversion Hr; subst.
    destruct (IH fb' eq_refl) as (ks & -> & Hks & Hf & Hlen).
    destruct (notifyEvents_quiet a) as (_ & Hb & _).
    exists (i :: ks). rewrite !broadcastAtts_app, !Hb.
    rewrite broadcastAtts_false_failed, broadcastAtts_failed.
    cbn [app List.length map].
    repeat split; try lia.
    constructor; [lia|]. eapply Forall_impl; [|exact Hks]. simpl. intros; lia.
  - subst r.
    destruct (IH fb eq_refl) as (ks & -> & Hks & Hf & Hlen).
    destruct (notifyEvents_quiet a) as (_ & Hb & _).
    exists ks. rewrite !broadcastAtts_app, !Hb.
    rewrite broadcastAtts_false_ok, broadcastAtts_ok, !broadcastAtts_saveEvent.
    cbn [app List.length map].
    repeat split; try lia.
    eapply Forall_impl; [|exact Hks]. simpl. intros; lia.
  - discriminate.
Qed.

(* ---------------------------------------------------------------- *)
(** ** The attestation handlers, as a whole *)

Lemma respondAttestations_run af fb (w : World) :
  respondAttestations af fb w = (tt, w, respondTrace af fb).
Proof.
  unfold respondAttestations, respondTrace.
  destruct fb as [|x fb]; simpl; [|reflexivity].
  destruct af; reflexivity.
Qed.

Lemma handleAttestations_ok ctx data (w : World) af fb w1 tr :
  handleAttestations pk s ctx data w = (af, fb, None, w1, tr) ->
  exists src,
    json_UnmarshalAttestations pk data = inr src /\ src <> [] /\
    af = fst (validateAttestations pk 0 src) /\
    phaseB 0 (map eth.AttPhase0 (snd (validateAttestations pk 0 src))) (inr fb) tr.
Proof.
  unfold handleAttestations. intros H.
  destruct (json_UnmarshalAttestations pk data) as [e | src]; [inversion H|].
  destruct src as [|x src]; [inversion H|].
  cbn [List.length Nat.eqb] in H.
  destruct (validateAttestations pk 0 (x :: src)) as [af' valid] eqn:Ev.
  unfold bind, ret in H.
  destruct (broadcastAttestations pk s ctx 0 valid w) as [[fb' w2] tr'] eqn:Eb.
  inversion H; subst. rewrite List.app_nil_r.
  exists (x :: src). rewrite Ev. repeat split; try discriminate.
  eapply broadcastAttestations_phaseB; eauto.
Qed.

Lemma handleAttestations_err ctx data (w : World) af fb e w1 tr :
  handleAttestations pk s ctx data w = (af, fb, Some e, w1, tr) ->
  af = [] /\ fb = [] /\ w1 = w /\ tr = [].
Proof.
  unfold handleAttestations. intros H.
  destruct (json_UnmarshalAttestations pk data) as [e' | src];
    [inversion H; auto|].
  destruct (Nat.eqb (List.length src) 0); [inversion H; auto|].
  destruct (validateAttestations pk 0 src) as [af' valid].
  unfold bind, ret in H.
  destruct (broadcastAttestations pk s ctx 0 valid w) as [[fb' w2] tr'].
  inversion H.
Qed.

Lemma handleAttestationsElectra_ok ctx data (w : World) af fb w1 tr :
  handleAttestationsElectra pk s ctx data w = (af, fb, None, w1, tr) ->
  exists src,
    json_UnmarshalAttestationsElectra pk data = inr src /\ src <> [] /\
    af = fst (validateAttestationsElectra pk 0 src) /\
    phaseB 0 (map eth.AttElectra (snd (validateAttestationsElectra pk 0 src)))
      (inr fb) tr.
Proof.
  unfold handleAttestationsElectra. intros H.
  destruct (json_UnmarshalAttestationsElectra pk data) as [e | src]; [inversion H|].
  destruct src as [|x src]; [inversion H|].
  cbn [List.length Nat.eqb] in H.
  destruct (validateAttestationsElectra pk 0 (x :: src)) as [af' valid] eqn:Ev.
  unfold bind, ret in H.
  destruct (broadcastAttestationsElectra pk s ctx 0 valid w) as [[r w2] tr'] eqn:Eb.
  destruct r as [e | fb']; inversion H; subst. rewrite List.app_nil_r.
  exists (x :: src). rewrite Ev. repeat split; try discriminate.
  eapply broadcastAttestationsElectra_phaseB; eauto.
Qed.

(** Whatever the outcome, the trace of either function is a [phaseB]
    trace. *)
Lemma handleAttestations_phaseB ctx data (w : World) :
  exists atts r,
    phaseB 0 atts r (trace_of (handleAttestations pk s ctx data w)).
Proof.
  destruct (handleAttestations pk s ctx data w) as [[[[af fb] [e|]] w1] tr] eqn:H.
  - apply handleAttestations_err in H. destruct H as (_ & _ & _ & ->).
    exists [], (inr []). constructor.
  - apply handleAttestations_ok in H. destruct H as (src & _ & _ & _ & H).
    eexists; eexists; exact H.
Qed.

Lemma handleAttestationsElectra_phaseB ctx data (w : World) :
  exists atts r,
    phaseB 0 atts r (trace_of (handleAttestationsElectra pk s ctx data w)).
Proof.
  unfold handleAttestationsElectra.
  destruct (json_UnmarshalAttestationsElectra pk data) as [e | src].
  { exists [], (inr []). constructor. }
  destruct (Nat.eqb (List.length src) 0).
  { exists [], (inr []). constructor. }
  destruct (validateAttestationsElectra pk 0 src) as [af' valid].
  unfold bind, ret.
  destruct (broadcastAttestationsElectra pk s ctx 0 valid w) as [[r w2] tr'] eqn:Eb.
  simpl. rewrite List.app_nil_r. unfold trace_of; simpl.
  eexists; eexists. eapply broadcastAttestationsElectra_phaseB; eauto.
Qed.

(** After a failed broadcast the next event is never a pool save. *)
Lemma no_save_after_failed_broadcast tr :
  precededBy tr isSaveEvent savedAfterBroadcast ->
  forall pre subnet a err post,
    tr = (pre ++ EvBroadcastAttestation subnet a (Some err) :: post)%list ->
    match post with
    | e :: _ => isSave e = false
    | [] => True
    end.
Proof.
  intros H pre subnet a err [|e post] Htr; [exact I|].
  destruct (isSave e) eqn:He; [exfalso | reflexivity].
  destruct (H (pre ++ [EvBroadcastAttestation subnet a (Some err)])%list e post)
    as (pre' & p & Hpre & (sn & b & err' & Hp & _)).
  - rewrite <- app_assoc. exact Htr.
  - exact He.
  - apply app_inj_tail in Hpre. destruct Hpre as [_ Hpre]. congruence.
Qed.

Lemma handle_recordedNotSaved (run : HandleResult * World * list Event) atts r :
  phaseB 0 atts r (trace_of run) ->
  (snd (result_of run) = None -> r = inr (snd (fst (result_of run)))) ->
  recordedNotSaved run.
Proof.
  destruct run as [[[[af fb] err] w1] tr]. unfold trace_of, result_of; simpl.
  intros HB Hr.
  assert (Hp : precededBy tr isSaveEvent savedAfterBroadcast).
  { apply chain_precededBy. eapply phaseB_chain_saves; eauto. }
  repeat split.
  - exact Hp.
  - eapply phaseB_saved; eauto.
  - apply no_save_after_failed_broadcast. exact Hp.
  - intros ->. rewrite (Hr eq_refl) in HB.
    destruct (phaseB_indices HB) as (ks & -> & _ & Hf & _).
    rewrite length_map. exact Hf.
Qed.

(** C1 (amended): in a batch submission, an item that passes Phase A but
    whose gossip broadcast fails is recorded in [failedBroadcasts] and is
    NOT inserted into the attestations pool: [SaveAggregatedAttestation] or
    [SaveUnaggregatedAttestation] is invoked only right after the successful
    broadcast of the same attestation, exactly once per successful
    broadcast, and the event that follows a failed broadcast is never a pool
    save.  This holds for [handleAttestations] and for
    [handleAttestationsElectra]. *)
Theorem C1_failed_broadcast_recorded_not_saved (ctx : Context) (data : RawMessage)
  (w : World) :
  recordedNotSaved (handleAttestations pk s ctx data w) /\
  recordedNotSaved (handleAttestationsElectra pk s ctx data w).
Proof.
  split.
  - destruct (handleAttestations pk s ctx data w) as [[[[af fb] err] w1] tr] eqn:H.
    destruct err as [e|].
    + apply handleAttestations_err in H. destruct H as (_ & _ & _ & ->).
      apply handle_recordedNotSaved with (atts := []) (r := inr []).
      * constructor.
      * discriminate.
    + apply handleAttestations_ok in H. destruct H as (src & _ & _ & _ & H).
      eapply handle_recordedNotSaved; [exact H | reflexivity].
  - destruct (handleAttestationsElectra pk s ctx data w)
      as [[[[af fb] err] w1] tr] eqn:H.
    destruct err as [e|].
    + destruct (handleAttestationsElectra_phaseB ctx data w) as (atts & r & HB).
      rewrite H in HB.
      eapply handle_recordedNotSaved; [exact HB | discriminate].
    + apply handleAttestationsElectra_ok in H. destruct H as (src & _ & _ & _ & H).
      eapply handle_recordedNotSaved; [exact H | reflexivity].
Qed.

Lemma SubmitAttestations_run (r : Request) (w : World) data af fb err w1 tr :
  json_DecodeRaw pk (Body r) = DecodeOk data ->
  handleAttestations pk s (StartSpan (Ctx r) "beacon.SubmitAttestations") data w
  = (af, fb, err, w1, tr) ->
  SubmitAttestations pk s r w =
  (tt, w1,
   (tr ++ match err with
          | Some e => [EvHandleError e StatusBadRequest]
          | None => respondTrace af fb
          end)%list).
Proof.
  intros Hdec Hrun. unfold SubmitAttestations. rewrite Hdec.
  unfold bind. rewrite Hrun. destruct err as [e|].
  - reflexivity.
  - rewrite respondAttestations_run. reflexivity.
Qed.

Lemma SubmitAttestationsV2_run (r : Request) (w : World) v data af fb err w1 tr :
  Header r VersionHeader <> "" ->
  version_FromString pk (Header r VersionHeader) = inr v ->
  json_DecodeRaw pk (Body r) = DecodeOk data ->
  handleAttestationsV2 pk s v (StartSpan (Ctx r) "beacon.SubmitAttestationsV2") data w
  = (af, fb, err, w1, tr) ->
  SubmitAttestationsV2 pk s r w =
  (tt, w1,
   (tr ++ match err with
          | Some e => [EvHandleError ("Failed to handle attestations: " ++ e)
                         StatusBadRequest]
          | None => respondTrace af fb
          end)%list).
Proof.
  intros Hhdr Hver Hdec Hrun. unfold SubmitAttestationsV2.
  apply String.eqb_neq in Hhdr. rewrite Hhdr, Hver, Hdec.
  unfold handleAttestationsV2 in Hrun.
  unfold bind. rewrite Hrun. destruct err as [e|].
  - reflexivity.
  - rewrite respondAttestations_run. reflexivity.
Qed.

Lemma phaseB_no_WriteError i atts r tr e :
  phaseB i atts r tr -> ~ In (EvWriteError e) tr.
Proof.
  intros HB Hin. apply phaseB_response in HB.
  assert (H : In (EvWriteError e) (response tr)).
  { unfold response. apply filter_In. split; [assumption | reflexivity]. }
  rewrite HB in H. exact H.
Qed.

Lemma handleAttestationsV2_ok v ctx data (w : World) af fb w1 tr :
  handleAttestationsV2 pk s v ctx data w = (af, fb, None, w1, tr) ->
  exists atts, phaseB 0 atts (inr fb) tr.
Proof.
  unfold handleAttestationsV2. destruct (Nat.leb version.Electra v); intros H.
  - apply handleAttestationsElectra_ok in H. destruct H as (src & _ & _ & _ & H).
    eexists; exact H.
  - apply handleAttestations_ok in H. destruct H as (src & _ & _ & _ & H).
    eexists; exact H.
Qed.

Lemma respond_priority af fb (tr : list Event) atts :
  phaseB 0 atts (inr fb) tr ->
  (fb <> [] ->
   (tr ++ respondTrace af fb)%list =
   (tr ++ [EvHandleError
             ("Attestations at index " ++ strings_Join fb ", "
              ++ " could not be broadcasted")
             StatusInternalServerError])%list) /\
  (forall e, In (EvWriteError e) (tr ++ respondTrace af fb)%list ->
             fb = [] /\ af <> [] /\
             e = {| Code := StatusBadRequest;
                    ErrMessage := "One or more attestations failed validation";
                    Failures := af |}).
Proof.
  intros HB. split.
  - intros Hfb. destruct fb; [congruence | reflexivity].
  - intros e Hin. apply in_app_or in Hin. destruct Hin as [Hin | Hin].
    + exfalso. eapply phaseB_no_WriteError; eauto.
    + destruct fb as [|x fb]; simpl in Hin.
      * destruct af as [|f af]; simpl in Hin; [contradiction|].
        destruct Hin as [Hin | []]. inversion Hin.
        repeat split; try reflexivity; discriminate.
      * destruct Hin as [Hin | []]. discriminate.
Qed.

Lemma failed_broadcast_recorded atts fb (tr : list Event) :
  phaseB 0 atts (inr fb) tr -> broadcastAtts false tr <> [] -> fb <> [].
Proof.
  intros HB Hne. destruct (phaseB_indices HB) as (ks & -> & _ & Hlen & _).
  destruct (broadcastAtts false tr); [congruence|].
  destruct ks; simpl in *; [lia | discriminate].
Qed.

Lemma respondTrace_quiet af fb :
  response (respondTrace af fb) = respondTrace af fb /\
  broadcastAtts false (respondTrace af fb) = [].
Proof. destruct fb; [destruct af|]; split; reflexivity. Qed.

Lemma phaseB_none_failed i atts (tr : list Event) :
  phaseB i atts (inr []) tr -> broadcastAtts false tr = [].
Proof.
  intros HB. destruct (phaseB_indices HB) as (ks & Hks & _ & Hlen & _).
  destruct ks; [|discriminate Hks].
  destruct (broadcastAtts false tr); [reflexivity | simpl in Hlen; lia].
Qed.

(** An answered run of a handle function, for either handler. *)
Lemma respond_broadcastFailuresFirst prefix af fb err (w1 : World) tr atts res :
  phaseB 0 atts res tr ->
  (err = None -> res = inr fb) ->
  (err <> None -> af = [] /\ fb = []) ->
  broadcastFailuresFirst prefix (af, fb, err, w1, tr)
    (tr ++ match err with
           | Some e => [EvHandleError (prefix ++ e) StatusBadRequest]
           | None => respondTrace af fb
           end)%list.
Proof.
  intros HB Hok Herr. unfold broadcastFailuresFirst.
  pose proof (phaseB_response HB) as Hq.
  destruct err as [e|].
  - destruct (Herr ltac:(discriminate)) as (-> & ->).
    split; [congruence|]. split.
    + intros e' Hin. apply in_app_or in Hin. destruct Hin as [Hin | Hin].
      * exfalso. eapply phaseB_no_WriteError; eauto.
      * destruct Hin as [Hin | []]. discriminate Hin.
    + intros _. right. exists e. split; [reflexivity|].
      rewrite response_app, Hq. reflexivity.
  - specialize (Hok eq_refl). subst res.
    destruct (respondTrace_quiet af fb) as (Hr & Hb).
    destruct (respond_priority af HB) as [H1 H2].
    split; [|split].
    + intros Hfb. rewrite response_app, Hq, Hr.
      destruct fb; [congruence | reflexivity].
    + intros e Hin. destruct (H2 e Hin) as (-> & Haf & ->).
      split; [reflexivity|]. split; [|split; [assumption | reflexivity]].
      rewrite broadcastAtts_app, Hb, List.app_nil_r.
      eapply phaseB_none_failed; eassumption.
    + rewrite broadcastAtts_app, Hb, List.app_nil_r. intros Hne. left.
      eapply failed_broadcast_recorded; eassumption.
Qed.

Lemma handleAttestationsElectra_err ctx data (w : World) af fb e w1 tr :
  handleAttestationsElectra pk s ctx data w = (af, fb, Some e, w1, tr) ->
  af = [] /\ fb = [].
Proof.
  unfold handleAttestationsElectra. intros H.
  destruct (json_UnmarshalAttestationsElectra pk data) as [e'|src];
    [inversion H; auto|].
  destruct (Nat.eqb (List.length src) 0); [inversion H; auto|].
  destruct (validateAttestationsElectra pk 0 src) as [af' valid].
  unfold bind, ret in H.
  destruct (broadcastAttestationsElectra pk s ctx 0 valid w) as [[r w2] tr'].
  destruct r; inversion H; auto.
Qed.

(** C6 (amended): in [SubmitAttestations] and in [SubmitAttestationsV2] a
    non-empty [failedBroadcasts] is answered with the 500 that lists it,
    whatever the validation failures, and nothing else is written; the 400
    that carries the validation failures is written only when
    [failedBroadcasts] is empty and no broadcast failed.  In
    [SubmitAttestations] a failed broadcast always makes [failedBroadcasts]
    non-empty.  In [SubmitAttestationsV2] it does so unless the handle
    function gives up with an error, which only the Electra function does
    after a broadcast: the answer is then the 400 "Failed to handle
    attestations: ..." and neither list is reported.  A request that does
    not reach the handle function is answered with one 400. *)
Theorem C6_broadcast_failures_take_priority (r : Request) (w : World) :
  match json_DecodeRaw pk (Body r) with
  | DecodeOk data =>
      let run := handleAttestations pk s
                   (StartSpan (Ctx r) "beacon.SubmitAttestations") data w in
      let tr := trace_of (SubmitAttestations pk s r w) in
      broadcastFailuresFirst "" run tr /\
      (broadcastAtts false tr <> [] -> snd (result_of run) = None)
  | _ =>
      exists msg,
        SubmitAttestations pk s r w = (tt, w, [EvHandleError msg StatusBadRequest])
  end /\
  match String.eqb (Header r VersionHeader) "",
        version_FromString pk (Header r VersionHeader),
        json_DecodeRaw pk (Body r) with
  | false, inr v, DecodeOk data =>
      let run := handleAttestationsV2 pk s v
                   (StartSpan (Ctx r) "beacon.SubmitAttestationsV2") data w in
      let tr := trace_of (SubmitAttestationsV2 pk s r w) in
      broadcastFailuresFirst "Failed to handle attestations: " run tr /\
      (broadcastAtts false tr <> [] ->
       snd (result_of run) <> None -> version.Electra <= v)
  | _, _, _ =>
      exists msg,
        SubmitAttestationsV2 pk s r w = (tt, w, [EvHandleError msg StatusBadRequest])
  end.
Proof.
  split.
  - destruct (json_DecodeRaw pk (Body r)) as [| e | data] eqn:Hdec;
      try (unfold SubmitAttestations; rewrite Hdec; eexists; reflexivity).
    cbv zeta.
    destruct (handleAttestations_phaseB
                (StartSpan (Ctx r) "beacon.SubmitAttestations") data w)
      as (atts & res & HB).
    destruct (handleAttestations pk s (StartSpan (Ctx r) "beacon.SubmitAttestations")
                data w) as [[[[af fb] err] w1] tr] eqn:Hrun.
    rewrite (SubmitAttestations_run r w Hdec Hrun).
    unfold trace_of, result_of in *. cbn [fst snd] in *.
    destruct err as [e|].
    + apply handleAttestations_err in Hrun. destruct Hrun as (-> & -> & _ & ->).
      split; [|intros Hne; exfalso; apply Hne; reflexivity].
      apply (@respond_broadcastFailuresFirst "" [] [] (Some e) w1 [] [] (inr []));
        [constructor | discriminate | auto].
    + split; [|reflexivity].
      apply handleAttestations_ok in Hrun. destruct Hrun as (src & _ & _ & _ & HB').
      eapply (@respond_broadcastFailuresFirst "" af fb None w1 tr);
        [exact HB' | reflexivity | congruence].
  - destruct (String.eqb (Header r VersionHeader) "") eqn:Hhdr.
    { assert (H : exists msg, SubmitAttestationsV2 pk s r w
                              = (tt, w, [EvHandleError msg StatusBadRequest])).
      { unfold SubmitAttestationsV2. rewrite Hhdr. eexists; reflexivity. }
      destruct (version_FromString pk (Header r VersionHeader));
        destruct (json_DecodeRaw pk (Body r)); exact H. }
    destruct (version_FromString pk (Header r VersionHeader)) as [e|v] eqn:Hver.
    { assert (H : exists msg, SubmitAttestationsV2 pk s r w
                              = (tt, w, [EvHandleError msg StatusBadRequest])).
      { unfold SubmitAttestationsV2. rewrite Hhdr, Hver. eexists; reflexivity. }
      destruct (json_DecodeRaw pk (Body r)); exact H. }
    destruct (json_DecodeRaw pk (Body r)) as [| e | data] eqn:Hdec;
      try (unfold SubmitAttestationsV2; rewrite Hhdr, Hver, Hdec;
           eexists; reflexivity).
    cbv zeta.
    destruct (handleAttestationsV2 pk s v
                (StartSpan (Ctx r) "beacon.SubmitAttestationsV2") data w)
      as [[[[af fb] err] w1] tr] eqn:Hrun.
    apply String.eqb_neq in Hhdr.
    rewrite (SubmitAttestationsV2_run r w Hhdr Hver Hdec Hrun).
    unfold trace_of, result_of in *. cbn [fst snd] in *.
    unfold handleAttestationsV2 in Hrun.
    destruct (Nat.leb version.Electra v) eqn:Hleb.
    + split; [|intros _ _; apply Nat.leb_le; exact Hleb].
      destruct (handleAttestationsElectra_phaseB
                  (StartSpan (Ctx r) "beacon.SubmitAttestationsV2") data w)
        as (atts & res & HB).
      rewrite Hrun in HB. unfold trace_of in HB. cbn [snd] in HB.
      destruct err as [e|].
      * apply handleAttestationsElectra_err in Hrun. destruct Hrun as (-> & ->).
        eapply respond_broadcastFailuresFirst; [exact HB | discriminate | auto].
      * apply handleAttestationsElectra_ok in Hrun.
        destruct Hrun as (src & _ & _ & _ & HB').
        eapply respond_broadcastFailuresFirst; [exact HB' | reflexivity | congruence].
    + destruct err as [e|].
      * apply handleAttestations_err in Hrun. destruct Hrun as (-> & -> & _ & ->).
        split; [|intros Hne; exfalso; apply Hne; reflexivity].
        apply (@respond_broadcastFailuresFirst "Failed to handle attestations: "
                 [] [] (Some e) w1 [] [] (inr []));
          [constructor | discriminate | auto].
      * split; [|intros _ Hno; exfalso; apply Hno; reflexivity].
        apply handleAttestations_ok in Hrun.
        destruct Hrun as (src & _ & _ & _ & HB').
        eapply respond_broadcastFailuresFirst; [exact HB' | reflexivity | congruence].
Qed.

(** C9 (amended): a POST to the attestations endpoint whose body is an
    empty batch is answered 400 with the message "no data submitted" (the
    error of [handleAttestations], in lower case); the world is left as it
    was and the trace holds nothing but this answer: no pool mutation, no
    notifier event, no broadcast. *)
Theorem C9_empty_batch (r : Request) (w : World) (data : RawMessage)
  (Hdec : json_DecodeRaw pk (Body r) = DecodeOk data)
  (Hempty : json_UnmarshalAttestations pk data = inr []) :
  SubmitAttestations pk s r w =
  (tt, w, [EvHandleError "no data submitted" StatusBadRequest]).
Proof.
  unfold SubmitAttestations. rewrite Hdec.
  unfold bind, handleAttestations. rewrite Hempty. reflexivity.
Qed.

(* ---------------------------------------------------------------- *)
(** ** Indices in the batch and among the survivors *)

Lemma Itoa_inj (i j : nat) : Itoa i = Itoa j -> i = j.
Proof.
  unfold Itoa. intros H.
  assert (Hu : Some (Nat.to_uint i) = Some (Nat.to_uint j)).
  { rewrite <- (NilEmpty.usu (Nat.to_uint i)), <- (NilEmpty.usu (Nat.to_uint j)).
    rewrite H. reflexivity. }
  inversion Hu as [Hu'].
  rewrite <- (Unsigned.of_to i), <- (Unsigned.of_to j), Hu'. reflexivity.
Qed.

Lemma filter_below_nil (af : list IndexedVerificationFailure) (lo q : nat) :
  Forall (fun f => lo <= Index f) af -> q <= lo ->
  filter (fun f => Nat.ltb (Index f) q) af = [].
Proof.
  intros H Hq. induction H as [|f af Hf _ IH]; simpl; [reflexivity|].
  destruct (Nat.ltb_spec (Index f) q); [lia | exact IH].
Qed.

Lemma validateAttestations_positions (src : list (structs_Attestation T)) :
  forall i af valid,
    validateAttestations pk i src = (af, valid) ->
    Forall (fun f => i <= Index f < i + List.length src) af /\
    forall k att,
      nth_error valid k = Some att ->
      exists q sourceAtt,
        nth_error src q = Some sourceAtt /\
        Attestation_ToConsensus pk sourceAtt = inr att /\
        q = k + List.length (filter (fun f => Nat.ltb (Index f) (i + q)) af).
Proof.
  induction src as [|x rest IH]; intros i af valid Hv; simpl in Hv.
  - inversion Hv; subst. split; [constructor|].
    intros [|k] att H; discriminate.
  - destruct (validateAttestations pk (S i) rest) as [af' valid'] eqn:Hrest.
    destruct (IH (S i) af' valid' Hrest) as [Hrange Hpos].
    assert (Hrange' : Forall (fun f => i <= Index f < i + List.length (x :: rest)) af').
    { eapply Forall_impl; [|exact Hrange]. simpl. intros; lia. }
    assert (Hfailed : forall msg,
      Forall (fun f => i <= Index f < i + List.length (x :: rest))
        ({| Index := i; Message := msg |} :: af') /\
      forall k att,
        nth_error valid' k = Some att ->
        exists q sourceAtt,
          nth_error (x :: rest) q = Some sourceAtt /\
          Attestation_ToConsensus pk sourceAtt = inr att /\
          q = k + List.length
                    (filter (fun f => Nat.ltb (Index f) (i + q))
                       ({| Index := i; Message := msg |} :: af'))).
    { intros msg. split; [constructor; [simpl; lia | exact Hrange']|].
      intros k att Hk. destruct (Hpos k att Hk) as (q & sa & Hq & Hc & Heq).
      exists (S q), sa. repeat split; try assumption.
      simpl. destruct (Nat.ltb_spec i (i + S q)); [|lia].
      simpl. replace (i + S q) with (S i + q) by lia. lia. }
    validate_positions IH.
    + apply Hfailed.
    + apply Hfailed.
    + split; [exact Hrange'|].
      intros [|k] att Hk; simpl in Hk.
      * inversion Hk; subst. exists 0, x. repeat split; try assumption.
        rewrite (@filter_below_nil _ (S i) (i + 0)); [reflexivity | | lia].
        eapply Forall_impl; [|exact Hrange]. simpl. intros; lia.
      * destruct (Hpos k att Hk) as (q & sa & Hq & Hc & Heq).
        exists (S q), sa. repeat split; try assumption.
        replace (i + S q) with (S i + q) by lia. lia.
Qed.

Lemma validateAttestationsElectra_positions
  (src : list (structs_AttestationElectra T)) :
  forall i af valid,
    validateAttestationsElectra pk i src = (af, valid) ->
    Forall (fun f => i <= Index f < i + List.length src) af /\
    forall k att,
      nth_error valid k = Some att ->
      exists q sourceAtt,
        nth_error src q = Some sourceAtt /\
        AttestationElectra_ToConsensus pk sourceAtt = inr att /\
        q = k + List.length (filter (fun f => Nat.ltb (Index f) (i + q)) af).
Proof.
  induction src as [|x rest IH]; intros i af valid Hv; simpl in Hv.
  - inversion Hv; subst. split; [constructor|].
    intros [|k] att H; discriminate.
  - destruct (validateAttestationsElectra pk (S i) rest) as [af' valid'] eqn:Hrest.
    destruct (IH (S i) af' valid' Hrest) as [Hrange Hpos].
    assert (Hrange' : Forall (fun f => i <= Index f < i + List.length (x :: rest)) af').
    { eapply Forall_impl; [|exact Hrange]. simpl. intros; lia. }
    assert (Hfailed : forall msg,
      Forall (fun f => i <= Index f < i + List.length (x :: rest))
        ({| Index := i; Message := msg |} :: af') /\
      forall k att,
        nth_error valid' k = Some att ->
        exists q sourceAtt,
          nth_error (x :: rest) q = Some sourceAtt /\
          AttestationElectra_ToConsensus pk sourceAtt = inr att /\
          q = k + List.length
                    (filter (fun f => Nat.ltb (Index f) (i + q))
                       ({| Index := i; Message := msg |} :: af'))).
    { intros msg. split; [constructor; [simpl; lia | exact Hrange']|].
      intros k att Hk. destruct (Hpos k att Hk) as (q & sa & Hq & Hc & Heq).
      exists (S q), sa. repeat split; try assumption.
      simpl. destruct (Nat.ltb_spec i (i + S q)); [|lia].
      simpl. replace (i + S q) with (S i + q) by lia. lia. }
    validate_positions IH.
    + apply Hfailed.
    + apply Hfailed.
    + split; [exact Hrange'|].
      intros [|k] att Hk; simpl in Hk.
      * inversion Hk; subst. exists 0, x. repeat split; try assumption.
        rewrite (@filter_below_nil _ (S i) (i + 0)); [reflexivity | | lia].
        eapply Forall_impl; [|exact Hrange]. simpl. intros; lia.
      * destruct (Hpos k att Hk) as (q & sa & Hq & Hc & Heq).
        exists (S q), sa. repeat split; try assumption.
        replace (i + S q) with (S i + q) by lia. lia.
Qed.

Lemma positionsGivenUp_range (os : list Outcome) :
  forall i k, In k (positionsGivenUp i os) -> i <= k < i + List.length os.
Proof.
  induction os as [|o os IH]; intros i k Hin; [contradiction|].
  cbn [positionsGivenUp List.length] in *.
  destruct (gaveUp o).
  - destruct Hin as [<- | Hin]; [lia|]. specialize (IH (S i) k Hin). lia.
  - specialize (IH (S i) k Hin). lia.
Qed.

(** The trace of the second loop, iteration by iteration: the indices it
    appends to [failedBroadcasts] are those of the iterations that gave
    up. *)
Lemma phaseB_outcomes i atts r tr :
  phaseB i atts r tr ->
  forall fb, r = inr fb ->
  exists os,
    List.length os = List.length atts /\
    tr = loopEvents atts os /\
    fb = map Itoa (positionsGivenUp i os).
Proof.
  induction 1 as [i | i a rest r tr H IH | i a rest r tr subnet err H IH
                 | i a rest r tr subnet err H IH | i a rest e];
    intros fb Hr.
  - inversion Hr; subst. exists []. repeat split.
  - destruct r as [e | fb']; simpl in Hr; inversion Hr; subst.
    destruct (IH fb' eq_refl) as (os & Hlen & -> & ->).
    exists (NoValidators :: os). cbn [List.length loopEvents positionsGivenUp gaveUp map].
    unfold iterationEvents. rewrite List.app_nil_r.
    repeat split; congruence.
  - destruct r as [e | fb']; simpl in Hr; inversion Hr; subst.
    destruct (IH fb' eq_refl) as (os & Hlen & -> & ->).
    exists (BroadcastFailed subnet err :: os).
    cbn [List.length loopEvents positionsGivenUp gaveUp map].
    unfold iterationEvents. rewrite <- List.app_assoc.
    repeat split; congruence.
  - destruct (IH fb Hr) as (os & Hlen & -> & ->).
    exists (Saved subnet err :: os).
    cbn [List.length loopEvents positionsGivenUp gaveUp map].
    unfold iterationEvents. rewrite <- List.app_assoc.
    repeat split; congruence.
  - discriminate Hr.
Qed.

Lemma reports_positions {W A : Type} (conv : W -> Error + A) (inj : A -> eth.Att)
  (src : list W) (af : list IndexedVerificationFailure) (valid : list A)
  (fb : list string) (tr : list Event) :
  (forall k att,
      nth_error valid k = Some att ->
      exists q sourceAtt,
        nth_error src q = Some sourceAtt /\ conv sourceAtt = inr att /\
        q = k + List.length (filter (fun f => Nat.ltb (Index f) (0 + q)) af)) ->
  phaseB 0 (map inj valid) (inr fb) tr ->
  reportsPositionsOfSurvivors conv inj src af valid fb tr.
Proof.
  intros Hpos HB.
  destruct (phaseB_outcomes HB eq_refl) as (os & Hlen & Htr & Hfb).
  rewrite length_map in Hlen.
  exists os. split; [assumption|]. split; [assumption|]. split; [assumption|].
  intros k Hk. apply positionsGivenUp_range in Hk.
  destruct (nth_error valid k) as [att|] eqn:Hnth.
  2:{ apply nth_error_None in Hnth. lia. }
  destruct (Hpos k att Hnth) as (q & sa & Hq & Hc & Heq). simpl in Heq.
  exists att, q, sa. unfold positionAmongSurvivors.
  split; [reflexivity|]. split; [assumption|]. split; [assumption|].
  split; [lia|].
  intros (f & Hf & Hlt).
  assert (Hinf : In f (filter (fun f => Nat.ltb (Index f) q) af)).
  { apply filter_In. split; [assumption|]. apply Nat.ltb_lt. assumption. }
  assert (Hkq : k < q).
  { destruct (filter (fun f => Nat.ltb (Index f) q) af); [contradiction|].
    simpl in Heq. lia. }
  split; [assumption|].
  intros Heq'. apply Itoa_inj in Heq'. lia.
Qed.

Lemma handleAttestations_reports ctx data (w : World) af fb w1 tr :
  handleAttestations pk s ctx data w = (af, fb, None, w1, tr) ->
  exists src valid,
    json_UnmarshalAttestations pk data = inr src /\
    validateAttestations pk 0 src = (af, valid) /\
    reportsPositionsOfSurvivors (Attestation_ToConsensus pk) eth.AttPhase0
      src af valid fb tr.
Proof.
  intros Hrun.
  apply handleAttestations_ok in Hrun. destruct Hrun as (src & Hsrc & _ & Haf & HB).
  destruct (validateAttestations pk 0 src) as [af' valid] eqn:Hv.
  simpl in Haf, HB. subst af'.
  exists src, valid. split; [assumption|]. split; [exact Hv|].
  destruct (validateAttestations_positions src 0 Hv) as [_ Hpos].
  apply reports_positions; assumption.
Qed.

Lemma handleAttestationsElectra_reports ctx data (w : World) af fb w1 tr :
  handleAttestationsElectra pk s ctx data w = (af, fb, None, w1, tr) ->
  exists src valid,
    json_UnmarshalAttestationsElectra pk data = inr src /\
    validateAttestationsElectra pk 0 src = (af, valid) /\
    reportsPositionsOfSurvivors (AttestationElectra_ToConsensus pk) eth.AttElectra
      src af valid fb tr.
Proof.
  intros Hrun.
  apply handleAttestationsElectra_ok in Hrun.
  destruct Hrun as (src & Hsrc & _ & Haf & HB).
  destruct (validateAttestationsElectra pk 0 src) as [af' valid] eqn:Hv.
  simpl in Haf, HB. subst af'.
  exists src, valid. split; [assumption|]. split; [exact Hv|].
  destruct (validateAttestationsElectra_positions src 0 Hv) as [_ Hpos].
  apply reports_positions; assumption.
Qed.

(** The only 500 of the two handlers is the one that lists
    [failedBroadcasts]. *)
Lemma respondTrace_500 af fb msg :
  In (EvHandleError msg StatusInternalServerError) (respondTrace af fb) ->
  respondTrace af fb = [EvHandleError msg StatusInternalServerError] /\
  EvHandleError msg StatusInternalServerError = couldNotBeBroadcasted fb.
Proof.
  unfold couldNotBeBroadcasted.
  destruct fb as [|x fb]; [destruct af as [|f af]|]; simpl; intros Hin.
  - contradiction.
  - destruct Hin as [Hin | []]. discriminate Hin.
  - destruct Hin as [Hin | []]. inversion Hin; subst. split; reflexivity.
Qed.

Lemma no_500_in_phaseB i atts r tr msg code :
  phaseB i atts r tr -> ~ In (EvHandleError msg code) tr.
Proof.
  intros HB Hin. apply phaseB_response in HB.
  assert (H : In (EvHandleError msg code) (response tr)).
  { unfold response. apply filter_In. split; [assumption | reflexivity]. }
  rewrite HB in H. exact H.
Qed.

(** C10: when [SubmitAttestations] or [SubmitAttestationsV2] answers with a
    500, the answer is the message that joins [failedBroadcasts], and the
    trace before it is the second loop of the handle function, one
    iteration for each attestation that passed Phase A.  The indices of the
    message are the positions, in the list of those attestations, of the
    iterations that gave up (the validators could not be read or the
    broadcast failed), and of no other.  They are not the indices in the
    submitted batch: the attestation at position [k] was submitted at the
    index [q] with [k = q] less the number of Phase-A failures before [q],
    so the two differ whenever a Phase-A failure precedes it. *)
Theorem C10_failed_broadcast_index_is_survivor_position (r : Request) (w : World)
  (msg : string) :
  (In (EvHandleError msg StatusInternalServerError)
      (trace_of (SubmitAttestations pk s r w)) ->
   exists data src af valid fb tr,
     json_DecodeRaw pk (Body r) = DecodeOk data /\
     json_UnmarshalAttestations pk data = inr src /\
     validateAttestations pk 0 src = (af, valid) /\
     trace_of (SubmitAttestations pk s r w)
     = (tr ++ [couldNotBeBroadcasted fb])%list /\
     EvHandleError msg StatusInternalServerError = couldNotBeBroadcasted fb /\
     reportsPositionsOfSurvivors (Attestation_ToConsensus pk) eth.AttPhase0
       src af valid fb tr) /\
  (In (EvHandleError msg StatusInternalServerError)
      (trace_of (SubmitAttestationsV2 pk s r w)) ->
   exists v data fb tr,
     version_FromString pk (Header r VersionHeader) = inr v /\
     json_DecodeRaw pk (Body r) = DecodeOk data /\
     trace_of (SubmitAttestationsV2 pk s r w)
     = (tr ++ [couldNotBeBroadcasted fb])%list /\
     EvHandleError msg StatusInternalServerError = couldNotBeBroadcasted fb /\
     if Nat.leb version.Electra v
     then exists src af valid,
         json_UnmarshalAttestationsElectra pk data = inr src /\
         validateAttestationsElectra pk 0 src = (af, valid) /\
         reportsPositionsOfSurvivors (AttestationElectra_ToConsensus pk)
           eth.AttElectra src af valid fb tr
     else exists src af valid,
         json_UnmarshalAttestations pk data = inr src /\
         validateAttestations pk 0 src = (af, valid) /\
         reportsPositionsOfSurvivors (Attestation_ToConsensus pk) eth.AttPhase0
           src af valid fb tr).
Proof.
  split.
  - intros Hin.
    destruct (json_DecodeRaw pk (Body r)) as [| e | data] eqn:Hdec;
      try (unfold SubmitAttestations in Hin; rewrite Hdec in Hin;
           destruct Hin as [Hin | []]; discriminate Hin).
    destruct (handleAttestations pk s (StartSpan (Ctx r) "beacon.SubmitAttestations")
                data w) as [[[[af fb] err] w1] tr] eqn:Hrun.
    rewrite (SubmitAttestations_run r w Hdec Hrun) in *.
    unfold trace_of in *. cbn [snd] in *.
    destruct (handleAttestations_phaseB
                (StartSpan (Ctx r) "beacon.SubmitAttestations") data w)
      as (atts & res & HB).
    rewrite Hrun in HB. unfold trace_of in HB. cbn [snd] in HB.
    apply in_app_or in Hin. destruct Hin as [Hin | Hin];
      [exfalso; eapply no_500_in_phaseB; eassumption|].
    destruct err as [e|]; [destruct Hin as [Hin | []]; discriminate Hin|].
    destruct (@respondTrace_500 af fb msg Hin) as (Hresp & Hmsg).
    destruct (handleAttestations_reports _ _ _ Hrun) as (src & valid & Hsrc & Hv & Hrep).
    exists data, src, af, valid, fb, tr.
    rewrite Hresp, Hmsg. repeat split; assumption.
  - intros Hin.
    destruct (String.eqb (Header r VersionHeader) "") eqn:Hhdr;
      [unfold SubmitAttestationsV2 in Hin; rewrite Hhdr in Hin;
       destruct Hin as [Hin | []]; discriminate Hin|].
    destruct (version_FromString pk (Header r VersionHeader)) as [e|v] eqn:Hver;
      [unfold SubmitAttestationsV2 in Hin; rewrite Hhdr, Hver in Hin;
       destruct Hin as [Hin | []]; discriminate Hin|].
    destruct (json_DecodeRaw pk (Body r)) as [| e | data] eqn:Hdec;
      try (unfold SubmitAttestationsV2 in Hin; rewrite Hhdr, Hver, Hdec in Hin;
           destruct Hin as [Hin | []]; discriminate Hin).
    destruct (handleAttestationsV2 pk s v
                (StartSpan (Ctx r) "beacon.SubmitAttestationsV2") data w)
      as [[[[af fb] err] w1] tr] eqn:Hrun.
    apply String.eqb_neq in Hhdr.
    rewrite (SubmitAttestationsV2_run r w Hhdr Hver Hdec Hrun) in *.
    unfold trace_of in *. cbn [snd] in *.
    assert (HB : exists atts res, phaseB 0 atts res tr).
    { unfold handleAttestationsV2 in Hrun.
      destruct (Nat.leb version.Electra v).
      - destruct (handleAttestationsElectra_phaseB
                    (StartSpan (Ctx r) "beacon.SubmitAttestationsV2") data w)
          as (atts & res & HB).
        rewrite Hrun in HB. eauto.
      - destruct (handleAttestations_phaseB
                    (StartSpan (Ctx r) "beacon.SubmitAttestationsV2") data w)
          as (atts & res & HB).
        rewrite Hrun in HB. eauto. }
    destruct HB as (atts & res & HB).
    apply in_app_or in Hin. destruct Hin as [Hin | Hin];
      [exfalso; eapply no_500_in_phaseB; eassumption|].
    destruct err as [e|]; [destruct Hin as [Hin | []]; discriminate Hin|].
    destruct (@respondTrace_500 af fb msg Hin) as (Hresp & Hmsg).
    exists v, data, fb, tr. rewrite Hresp, Hmsg.
    split; [reflexivity|]. split; [reflexivity|]. split; [reflexivity|].
    split; [reflexivity|].
    unfold handleAttestationsV2 in Hrun.
    destruct (Nat.leb version.Electra v).
    + destruct (handleAttestationsElectra_reports _ _ _ Hrun)
        as (src & valid & Hsrc & Hv & Hrep).
      exists src, af, valid. repeat split; assumption.
    + destruct (handleAttestations_reports _ _ _ Hrun) as (src & valid & Hsrc & Hv & Hrep).
      exists src, af, valid. repeat split; assumption.
Qed.

(* ---------------------------------------------------------------- *)
(** ** Single submissions *)

Lemma submitAttesterSlashing_kinds ctx slashing (w : World) :
  In (kinds (trace_of (submitAttesterSlashing pk s ctx slashing w)))
     [[]; [PoolInsert]; [PoolInsert; Notify]; [PoolInsert; Notify; Gossip]].
Proof.
  unfold submitAttesterSlashing. run_handler; simpl; auto.
Qed.

Lemma inOrder_of_kinds (tr : list Event) :
  In (kinds tr)
     [[]; [PoolInsert]; [PoolInsert; Notify]; [PoolInsert; Notify; Gossip];
      [PoolInsert; Gossip]] ->
  inOrder rankInsertNotifyGossip tr.
Proof.
  unfold inOrder. intros H. simpl in H.
  repeat (destruct H as [<- | H]; [repeat constructor; simpl; lia|]).
  contradiction.
Qed.

Lemma SubmitAttesterSlashings_kinds (r : Request) (w : World) :
  In (kinds (trace_of (SubmitAttesterSlashings pk s r w)))
     [[]; [PoolInsert]; [PoolInsert; Notify]; [PoolInsert; Notify; Gossip]].
Proof.
  unfold SubmitAttesterSlashings.
  destruct (json_DecodeAttesterSlashing pk (Body r)) as [|e|req]; try (simpl; auto; fail).
  destruct (AttesterSlashing_ToConsensus pk req); try (simpl; auto; fail).
  apply submitAttesterSlashing_kinds.
Qed.

Lemma kinds_app (tr1 tr2 : list Event) :
  kinds (tr1 ++ tr2) = (kinds tr1 ++ kinds tr2)%list.
Proof.
  induction tr1 as [|e tr1 IH]; simpl; [reflexivity|].
  destruct (effectKind e); simpl; rewrite IH; reflexivity.
Qed.

Lemma SubmitAttesterSlashingsV2_kinds (r : Request) (w : World) :
  In (kinds (trace_of (SubmitAttesterSlashingsV2 pk s r w)))
     [[]; [PoolInsert]; [PoolInsert; Notify]; [PoolInsert; Notify; Gossip]].
Proof.
  unfold SubmitAttesterSlashingsV2, bind.
  destruct (String.eqb (Header r VersionHeader) "");
    unfold HandleError, emit, ret; cbn [fst snd];
    (destruct (version_FromString pk (Header r VersionHeader)) as [e|v];
     [simpl; auto|]);
    (destruct (Nat.leb version.Electra v);
     [ destruct (json_DecodeAttesterSlashingElectra pk (Body r)) as [|e|req];
       try (simpl; auto; fail);
       destruct (AttesterSlashingElectra_ToConsensus pk req) as [e|sl];
       try (simpl; auto; fail)
     | destruct (json_DecodeAttesterSlashing pk (Body r)) as [|e|req];
       try (simpl; auto; fail);
       destruct (AttesterSlashing_ToConsensus pk req) as [e|sl];
       try (simpl; auto; fail) ]);
    match goal with
    | |- context [submitAttesterSlashing pk s ?c ?x w] =>
        pose proof (submitAttesterSlashing_kinds c x w) as Hk;
        destruct (submitAttesterSlashing pk s c x w) as [[u2 w2] t2];
        unfold trace_of in *; simpl in *; exact Hk
    end.
Qed.

Lemma SubmitProposerSlashing_kinds (r : Request) (w : World) :
  In (kinds (trace_of (SubmitProposerSlashing pk s r w)))
     [[]; [PoolInsert]; [PoolInsert; Notify]; [PoolInsert; Notify; Gossip]].
Proof.
  unfold SubmitProposerSlashing. run_handler; simpl; auto.
Qed.

Lemma SubmitVoluntaryExit_kinds (r : Request) (w : World) :
  In (kinds (trace_of (SubmitVoluntaryExit pk s r w))) [[]; [PoolInsert; Gossip]].
Proof.
  unfold SubmitVoluntaryExit. run_handler; simpl; auto.
Qed.

Lemma validateBLSChanges_kinds st (req : list (structs_SignedBLSToExecutionChange T)) :
  forall i (w : World),
  exists n,
    kinds (trace_of (validateBLSChanges pk s st i req w))
    = List.concat (repeat [Notify; PoolInsert] n).
Proof.
  induction req as [|change rest IH]; intros i w; simpl.
  - exists 0. reflexivity.
  - destruct (SignedBLSToExecutionChange_ToConsensus pk change) as [e|sbls].
    { unfold bind, ret. destruct (IH (S i) w) as [n Hn].
      destruct (validateBLSChanges pk s st (S i) rest w) as [[res w1] tr].
      exists n. unfold trace_of in *. simpl in *. rewrite List.app_nil_r. exact Hn. }
    destruct (ValidateBLSToExecutionChange pk st sbls).
    { unfold bind, ret. destruct (IH (S i) w) as [n Hn].
      destruct (validateBLSChanges pk s st (S i) rest w) as [[res w1] tr].
      exists n. unfold trace_of in *. simpl in *. rewrite List.app_nil_r. exact Hn. }
    destruct (VerifyBLSChangeSignature pk st sbls).
    { unfold bind, ret. destruct (IH (S i) w) as [n Hn].
      destruct (validateBLSChanges pk s st (S i) rest w) as [[res w1] tr].
      exists n. unfold trace_of in *. simpl in *. rewrite List.app_nil_r. exact Hn. }
    unfold bind, ret, FeedSend, doInsertBLSToExecChange.
    match goal with
    | |- context [validateBLSChanges pk s st (S i) rest ?w1] =>
        destruct (IH (S i) w1) as [n Hn];
        destruct (validateBLSChanges pk s st (S i) rest w1) as [[res w2] tr]
    end.
    exists (S n). unfold trace_of in *. simpl in *. rewrite List.app_nil_r.
    rewrite Hn. reflexivity.
Qed.

Lemma SubmitBLSToExecutionChanges_kinds (r : Request) (w : World) :
  exists n,
    kinds (trace_of (SubmitBLSToExecutionChanges pk s r w))
    = List.concat (repeat [Notify; PoolInsert] n).
Proof.
  unfold SubmitBLSToExecutionChanges. unfold bind at 1, call at 1.
  destruct (HeadStateReadOnly s _ w) as [[e|st] w1].
  { exists 0. reflexivity. }
  destruct (json_DecodeBLSChanges pk (Body r)) as [|e|req];
    try (exists 0; reflexivity).
  destruct (Nat.eqb (List.length req) 0); [exists 0; reflexivity|].
  unfold bind at 1.
  destruct (validateBLSChanges_kinds st req 0 w1) as [n Hn].
  destruct (validateBLSChanges pk s st 0 req w1) as [[[failures toBroadcast] w2] tr].
  exists n. unfold trace_of in *. simpl snd in *.
  destruct (Nat.ltb 0 (List.length failures)); unfold_m; simpl;
    rewrite kinds_app, Hn; simpl; rewrite List.app_nil_r; reflexivity.
Qed.

(** C2 (amended): the per-item side effects happen in a fixed order that
    depends on the endpoint.  For the items of an attestation batch it is
    notifier (unaggregated attestations only), then broadcast, then pool
    insert, each right after the other.  For an attester slashing (V1 and
    V2) and a proposer slashing it is pool insert, then notifier, then
    broadcast; for a voluntary exit it is pool insert, then broadcast,
    without any notification.  For the items of a batch of BLS changes it
    is notifier, then pool insert; the handler itself broadcasts nothing. *)
Theorem C2_order_of_side_effects (r : Request) (ctx : Context) (data : RawMessage)
  (w : World) :
  notifyThenBroadcastThenSave (trace_of (handleAttestations pk s ctx data w)) /\
  notifyThenBroadcastThenSave (trace_of (handleAttestationsElectra pk s ctx data w)) /\
  inOrder rankInsertNotifyGossip (trace_of (SubmitAttesterSlashings pk s r w)) /\
  inOrder rankInsertNotifyGossip (trace_of (SubmitAttesterSlashingsV2 pk s r w)) /\
  inOrder rankInsertNotifyGossip (trace_of (SubmitProposerSlashing pk s r w)) /\
  (inOrder rankInsertNotifyGossip (trace_of (SubmitVoluntaryExit pk s r w)) /\
   ~ In Notify (kinds (trace_of (SubmitVoluntaryExit pk s r w)))) /\
  (exists n,
      kinds (trace_of (SubmitBLSToExecutionChanges pk s r w))
      = List.concat (repeat [Notify; PoolInsert] n)).
Proof.
  assert (Hatt : forall atts res tr,
            phaseB 0 atts res tr -> notifyThenBroadcastThenSave tr).
  { intros atts res tr HB. split; apply chain_precededBy.
    - eapply phaseB_chain_saves; eauto.
    - eapply phaseB_chain_broadcasts; eauto. }
  split.
  { destruct (handleAttestations_phaseB ctx data w) as (atts & res & HB). eauto. }
  split.
  { destruct (handleAttestationsElectra_phaseB ctx data w) as (atts & res & HB). eauto. }
  split.
  { apply inOrder_of_kinds. pose proof (SubmitAttesterSlashings_kinds r w) as H.
    simpl in *. intuition. }
  split.
  { apply inOrder_of_kinds. pose proof (SubmitAttesterSlashingsV2_kinds r w) as H.
    simpl in *. intuition. }
  split.
  { apply inOrder_of_kinds. pose proof (SubmitProposerSlashing_kinds r w) as H.
    simpl in *. intuition. }
  split.
  { pose proof (SubmitVoluntaryExit_kinds r w) as H. split.
    - apply inOrder_of_kinds. simpl in *. intuition.
    - simpl in H. destruct H as [<- | [<- | []]]; simpl; intuition discriminate. }
  apply SubmitBLSToExecutionChanges_kinds.
Qed.

Lemma submitAttesterSlashing_nonempty ctx slashing (w : World) :
  exists e rest, trace_of (submitAttesterSlashing pk s ctx slashing w) = e :: rest.
Proof.
  unfold submitAttesterSlashing. run_handler; eexists; eexists; reflexivity.
Qed.

(** C3: when the [Eth-Consensus-Version] header is absent,
    [SubmitAttestationsV2] answers 400 "Eth-Consensus-Version header is
    required" and does nothing else.  [SubmitAttesterSlashingsV2] writes the
    same answer but does not return: it goes on to [version.FromString] on
    the empty string, so that at least one more event follows; when the
    empty string is not a version name, that event is a second 400,
    "Invalid version: ...". *)
Theorem C3_missing_version_header (r : Request) (w : World)
  (Hmissing : Header r VersionHeader = "") :
  SubmitAttestationsV2 pk s r w =
  (tt, w, [EvHandleError (VersionHeader ++ " header is required") StatusBadRequest]) /\
  (exists e rest,
      trace_of (SubmitAttesterSlashingsV2 pk s r w) =
      EvHandleError (VersionHeader ++ " header is required") StatusBadRequest
        :: e :: rest) /\
  (forall err,
      version_FromString pk "" = inl err ->
      SubmitAttesterSlashingsV2 pk s r w =
      (tt, w,
       [EvHandleError (VersionHeader ++ " header is required") StatusBadRequest;
        EvHandleError ("Invalid version: " ++ err) StatusBadRequest])).
Proof.
  split; [|split].
  - unfold SubmitAttestationsV2. rewrite Hmissing. reflexivity.
  - unfold SubmitAttesterSlashingsV2, bind. rewrite Hmissing.
    cbn [String.eqb]. unfold HandleError, emit. cbn [fst snd].
    destruct (version_FromString pk "") as [e|v];
      [eexists; eexists; reflexivity|].
    destruct (Nat.leb version.Electra v);
      [ destruct (json_DecodeAttesterSlashingElectra pk (Body r)) as [|e|req];
        try (eexists; eexists; reflexivity);
        destruct (AttesterSlashingElectra_ToConsensus pk req) as [e|sl];
        try (eexists; eexists; reflexivity)
      | destruct (json_DecodeAttesterSlashing pk (Body r)) as [|e|req];
        try (eexists; eexists; reflexivity);
        destruct (AttesterSlashing_ToConsensus pk req) as [e|sl];
        try (eexists; eexists; reflexivity) ];
      match goal with
      | |- context [submitAttesterSlashing pk s ?c ?x w] =>
          destruct (submitAttesterSlashing_nonempty c x w) as (e & rest & Hk);
          destruct (submitAttesterSlashing pk s c x w) as [[u2 w2] t2];
          unfold trace_of in *; simpl in *; subst t2;
          eexists; eexists; reflexivity
      end.
  - intros err Herr. unfold SubmitAttesterSlashingsV2, bind. rewrite Hmissing.
    cbn [String.eqb]. rewrite Herr. reflexivity.
Qed.

(* ---------------------------------------------------------------- *)
(** ** The V2 list handlers *)

Lemma UintFromQuery_run (r : Request) (name : string) (w : World) :
  (exists raw v, UintFromQuery pk r name false w = (raw, v, true, w, [])) \/
  (exists err,
      strconv_ParseUint pk (Query r name) = inl err /\
      UintFromQuery pk r name false w =
      ("", 0%N, false, w,
       [EvHandleError (name ++ " is invalid: " ++ err) StatusBadRequest])).
Proof.
  unfold UintFromQuery.
  destruct (String.eqb (Query r name) "" && negb false).
  - left. eexists; eexists; reflexivity.
  - destruct (strconv_ParseUint pk (Query r name)) as [err|v].
    + right. exists err. split; reflexivity.
    + left. eexists; eexists; reflexivity.
Qed.

Lemma filterAttestationsV2_inr v rawSlot slot rawCommitteeIndex committeeIndex atts :
  forall entries,
    filterAttestationsV2 pk v rawSlot slot rawCommitteeIndex committeeIndex atts
    = inr entries ->
    Forall (attEntryOfFork v) entries /\
    Forall (fun a => attOfFork v a = true) atts.
Proof.
  induction atts as [|att rest IH]; intros entries H;
    cbn [filterAttestationsV2] in H.
  - inversion H. split; constructor.
  - destruct (filterAttestationsV2 pk v rawSlot slot rawCommitteeIndex
                committeeIndex rest) as [msg|entries'] eqn:Hrest.
    + destruct (Nat.leb version.Electra v); destruct att;
        try discriminate;
        match type of H with
        | (if ?c then _ else _) = _ => destruct c; simpl in H; discriminate
        end.
    + destruct (IH entries' eq_refl) as [He Ha].
      destruct (Nat.leb version.Electra v) eqn:Hv; destruct att as [a|a];
        try discriminate;
        match type of H with
        | (if ?c then _ else _) = _ => destruct c
        end;
        simpl in H; inversion H; subst; split;
        try (constructor; [|assumption]); try assumption;
        simpl; rewrite ?Hv; try reflexivity.
      all: try (apply Nat.leb_le; assumption).
      all: try (apply Nat.leb_gt in Hv; first [exact Hv | apply Nat.ltb_lt; exact Hv]).
Qed.

Lemma filterAttestationsV2_mismatch v rawSlot slot rawCommitteeIndex committeeIndex
  atts a :
  In a atts -> attOfFork v a = false ->
  exists msg,
    filterAttestationsV2 pk v rawSlot slot rawCommitteeIndex committeeIndex atts
    = inl msg.
Proof.
  intros Hin Hbad.
  destruct (filterAttestationsV2 pk v rawSlot slot rawCommitteeIndex committeeIndex atts)
    as [msg|entries] eqn:H; [eexists; reflexivity|].
  apply filterAttestationsV2_inr in H. destruct H as [_ H].
  rewrite Forall_forall in H. rewrite (H a Hin) in Hbad. discriminate.
Qed.

Lemma convertSlashingsV2_inr v sl :
  forall entries,
    convertSlashingsV2 pk v sl = inr entries ->
    Forall (slashingEntryOfFork v) entries /\
    Forall (fun a => slashingOfFork v a = true) sl.
Proof.
  induction sl as [|x rest IH]; intros entries H;
    cbn [convertSlashingsV2] in H.
  - inversion H. split; constructor.
  - destruct (convertSlashingsV2 pk v rest) as [msg|entries'] eqn:Hrest.
    + destruct (Nat.leb version.Electra v); destruct x; discriminate.
    + destruct (IH entries' eq_refl) as [He Ha].
      destruct (Nat.leb version.Electra v) eqn:Hv; destruct x as [a|a];
        try discriminate;
        simpl in H; inversion H; subst; split;
        try (constructor; [|assumption]); try assumption;
        simpl; rewrite ?Hv; try reflexivity.
      all: try (apply Nat.leb_le; assumption).
      all: try (apply Nat.leb_gt in Hv; first [exact Hv | apply Nat.ltb_lt; exact Hv]).
Qed.

Lemma convertSlashingsV2_mismatch v sl a :
  In a sl -> slashingOfFork v a = false ->
  exists msg, convertSlashingsV2 pk v sl = inl msg.
Proof.
  intros Hin Hbad.
  destruct (convertSlashingsV2 pk v sl) as [msg|entries] eqn:H;
    [eexists; reflexivity|].
  apply convertSlashingsV2_inr in H. destruct H as [_ H].
  rewrite Forall_forall in H. rewrite (H a Hin) in Hbad. discriminate.
Qed.

(** C8: a successful answer of [ListAttestationsV2] or
    [GetAttesterSlashingsV2] carries the name of the fork of the head state
    as its version and the encoding of entries that are all of the variant
    of that fork (the Electra variant from Electra on, the base variant
    before); the two variants are never mixed.  If the pool holds an entry
    of the other variant, nothing of the list is written: the answer is a
    single error, a 500 (for attestations, unless a query parameter did not
    parse, which is answered 400 before the pool is read). *)
Theorem C8_v2_lists_hold_one_variant (r : Request) (w : World) :
  (forall resp,
      In (EvWriteJson resp) (trace_of (ListAttestationsV2 pk s r w)) ->
      exists st w0 entries data,
        HeadStateReadOnly s (StartSpan (Ctx r) "beacon.ListAttestationsV2") w
        = (inr st, w0) /\
        json_MarshalAttestations pk entries = inr data /\
        Forall (attEntryOfFork (Version pk st)) entries /\
        resp = ListAttestationsResponse (version_String pk (Version pk st)) data) /\
  (forall resp,
      In (EvWriteJson resp) (trace_of (GetAttesterSlashingsV2 pk s r w)) ->
      exists st w0 entries data,
        HeadStateReadOnly s (StartSpan (Ctx r) "beacon.GetAttesterSlashingsV2") w
        = (inr st, w0) /\
        json_MarshalSlashings pk entries = inr data /\
        Forall (slashingEntryOfFork (Version pk st)) entries /\
        resp = GetAttesterSlashingsResponse (version_String pk (Version pk st)) data /\
        In (EvSetHeader VersionHeader (version_String pk (Version pk st)))
           (trace_of (GetAttesterSlashingsV2 pk s r w))) /\
  (forall st w0 agg w1 unagg w2 a,
      HeadStateReadOnly s (StartSpan (Ctx r) "beacon.ListAttestationsV2") w
      = (inr st, w0) ->
      AggregatedAttestations s w0 = (agg, w1) ->
      UnaggregatedAttestations s w1 = (inr unagg, w2) ->
      In a (agg ++ unagg)%list -> attOfFork (Version pk st) a = false ->
      (exists msg,
          trace_of (ListAttestationsV2 pk s r w)
          = [EvHandleError msg StatusInternalServerError]) \/
      (exists name err,
          strconv_ParseUint pk (Query r name) = inl err /\
          trace_of (ListAttestationsV2 pk s r w)
          = [EvHandleError (name ++ " is invalid: " ++ err) StatusBadRequest])) /\
  (forall st w0 pending w1 a,
      HeadStateReadOnly s (StartSpan (Ctx r) "beacon.GetAttesterSlashingsV2") w
      = (inr st, w0) ->
      PendingAttesterSlashings s (StartSpan (Ctx r) "beacon.GetAttesterSlashingsV2")
        st true w0 = (pending, w1) ->
      In a pending -> slashingOfFork (Version pk st) a = false ->
      exists msg,
        trace_of (GetAttesterSlashingsV2 pk s r w)
        = [EvHandleError msg StatusInternalServerError]).
Proof.
  split; [|split; [|split]].
  - intros resp. unfold ListAttestationsV2, bind.
    destruct (UintFromQuery_run r "slot" w) as [(raw1 & v1 & ->) | (e1 & _ & ->)];
      [|simpl; intuition discriminate].
    cbn [negb].
    destruct (UintFromQuery_run r "committee_index" w)
      as [(raw2 & v2 & ->) | (e2 & _ & ->)];
      [|simpl; intuition discriminate].
    cbn [negb]. unfold call.
    destruct (HeadStateReadOnly s _ w) as [[e|st] w0];
      [simpl; intuition discriminate|].
    destruct (AggregatedAttestations s w0) as [agg w1].
    destruct (UnaggregatedAttestations s w1) as [[e|unagg] w2];
      [simpl; intuition discriminate|].
    destruct (filterAttestationsV2 pk (Version pk st) raw1 v1 raw2 v2 (agg ++ unagg))
      as [msg|entries] eqn:Hf; [simpl; intuition discriminate|].
    destruct (json_MarshalAttestations pk entries) as [e|data] eqn:Hm;
      [simpl; intuition discriminate|].
    simpl. intros [H | []]. inversion H; subst.
    apply filterAttestationsV2_inr in Hf. destruct Hf as [Hf _].
    exists st, w0, entries, data. repeat split; assumption.
  - intros resp. unfold GetAttesterSlashingsV2, bind, call.
    destruct (HeadStateReadOnly s _ w) as [[e|st] w0];
      [simpl; intuition discriminate|].
    destruct (PendingAttesterSlashings s _ st true w0) as [pending w1].
    destruct (convertSlashingsV2 pk (Version pk st) pending) as [msg|entries] eqn:Hf;
      [simpl; intuition discriminate|].
    destruct (json_MarshalSlashings pk entries) as [e|data] eqn:Hm;
      [simpl; intuition discriminate|].
    simpl. intros [H | [H | []]]; [discriminate|]. inversion H; subst.
    apply convertSlashingsV2_inr in Hf. destruct Hf as [Hf _].
    exists st, w0, entries, data. repeat split; try assumption. left. reflexivity.
  - intros st w0 agg w1 unagg w2 a Hst Hagg Hunagg Hin Hbad.
    unfold ListAttestationsV2, bind.
    destruct (UintFromQuery_run r "slot" w) as [(raw1 & v1 & ->) | (e1 & He1 & ->)].
    2:{ right. exists "slot", e1. split; [assumption | reflexivity]. }
    cbn [negb].
    destruct (UintFromQuery_run r "committee_index" w)
      as [(raw2 & v2 & ->) | (e2 & He2 & ->)].
    2:{ right. exists "committee_index", e2. split; [assumption | reflexivity]. }
    cbn [negb]. unfold call. rewrite Hst, Hagg, Hunagg.
    destruct (filterAttestationsV2_mismatch (Version pk st) raw1 v1 raw2 v2
                (agg ++ unagg) a Hin Hbad) as [msg ->].
    left. exists msg. reflexivity.
  - intros st w0 pending w1 a Hst Hp Hin Hbad.
    unfold GetAttesterSlashingsV2, bind, call. rewrite Hst, Hp.
    destruct (convertSlashingsV2_mismatch (Version pk st) pending a Hin Hbad)
      as [msg ->].
    exists msg. reflexivity.
Qed.

(* ---------------------------------------------------------------- *)
(** ** The deferred broadcast of BLS changes *)

Lemma broadcastMsgs_app (tr1 tr2 : list Event) :
  broadcastMsgs (tr1 ++ tr2) = (broadcastMsgs tr1 ++ broadcastMsgs tr2)%list.
Proof.
  induction tr1 as [|e tr1 IH]; simpl; [reflexivity|].
  destruct e; simpl; rewrite ?IH; reflexivity.
Qed.

Lemma validChanges_length st (batch : Changes) :
  List.length (validChanges pk st batch) <= List.length batch.
Proof.
  induction batch as [|[c|] rest IH]; simpl; [lia | | lia].
  destruct (ValidateBLSToExecutionChange pk st c); simpl; lia.
Qed.

Lemma validChanges_In st (batch : Changes) c :
  In c (validChanges pk st batch) ->
  In (Some c) batch /\ ValidateBLSToExecutionChange pk st c = None.
Proof.
  induction batch as [|[c'|] rest IH]; simpl; [contradiction | |].
  - destruct (ValidateBLSToExecutionChange pk st c') eqn:Hv.
    + intros H. destruct (IH H). auto.
    + intros [<- | H]; [auto|]. destruct (IH H). auto.
  - intros H. destruct (IH H). auto.
Qed.

(** One pass over a batch: exactly the changes that pass the validation
    against [st] are handed to the broadcaster, in order, and nothing else
    happens. *)
Lemma broadcastBLSEach_run ctx st (batch : Changes) :
  forall w, exists w1 tr,
    broadcastBLSEach pk s ctx st batch w = (tt, w1, tr) /\
    broadcastMsgs tr = map eth.MsgBLSChange (validChanges pk st batch) /\
    List.length tr = List.length (validChanges pk st batch) /\
    Forall (fun e => exists c err, e = EvBroadcast (eth.MsgBLSChange c) err) tr.
Proof.
  induction batch as [|[c|] rest IH]; intros w; simpl.
  - exists w, []. repeat split; constructor.
  - destruct (ValidateBLSToExecutionChange pk st c).
    + apply IH.
    + unfold bind, doBroadcast, callEv.
      destruct (Broadcast s ctx (eth.MsgBLSChange c) w) as [err w1].
      destruct (IH w1) as (w2 & tr & -> & Hm & Hl & Hf).
      exists w2, (EvBroadcast (eth.MsgBLSChange c) err :: tr).
      simpl. rewrite Hm, Hl. repeat split.
      constructor; [eexists; eexists; reflexivity | assumption].
  - apply IH.
Qed.

(** The limit of [broadcastBLSBatch]. *)
Lemma limit_min (n : nat) :
  (if Nat.ltb n broadcastBLSChangesRateLimit then n else broadcastBLSChangesRateLimit)
  = Nat.min broadcastBLSChangesRateLimit n.
Proof. destruct (Nat.ltb_spec n broadcastBLSChangesRateLimit); lia. Qed.

Lemma broadcastBLSBatch_failed ctx (changes : Changes) (w : World) err w0 :
  HeadStateReadOnly s ctx w = (inl err, w0) ->
  broadcastBLSBatch pk s ctx changes w = (changes, w0, []).
Proof.
  intros H. unfold broadcastBLSBatch, bind, call. rewrite H. reflexivity.
Qed.

Lemma broadcastBLSBatch_ok ctx (changes : Changes) (w : World) st w0 :
  HeadStateReadOnly s ctx w = (inr st, w0) ->
  exists w1 tr,
    broadcastBLSBatch pk s ctx changes w =
    (skipn (Nat.min broadcastBLSChangesRateLimit (List.length changes)) changes,
     w1, tr) /\
    broadcastMsgs tr =
    map eth.MsgBLSChange
      (validChanges pk st (firstn broadcastBLSChangesRateLimit changes)) /\
    isRound tr.
Proof.
  intros H. unfold broadcastBLSBatch. rewrite limit_min.
  unfold bind, call. rewrite H.
  destruct (broadcastBLSEach_run ctx st
              (firstn (Nat.min broadcastBLSChangesRateLimit (List.length changes))
                 changes) w0) as (w1 & tr & -> & Hm & Hl & Hf).
  exists w1, tr. simpl. rewrite List.app_nil_r.
  assert (Hfirst :
    firstn (Nat.min broadcastBLSChangesRateLimit (List.length changes)) changes
    = firstn broadcastBLSChangesRateLimit changes).
  { destruct (Nat.le_ge_cases broadcastBLSChangesRateLimit (List.length changes)).
    - rewrite Nat.min_l by assumption. reflexivity.
    - rewrite Nat.min_r by assumption.
      rewrite firstn_all, firstn_all2 by assumption. reflexivity. }
  rewrite Hfirst in *. repeat split; try assumption.
  rewrite Hl.
  etransitivity; [apply validChanges_length|].
  rewrite length_firstn. apply Nat.le_min_l.
Qed.

Lemma In_firstn {A} (x : A) n l : In x (firstn n l) -> In x l.
Proof.
  intros H. rewrite <- (firstn_skipn n l). apply in_or_app. left. exact H.
Qed.

Lemma In_skipn {A} (x : A) n l : In x (skipn n l) -> In x l.
Proof.
  intros H. rewrite <- (firstn_skipn n l). apply in_or_app. right. exact H.
Qed.

Lemma isRound_nil : isRound [].
Proof. split; [simpl; lia | constructor]. Qed.

(** Whatever the head state, a round is a round, and what is left of the
    batch is a suffix of it. *)
Lemma broadcastBLSBatch_round ctx (changes : Changes) (w : World) :
  isRound (trace_of (broadcastBLSBatch pk s ctx changes w)) /\
  (exists n, result_of (broadcastBLSBatch pk s ctx changes w) = skipn n changes) /\
  (forall m, In m (broadcastMsgs (trace_of (broadcastBLSBatch pk s ctx changes w))) ->
             exists c, m = eth.MsgBLSChange c /\ In (Some c) changes).
Proof.
  destruct (HeadStateReadOnly s ctx w) as [[err|st] w0] eqn:H.
  - rewrite (@broadcastBLSBatch_failed ctx changes w err w0 H).
    unfold trace_of, result_of; simpl.
    split; [apply isRound_nil|]. split; [exists 0; reflexivity | contradiction].
  - destruct (@broadcastBLSBatch_ok ctx changes w st w0 H) as (w1 & tr & -> & Hm & Hr).
    unfold trace_of, result_of; simpl.
    split; [assumption|]. split; [eexists; reflexivity|].
    intros m Hin. rewrite Hm in Hin. apply in_map_iff in Hin.
    destruct Hin as (c & <- & Hc). exists c. split; [reflexivity|].
    apply validChanges_In in Hc. destruct Hc as [Hc _].
    eapply In_firstn; eauto.
Qed.

(** One turn of the [for] loop of [broadcastBLSChanges]. *)
Lemma broadcastBLSTicks_S fuel ctx (changes : Changes) (w : World) :
  broadcastBLSTicks pk s (S fuel) ctx changes w =
  let w1 := select_wake s w in
  if ctx_done (cancelled s w1) ctx && negb (ticker_chosen s w1)
  then (Some changes, w1, [EvSelect CaseDone])
  else
    let '(changes', w2, tr) := broadcastBLSBatch pk s ctx changes w1 in
    if Nat.eqb (List.length changes') 0
    then (Some changes', w2, EvSelect CaseTick :: tr)
    else
      let '(r, w3, tr') := broadcastBLSTicks pk s fuel ctx changes' w2 in
      (r, w3, EvSelect CaseTick :: (tr ++ tr')%list).
Proof.
  cbn [broadcastBLSTicks]. unfold bind at 1, selectDoneOrTick. cbv zeta.
  destruct (ctx_done (cancelled s (select_wake s w)) ctx);
    destruct (ticker_chosen s (select_wake s w)); cbn [andb negb];
    try reflexivity;
    unfold bind;
    destruct (broadcastBLSBatch pk s ctx changes (select_wake s w))
      as [[changes' w2] tr];
    (destruct (Nat.eqb (List.length changes') 0);
     [ unfold ret; simpl; rewrite List.app_nil_r; reflexivity
     | destruct (broadcastBLSTicks pk s fuel ctx changes' w2) as [[r w3] tr'];
       reflexivity ]).
Qed.

Lemma broadcastBLSChanges_unfold fuel ctx (changes : Changes) (w : World) :
  broadcastBLSChanges pk s fuel ctx changes w =
  let '(changes', w1, tr) := broadcastBLSBatch pk s ctx changes w in
  if Nat.eqb (List.length changes') 0
  then (Some changes', w1, tr)
  else
    let '(r, w2, tr') := broadcastBLSTicks pk s fuel ctx changes' w1 in
    (r, w2, (tr ++ tr')%list).
Proof.
  unfold broadcastBLSChanges, bind.
  destruct (broadcastBLSBatch pk s ctx changes w) as [[changes' w1] tr].
  destruct (Nat.eqb (List.length changes') 0).
  - unfold ret. rewrite List.app_nil_r. reflexivity.
  - reflexivity.
Qed.

Lemma rounds_after (round t : list Event) :
  isRound round ->
  (t = [] \/ t = [EvSelect CaseDone] \/ exists rest, t = EvSelect CaseTick :: rest /\ rounds rest) ->
  rounds (round ++ t).
Proof.
  intros Hr [-> | [-> | (rest & -> & Hrest)]].
  - rewrite List.app_nil_r. apply Rounds_last. assumption.
  - apply Rounds_done. assumption.
  - apply Rounds_tick; assumption.
Qed.

Lemma broadcastBLSTicks_shape fuel :
  forall ctx (changes : Changes) (w : World),
    let t := trace_of (broadcastBLSTicks pk s fuel ctx changes w) in
    t = [] \/ t = [EvSelect CaseDone] \/
    exists rest, t = EvSelect CaseTick :: rest /\ rounds rest.
Proof.
  induction fuel as [|fuel IH]; intros ctx changes w; cbv zeta.
  - left. reflexivity.
  - rewrite broadcastBLSTicks_S. cbv zeta.
    destruct (ctx_done _ ctx && negb _); [right; left; reflexivity|].
    destruct (broadcastBLSBatch_round ctx changes (select_wake s w)) as (Hround & _ & _).
    destruct (broadcastBLSBatch pk s ctx changes (select_wake s w))
      as [[changes' w2] tr].
    unfold trace_of in Hround; simpl in Hround.
    right; right.
    destruct (Nat.eqb (List.length changes') 0).
    + exists tr. split; [reflexivity | apply Rounds_last; assumption].
    + specialize (IH ctx changes' w2). cbv zeta in IH.
      destruct (broadcastBLSTicks pk s fuel ctx changes' w2) as [[r w3] tr'].
      unfold trace_of in *; simpl in *.
      exists (tr ++ tr')%list. split; [reflexivity|].
      apply rounds_after; assumption.
Qed.

Lemma broadcastBLSChanges_rounds fuel ctx (changes : Changes) (w : World) :
  rounds (trace_of (broadcastBLSChanges pk s fuel ctx changes w)).
Proof.
  rewrite broadcastBLSChanges_unfold.
  destruct (broadcastBLSBatch_round ctx changes w) as (Hround & _ & _).
  destruct (broadcastBLSBatch pk s ctx changes w) as [[changes' w1] tr].
  unfold trace_of in Hround; simpl in Hround.
  destruct (Nat.eqb (List.length changes') 0).
  - apply Rounds_last. assumption.
  - pose proof (broadcastBLSTicks_shape fuel ctx changes' w1) as Ht.
    cbv zeta in Ht.
    destruct (broadcastBLSTicks pk s fuel ctx changes' w1) as [[r w2] tr'].
    unfold trace_of in *; simpl in *. apply rounds_after; assumption.
Qed.

(** The loop returns on an empty batch or on the [Done] case only. *)
Lemma broadcastBLSTicks_exit fuel :
  forall ctx (changes : Changes) (w : World) rest,
    result_of (broadcastBLSTicks pk s fuel ctx changes w) = Some rest ->
    rest = [] \/
    exists tr, trace_of (broadcastBLSTicks pk s fuel ctx changes w)
               = (tr ++ [EvSelect CaseDone])%list.
Proof.
  induction fuel as [|fuel IH]; intros ctx changes w rest.
  - discriminate.
  - rewrite broadcastBLSTicks_S. cbv zeta.
    destruct (ctx_done _ ctx && negb _).
    { intros _. right. exists []. reflexivity. }
    destruct (broadcastBLSBatch pk s ctx changes (select_wake s w))
      as [[changes' w2] tr].
    destruct (Nat.eqb (List.length changes') 0) eqn:Hlen.
    + unfold result_of; simpl. intros H. inversion H; subst.
      left. apply Nat.eqb_eq in Hlen. destruct rest; [reflexivity | discriminate].
    + specialize (IH ctx changes' w2 rest).
      destruct (broadcastBLSTicks pk s fuel ctx changes' w2) as [[r w3] tr'].
      unfold result_of, trace_of in *; simpl in *. intros H.
      destruct (IH H) as [-> | [t Ht]]; [left; reflexivity|].
      right. exists (EvSelect CaseTick :: tr ++ t)%list. subst tr'.
      simpl. rewrite <- app_assoc. reflexivity.
Qed.

Lemma broadcastBLSChanges_exit fuel ctx (changes : Changes) (w : World) rest :
  result_of (broadcastBLSChanges pk s fuel ctx changes w) = Some rest ->
  rest = [] \/
  exists tr, trace_of (broadcastBLSChanges pk s fuel ctx changes w)
             = (tr ++ [EvSelect CaseDone])%list.
Proof.
  rewrite broadcastBLSChanges_unfold.
  destruct (broadcastBLSBatch pk s ctx changes w) as [[changes' w1] tr].
  destruct (Nat.eqb (List.length changes') 0) eqn:Hlen.
  - unfold result_of; simpl. intros H. inversion H; subst.
    left. apply Nat.eqb_eq in Hlen. destruct rest; [reflexivity | discriminate].
  - pose proof (@broadcastBLSTicks_exit fuel ctx changes' w1 rest) as Ht.
    destruct (broadcastBLSTicks pk s fuel ctx changes' w1) as [[r w2] tr'].
    unfold result_of, trace_of in *; simpl in *. intros H.
    destruct (Ht H) as [-> | [t Ht']]; [left; reflexivity|].
    right. exists (tr ++ t)%list. subst tr'. rewrite <- app_assoc. reflexivity.
Qed.

(** The loop only ever broadcasts changes of the batch it was given. *)
Lemma broadcastBLSTicks_subset fuel :
  forall ctx (changes : Changes) (w : World) m,
    In m (broadcastMsgs (trace_of (broadcastBLSTicks pk s fuel ctx changes w))) ->
    exists c, m = eth.MsgBLSChange c /\ In (Some c) changes.
Proof.
  induction fuel as [|fuel IH]; intros ctx changes w m.
  - simpl. contradiction.
  - rewrite broadcastBLSTicks_S. cbv zeta.
    destruct (ctx_done _ ctx && negb _); [simpl; contradiction|].
    destruct (broadcastBLSBatch_round ctx changes (select_wake s w))
      as (_ & [n Hn] & Hsub).
    destruct (broadcastBLSBatch pk s ctx changes (select_wake s w))
      as [[changes' w2] tr].
    unfold trace_of, result_of in Hn, Hsub; simpl in Hn, Hsub.
    destruct (Nat.eqb (List.length changes') 0).
    + unfold trace_of; simpl. apply Hsub.
    + specialize (IH ctx changes' w2 m).
      destruct (broadcastBLSTicks pk s fuel ctx changes' w2) as [[r w3] tr'].
      unfold trace_of in *; simpl in *. rewrite broadcastMsgs_app.
      intros H. apply in_app_or in H. destruct H as [H | H]; [auto|].
      destruct (IH H) as (c & -> & Hc). exists c. split; [reflexivity|].
      subst changes'. eapply In_skipn; eauto.
Qed.

Lemma broadcastBLSChanges_subset fuel ctx (changes : Changes) (w : World) m :
  In m (broadcastMsgs (trace_of (broadcastBLSChanges pk s fuel ctx changes w))) ->
  exists c, m = eth.MsgBLSChange c /\ In (Some c) changes.
Proof.
  rewrite broadcastBLSChanges_unfold.
  destruct (broadcastBLSBatch_round ctx changes w) as (_ & [n Hn] & Hsub).
  destruct (broadcastBLSBatch pk s ctx changes w) as [[changes' w1] tr].
  unfold trace_of, result_of in Hn, Hsub; simpl in Hn, Hsub.
  destruct (Nat.eqb (List.length changes') 0).
  - unfold trace_of; simpl. apply Hsub.
  - pose proof (@broadcastBLSTicks_subset fuel ctx changes' w1 m) as Ht.
    destruct (broadcastBLSTicks pk s fuel ctx changes' w1) as [[r w2] tr'].
    unfold trace_of in *; simpl in *. rewrite broadcastMsgs_app.
    intros H. apply in_app_or in H. destruct H as [H | H]; [auto|].
    destruct (Ht H) as (c & -> & Hc). exists c. split; [reflexivity|].
    subst changes'. eapply In_skipn; eauto.
Qed.

(** As long as the head state can be read, the loop returns: a fuel of the
    length of the batch is enough. *)
Lemma broadcastBLSTicks_returns
  (Hhead : forall ctx w, exists st w0, HeadStateReadOnly s ctx w = (inr st, w0))
  fuel :
  forall ctx (changes : Changes) (w : World),
    changes <> [] -> List.length changes <= fuel ->
    exists rest, result_of (broadcastBLSTicks pk s fuel ctx changes w) = Some rest.
Proof.
  induction fuel as [|fuel IH]; intros ctx changes w Hne Hlen.
  - destruct changes; [congruence | simpl in Hlen; lia].
  - rewrite broadcastBLSTicks_S. cbv zeta.
    destruct (ctx_done _ ctx && negb _); [eexists; reflexivity|].
    destruct (Hhead ctx (select_wake s w)) as (st & w0 & Hst).
    destruct (@broadcastBLSBatch_ok ctx changes (select_wake s w) st w0 Hst)
      as (w1 & tr & -> & _ & _).
    destruct (Nat.eqb (List.length (skipn _ changes)) 0) eqn:Hz;
      [eexists; reflexivity|].
    apply Nat.eqb_neq in Hz.
    destruct (IH ctx (skipn (Nat.min broadcastBLSChangesRateLimit
                               (List.length changes)) changes) w1) as [rest Hrest].
    + intros Heq. rewrite Heq in Hz. simpl in Hz. lia.
    + rewrite length_skipn.
      destruct changes; [congruence|]. simpl in *.
      unfold broadcastBLSChangesRateLimit. lia.
    + destruct (broadcastBLSTicks pk s fuel ctx _ w1) as [[r w3] tr'].
      unfold result_of in *; simpl in *. exists rest. assumption.
Qed.

Lemma broadcastBLSChanges_returns
  (Hhead : forall ctx w, exists st w0, HeadStateReadOnly s ctx w = (inr st, w0))
  ctx (changes : Changes) (w : World) :
  exists rest,
    result_of (broadcastBLSChanges pk s (List.length changes) ctx changes w)
    = Some rest.
Proof.
  rewrite broadcastBLSChanges_unfold.
  destruct (Hhead ctx w) as (st & w0 & Hst).
  destruct (@broadcastBLSBatch_ok ctx changes w st w0 Hst) as (w1 & tr & -> & _ & _).
  destruct (Nat.eqb (List.length (skipn _ changes)) 0) eqn:Hz;
    [eexists; reflexivity|].
  apply Nat.eqb_neq in Hz.
  destruct (@broadcastBLSTicks_returns Hhead (List.length changes) ctx
              (skipn (Nat.min broadcastBLSChangesRateLimit (List.length changes))
                 changes) w1) as [rest Hrest].
  - intros Heq. rewrite Heq in Hz. simpl in Hz. lia.
  - rewrite length_skipn. lia.
  - destruct (broadcastBLSTicks pk s _ ctx _ w1) as [[r w3] tr'].
    unfold result_of in *; simpl in *. exists rest. assumption.
Qed.

(** Whatever a round broadcasts has passed the validation against the
    head state this round has read. *)
Lemma broadcastBLSBatch_validated ctx (changes : Changes) (w : World) m :
  In m (broadcastMsgs (trace_of (broadcastBLSBatch pk s ctx changes w))) ->
  exists c st w0,
    m = eth.MsgBLSChange c /\
    In (Some c) (firstn broadcastBLSChangesRateLimit changes) /\
    HeadStateReadOnly s ctx w = (inr st, w0) /\
    ValidateBLSToExecutionChange pk st c = None.
Proof.
  destruct (HeadStateReadOnly s ctx w) as [[err|st] w0] eqn:H.
  - rewrite (@broadcastBLSBatch_failed ctx changes w err w0 H).
    unfold trace_of; simpl. contradiction.
  - destruct (@broadcastBLSBatch_ok ctx changes w st w0 H) as (w1 & tr & -> & Hm & _).
    unfold trace_of; simpl. rewrite Hm. intros Hin.
    apply in_map_iff in Hin. destruct Hin as (c & <- & Hc).
    apply validChanges_In in Hc. destruct Hc as [Hc Hv].
    exists c, st, w0. repeat split; assumption.
Qed.

Lemma broadcastBLSTicks_validated fuel :
  forall ctx (changes : Changes) (w : World) m,
    In m (broadcastMsgs (trace_of (broadcastBLSTicks pk s fuel ctx changes w))) ->
    exists c st w' w0,
      m = eth.MsgBLSChange c /\ In (Some c) changes /\
      HeadStateReadOnly s ctx w' = (inr st, w0) /\
      ValidateBLSToExecutionChange pk st c = None.
Proof.
  induction fuel as [|fuel IH]; intros ctx changes w m.
  - simpl. contradiction.
  - rewrite broadcastBLSTicks_S. cbv zeta.
    destruct (ctx_done _ ctx && negb _); [simpl; contradiction|].
    destruct (broadcastBLSBatch_round ctx changes (select_wake s w))
      as (_ & [n Hn] & _).
    pose proof (@broadcastBLSBatch_validated ctx changes (select_wake s w) m) as Hb.
    destruct (broadcastBLSBatch pk s ctx changes (select_wake s w))
      as [[changes' w2] tr].
    unfold trace_of, result_of in Hn, Hb; cbn [fst snd] in Hn, Hb.
    assert (Hround : In m (broadcastMsgs tr) ->
                     exists c st w' w0,
                       m = eth.MsgBLSChange c /\ In (Some c) changes /\
                       HeadStateReadOnly s ctx w' = (inr st, w0) /\
                       ValidateBLSToExecutionChange pk st c = None).
    { intros Hin. destruct (Hb Hin) as (c & st & w0 & -> & Hc & Hst & Hv).
      exists c, st, (select_wake s w), w0.
      repeat split; try assumption. eapply In_firstn; eassumption. }
    destruct (Nat.eqb (List.length changes') 0).
    + unfold trace_of; simpl. exact Hround.
    + specialize (IH ctx changes' w2 m).
      destruct (broadcastBLSTicks pk s fuel ctx changes' w2) as [[r w3] tr'].
      unfold trace_of in *; simpl in *. rewrite broadcastMsgs_app.
      intros H. apply in_app_or in H. destruct H as [H | H]; [auto|].
      destruct (IH H) as (c & st & w' & w0 & -> & Hc & Hst & Hv).
      exists c, st, w', w0. repeat split; try assumption.
      subst changes'. eapply In_skipn; eauto.
Qed.

Lemma broadcastBLSChanges_validated fuel ctx (changes : Changes) (w : World) m :
  In m (broadcastMsgs (trace_of (broadcastBLSChanges pk s fuel ctx changes w))) ->
  exists c st w' w0,
    m = eth.MsgBLSChange c /\ In (Some c) changes /\
    HeadStateReadOnly s ctx w' = (inr st, w0) /\
    ValidateBLSToExecutionChange pk st c = None.
Proof.
  rewrite broadcastBLSChanges_unfold.
  destruct (broadcastBLSBatch_round ctx changes w) as (_ & [n Hn] & _).
  pose proof (@broadcastBLSBatch_validated ctx changes w m) as Hb.
  destruct (broadcastBLSBatch pk s ctx changes w) as [[changes' w1] tr].
  unfold trace_of, result_of in Hn, Hb; cbn [fst snd] in Hn, Hb.
  assert (Hround : In m (broadcastMsgs tr) ->
                   exists c st w' w0,
                     m = eth.MsgBLSChange c /\ In (Some c) changes /\
                     HeadStateReadOnly s ctx w' = (inr st, w0) /\
                     ValidateBLSToExecutionChange pk st c = None).
  { intros Hin. destruct (Hb Hin) as (c & st & w0 & -> & Hc & Hst & Hv).
    exists c, st, w, w0.
    repeat split; try assumption. eapply In_firstn; eassumption. }
  destruct (Nat.eqb (List.length changes') 0).
  - unfold trace_of; simpl. exact Hround.
  - pose proof (@broadcastBLSTicks_validated fuel ctx changes' w1 m) as Ht.
    destruct (broadcastBLSTicks pk s fuel ctx changes' w1) as [[r w2] tr'].
    unfold trace_of in *; simpl in *. rewrite broadcastMsgs_app.
    intros H. apply in_app_or in H. destruct H as [H | H]; [auto|].
    destruct (Ht H) as (c & st & w' & w0 & -> & Hc & Hst & Hv).
    exists c, st, w', w0. repeat split; try assumption.
    subst changes'. eapply In_skipn; eauto.
Qed.

(** C5 (amended): a round of the deferred loop first reads the head state.
    If that fails, the round broadcasts nothing and removes nothing: the
    batch is left as it is for the next round.  If it succeeds, the round
    hands to the broadcaster exactly those of the first 128 changes of the
    batch that pass the validation against this head state, in order (at
    most 128; a change that fails is not broadcast), does nothing else (no
    pool is touched), and removes exactly min(128, remaining) changes from
    the batch.  The trace of the loop is a sequence of such rounds
    separated by ticks of the 500 ms ticker; whatever the loop broadcasts
    is a change of its batch that has passed the validation against a head
    state read by one of its rounds; the loop returns only on an empty
    batch or on the [Done] case of the context; and it does return, within
    as many turns as the batch has changes, whenever the head state can be
    read. *)
Theorem C5_rounds_of_the_deferred_broadcast (fuel : nat) (ctx : Context)
  (changes : Changes) (w : World) :
  (forall err w0,
      HeadStateReadOnly s ctx w = (inl err, w0) ->
      broadcastBLSBatch pk s ctx changes w = (changes, w0, [])) /\
  (forall st w0,
      HeadStateReadOnly s ctx w = (inr st, w0) ->
      exists w1 tr,
        broadcastBLSBatch pk s ctx changes w =
        (skipn (Nat.min broadcastBLSChangesRateLimit (List.length changes)) changes,
         w1, tr) /\
        broadcastMsgs tr =
        map eth.MsgBLSChange
          (validChanges pk st (firstn broadcastBLSChangesRateLimit changes)) /\
        isRound tr) /\
  rounds (trace_of (broadcastBLSChanges pk s fuel ctx changes w)) /\
  (forall m,
      In m (broadcastMsgs (trace_of (broadcastBLSChanges pk s fuel ctx changes w))) ->
      exists c st w' w0,
        m = eth.MsgBLSChange c /\ In (Some c) changes /\
        HeadStateReadOnly s ctx w' = (inr st, w0) /\
        ValidateBLSToExecutionChange pk st c = None) /\
  (forall rest,
      result_of (broadcastBLSChanges pk s fuel ctx changes w) = Some rest ->
      rest = [] \/
      exists tr, trace_of (broadcastBLSChanges pk s fuel ctx changes w)
                 = (tr ++ [EvSelect CaseDone])%list) /\
  ((forall ctx w, exists st w0, HeadStateReadOnly s ctx w = (inr st, w0)) ->
   exists rest,
     result_of (broadcastBLSChanges pk s (List.length changes) ctx changes w)
     = Some rest).
Proof.
  split; [|split; [|split; [|split; [|split]]]].
  - intros err w0 H. eapply broadcastBLSBatch_failed; eauto.
  - intros st w0 H. eapply broadcastBLSBatch_ok; eauto.
  - apply broadcastBLSChanges_rounds.
  - intros m. apply broadcastBLSChanges_validated.
  - intros rest. apply broadcastBLSChanges_exit.
  - intros Hhead. apply broadcastBLSChanges_returns. assumption.
Qed.

(* ---------------------------------------------------------------- *)
(** ** Submitting BLS changes *)

Lemma gatedAtSubmission_less st (tr1 tr2 : list Event) toBroadcast :
  gatedAtSubmission pk st tr1 toBroadcast ->
  gatedAtSubmission pk st (tr1 ++ tr2) toBroadcast.
Proof.
  intros [H1 H2]. split; [assumption|].
  intros c Hc. destruct (H2 c Hc) as (sbls & -> & Hv & Hval & Hsig & Hn & Hi).
  exists sbls. repeat split; try assumption; apply in_or_app; left; assumption.
Qed.

Lemma validateBLSChanges_gated st (req : list (structs_SignedBLSToExecutionChange T)) :
  forall i (w : World) failures toBroadcast w1 tr,
    validateBLSChanges pk s st i req w = (failures, toBroadcast, w1, tr) ->
    broadcastMsgs tr = [] /\ gatedAtSubmission pk st tr toBroadcast.
Proof.
  induction req as [|change rest IH]; intros i w failures toBroadcast w1 tr H;
    cbn [validateBLSChanges] in H.
  - inversion H; subst. split; [reflexivity|].
    split; [reflexivity | intros c []].
  - assert (Hskip : forall msg,
              bind (validateBLSChanges pk s st (S i) rest)
                (fun res => ret ({| Index := i; Message := msg |} :: fst res, snd res))
                w
              = (failures, toBroadcast, w1, tr) ->
              broadcastMsgs tr = [] /\ gatedAtSubmission pk st tr toBroadcast).
    { intros msg H'. unfold bind, ret in H'.
      destruct (validateBLSChanges pk s st (S i) rest w) as [[[f tb] w2] tr2] eqn:E.
      simpl in H'. inversion H'; subst. rewrite List.app_nil_r. eapply IH; eauto. }
    destruct (SignedBLSToExecutionChange_ToConsensus pk change) as [e|sbls];
      [eapply Hskip; eauto|].
    destruct (ValidateBLSToExecutionChange pk st sbls) eqn:Hval;
      [eapply Hskip; eauto|].
    destruct (VerifyBLSChangeSignature pk st sbls) eqn:Hsig;
      [eapply Hskip; eauto|].
    clear Hskip. unfold bind, ret, FeedSend, doInsertBLSToExecChange in H.
    match type of H with
    | context [validateBLSChanges pk s st (S i) rest ?w0] =>
        destruct (validateBLSChanges pk s st (S i) rest w0)
          as [[[f tb] w2] tr2] eqn:E
    end.
    cbn [fst snd List.app] in H. destruct (IH _ _ _ _ _ _ E) as [Hm [Hlow Hin]].
    destruct (Nat.leb version.Capella (Version pk st)) eqn:Hv;
      inversion H; subst; clear H; rewrite List.app_nil_r; simpl.
    + split; [assumption|]. apply Nat.leb_le in Hv. split; [intros; lia|].
      intros c Hc. simpl in Hc. destruct Hc as [<- | Hc].
      * exists sbls. repeat split; simpl; auto.
      * destruct (Hin c Hc) as (x & -> & H1 & H2 & H3 & H4 & H5).
        exists x. repeat split; simpl; auto.
    + split; [assumption|]. split; [assumption|].
      intros c Hc. destruct (Hin c Hc) as (x & -> & H1 & H2 & H3 & H4 & H5).
      exists x. repeat split; simpl; auto.
Qed.

Lemma SubmitBLSToExecutionChanges_go (r : Request) (w : World) g w1 tr :
  SubmitBLSToExecutionChanges pk s r w = (Some g, w1, tr) ->
  broadcastMsgs tr = [] /\
  exists st w0 changes,
    HeadStateReadOnly s (StartSpan (Ctx r) "beacon.SubmitBLSToExecutionChanges") w
    = (inr st, w0) /\
    g = GoBroadcastBLSChanges
          (StartSpan (Ctx r) "beacon.SubmitBLSToExecutionChanges") changes /\
    gatedAtSubmission pk st tr changes.
Proof.
  unfold SubmitBLSToExecutionChanges. unfold bind at 1, call at 1.
  destruct (HeadStateReadOnly s _ w) as [[e|st] w0]; [discriminate|].
  destruct (json_DecodeBLSChanges pk (Body r)) as [|e|req]; try discriminate.
  destruct (Nat.eqb (List.length req) 0); [discriminate|].
  unfold bind at 1.
  destruct (validateBLSChanges pk s st 0 req w0) as [[[failures toBroadcast] w2] tr2]
    eqn:E.
  apply validateBLSChanges_gated in E. destruct E as [Hm Hg].
  destruct (Nat.ltb 0 (List.length failures)); unfold_m; simpl; intros H;
    inversion H; subst; rewrite ?List.app_nil_r.
  - split; [rewrite broadcastMsgs_app, Hm; reflexivity|].
    exists st, w0, toBroadcast. split; [reflexivity|]. split; [reflexivity|].
    apply gatedAtSubmission_less. assumption.
  - split; [assumption|].
    exists st, w0, toBroadcast. split; [reflexivity|]. split; [reflexivity|].
    assumption.
Qed.

(** C7 (amended): the fork gate of the BLS changes is evaluated once, at
    submission, against the head state read at the start of the handler;
    the deferred loop checks no fork.  The handler itself broadcasts
    nothing.  If that head state is below Capella, the loop is started on
    an empty batch and no change of the submission is ever handed to the
    broadcaster.  Otherwise the loop is given only changes that passed both
    validations against that head state and were notified and inserted
    into the pool, and whatever the loop broadcasts, in whatever world it
    runs, is one of them. *)
Theorem C7_fork_gate_at_submission (r : Request) (w : World) g w1 tr
  (Hrun : SubmitBLSToExecutionChanges pk s r w = (Some g, w1, tr)) :
  broadcastMsgs tr = [] /\
  exists st w0 ctx changes,
    HeadStateReadOnly s (StartSpan (Ctx r) "beacon.SubmitBLSToExecutionChanges") w
    = (inr st, w0) /\
    g = GoBroadcastBLSChanges ctx changes /\
    gatedAtSubmission pk st tr changes /\
    (Version pk st < version.Capella ->
     forall fuel w2, broadcastMsgs (trace_of (runGo pk s fuel g w2)) = []) /\
    (forall fuel w2 m,
        In m (broadcastMsgs (trace_of (runGo pk s fuel g w2))) ->
        exists c, m = eth.MsgBLSChange c /\ In (Some c) changes).
Proof.
  apply SubmitBLSToExecutionChanges_go in Hrun.
  destruct Hrun as (Hm & st & w0 & changes & Hst & -> & Hg).
  split; [assumption|].
  exists st, w0, (StartSpan (Ctx r) "beacon.SubmitBLSToExecutionChanges"), changes.
  split; [assumption|]. split; [reflexivity|]. split; [assumption|]. split.
  - intros Hlow fuel w2. destruct Hg as [Hg _]. rewrite (Hg Hlow). simpl.
    destruct (broadcastMsgs (trace_of (broadcastBLSChanges pk s fuel _ [] w2)))
      as [|m l] eqn:E; [reflexivity|].
    assert (Hin : In m (broadcastMsgs
                          (trace_of (broadcastBLSChanges pk s fuel
                             (StartSpan (Ctx r) "beacon.SubmitBLSToExecutionChanges")
                             [] w2)))).
    { rewrite E. left. reflexivity. }
    apply broadcastBLSChanges_subset in Hin. destruct Hin as (c & _ & []).
  - intros fuel w2 m. simpl. apply broadcastBLSChanges_subset.
Qed.

(** C4: the handler starts the deferred loop with the context of its own
    span, which is derived from the context of the request; no other
    context is consulted.  Hence the loop does not outlive the request: when
    a [select] of the loop wakes up with the request context done (its own
    cancel function or the one of an ancestor has been called) and the
    runtime takes the [Done] case, the loop returns at once and the changes
    still in the batch are never broadcast, although they passed the
    validation. *)
Theorem C4_loop_runs_under_the_request_context (r : Request) (w : World) g w1 tr
  (Hrun : SubmitBLSToExecutionChanges pk s r w = (Some g, w1, tr)) :
  exists ctx changes0,
    g = GoBroadcastBLSChanges ctx changes0 /\
    ctx = StartSpan (Ctx r) "beacon.SubmitBLSToExecutionChanges" /\
    (forall cancelledIds, ctx_done cancelledIds ctx = ctx_done cancelledIds (Ctx r)) /\
    (forall fuel changes w2,
        ctx_done (cancelled s (select_wake s w2)) (Ctx r) = true ->
        ticker_chosen s (select_wake s w2) = false ->
        broadcastBLSTicks pk s (S fuel) ctx changes w2 =
        (Some changes, select_wake s w2, [EvSelect CaseDone])).
Proof.
  apply SubmitBLSToExecutionChanges_go in Hrun.
  destruct Hrun as (_ & st & w0 & changes & _ & -> & _).
  eexists; eexists. split; [reflexivity|]. split; [reflexivity|].
  split; [reflexivity|].
  intros fuel ch w2 Hdone Htick.
  rewrite broadcastBLSTicks_S. cbv zeta. cbn [ctx_done].
  rewrite Hdone, Htick. reflexivity.
Qed.

End GatewayProofs.

(* ------------------------------------------------------------------ *)
(** ** The handlers on the simulated node *)

(** C1, as stated, fails: on a node whose broadcaster fails, a single
    well-formed attestation passes Phase A, its broadcast fails and is
    reported in the 500 answer, but the attestation is not given to the
    pool. *)
Lemma C1_counterexample_failed_broadcast_not_saved :
  let cfg := Sim.deaf [Sim.att0] in
  let pk := Sim.packages cfg in
  let a := eth.AttPhase0 Sim.att0 in
  let tr := trace_of (SubmitAttestations pk (Sim.server cfg)
                        (Sim.request "" "[att0]") Sim.start) in
  validateAttestations pk 0 [Sim.att0] = ([], [Sim.att0]) /\
  In (EvBroadcastAttestation 1 a (Some "no peers on the topic")) tr /\
  In (EvHandleError "Attestations at index 0 could not be broadcasted" 500) tr /\
  ~ (exists err,
        In (EvSaveAggregatedAttestation a err) tr \/
        In (EvSaveUnaggregatedAttestation a err) tr).
Proof.
  cbv zeta. split; [reflexivity|]. split; [vm_compute; auto|].
  split; [vm_compute; auto|].
  intros [err H]. vm_compute in H.
  destruct H as [[H | [H | [H | []]]] | [H | [H | [H | []]]]]; discriminate.
Qed.

(** C2, as stated, fails: on a healthy node the effects of an attester
    slashing submission are pool insert, notifier, broadcast, in this
    order, not notifier, broadcast, pool insert. *)
Lemma C2_counterexample_slashing_inserted_first :
  let tr := trace_of (SubmitAttesterSlashings (Sim.packages Sim.healthy)
                        (Sim.server Sim.healthy)
                        (Sim.request "" "slashing0") Sim.start) in
  kinds tr = [PoolInsert; Notify; Gossip] /\
  ~ inOrder rankNotifyGossipInsert tr.
Proof.
  cbv zeta. split; [reflexivity|].
  unfold inOrder.
  replace (kinds _) with [PoolInsert; Notify; Gossip] by reflexivity.
  intros H. inversion H as [|k l _ Hall]; subst.
  inversion Hall as [|k l Hlt _]; subst. simpl in Hlt. lia.
Qed.

Lemma C2_order_of_side_effects_witness :
  let r := Sim.request "" "exit0" in
  inOrder rankInsertNotifyGossip
    (trace_of (SubmitVoluntaryExit (Sim.packages Sim.healthy) (Sim.server Sim.healthy)
                 r Sim.start)) /\
  kinds (trace_of (SubmitVoluntaryExit (Sim.packages Sim.healthy)
                     (Sim.server Sim.healthy) r Sim.start))
  = [PoolInsert; Gossip].
Proof.
  cbv zeta. split; [|reflexivity].
  apply (C2_order_of_side_effects (Sim.packages Sim.healthy) (Sim.server Sim.healthy)
           (Sim.request "" "exit0") Background "" Sim.start).
Defined.

(** C3 at the failing input: a request without the version header sent to
    [SubmitAttesterSlashingsV2] is answered twice. *)
Lemma C3_missing_version_header_witness :
  let r := Sim.request "" "slashing0" in
  Header r VersionHeader = "" /\
  SubmitAttesterSlashingsV2 (Sim.packages Sim.healthy) (Sim.server Sim.healthy)
    r Sim.start =
  (tt, Sim.start,
   [EvHandleError "Eth-Consensus-Version header is required" 400;
    EvHandleError "Invalid version: version name does not map to a known value: " 400])
  /\
  SubmitAttestationsV2 (Sim.packages Sim.healthy) (Sim.server Sim.healthy)
    r Sim.start =
  (tt, Sim.start, [EvHandleError "Eth-Consensus-Version header is required" 400]).
Proof.
  cbv zeta. split; [reflexivity|].
  destruct (C3_missing_version_header (Sim.packages Sim.healthy)
              (Sim.server Sim.healthy) (Sim.request "" "slashing0") Sim.start
              eq_refl) as (H1 & _ & H3).
  split.
  - exact (H3 "version name does not map to a known value: " eq_refl).
  - exact H1.
Defined.

(** C4 at the failing input: 129 valid changes are submitted and the
    context of the request is cancelled before the first tick, while the
    base context of the server never is.  The loop broadcasts the first 128
    changes, takes the [Done] case at its first [select] and returns with
    the last change unsent. *)
Lemma C4_counterexample_request_cancellation_ends_the_loop :
  let cfg := Sim.cancelledRequest in
  let run :=
    Sim.thenGo 5 cfg
      (SubmitBLSToExecutionChanges (Sim.packages cfg) (Sim.server cfg)
         (Sim.request "" "changes") Sim.start) in
  (forall clock, Sim.cancelledAt cfg clock 0 = false) /\
  Sim.cancelledAt cfg 1 1 = true /\
  result_of run = Some [Some (Sim.change 128)] /\
  List.length (broadcastMsgs (trace_of run)) = 128 /\
  List.last (trace_of run) (EvSelect CaseTick) = EvSelect CaseDone /\
  ~ In (eth.MsgBLSChange (Sim.change 128)) (broadcastMsgs (trace_of run)).
Proof.
  cbv zeta. split; [reflexivity|]. split; [reflexivity|].
  split; [vm_compute; reflexivity|]. split; [vm_compute; reflexivity|].
  split; [vm_compute; reflexivity|].
  intros H. apply in_map with (f := fun m =>
    match m with
    | eth.MsgBLSChange c => eth.Change_ValidatorIndex (eth.SignedChange_Message c)
    | _ => 0%N
    end) in H.
  vm_compute in H.
  repeat (destruct H as [H | H]; [discriminate|]). exact H.
Qed.

Lemma C4_loop_runs_under_the_request_context_witness :
  let cfg := Sim.cancelledRequest in
  let ctx := StartSpan Sim.requestCtx "beacon.SubmitBLSToExecutionChanges" in
  let w := {| Sim.clock := 0; Sim.headReads := 2 |} in
  broadcastBLSTicks (Sim.packages cfg) (Sim.server cfg) 1 ctx
    [Some (Sim.change 128)] w =
  (Some [Some (Sim.change 128)], {| Sim.clock := 1; Sim.headReads := 2 |},
   [EvSelect CaseDone]).
Proof.
  cbv zeta.
  destruct (SubmitBLSToExecutionChanges (Sim.packages Sim.cancelledRequest)
              (Sim.server Sim.cancelledRequest) (Sim.request "" "changes") Sim.start)
    as [[g w1] tr] eqn:Hrun.
  assert (Hg : exists g', g = Some g').
  { pose proof Hrun as H. vm_compute in H. inversion H. eexists; reflexivity. }
  destruct Hg as [g' ->].
  destruct (C4_loop_runs_under_the_request_context _ _ _ _ Hrun)
    as (ctx & changes0 & _ & -> & _ & Hloop).
  apply (Hloop 0 [Some (Sim.change 128)] {| Sim.clock := 0; Sim.headReads := 2 |});
    reflexivity.
Defined.

(** C5, as stated, fails: when the head state cannot be read in a round,
    the round removes nothing from the batch, and not min(128, remaining)
    changes. *)
Lemma C5_counterexample_round_without_head_state :
  let cfg := Sim.headOutage in
  let ctx := StartSpan Sim.requestCtx "beacon.SubmitBLSToExecutionChanges" in
  let batch := map Some (Sim.changesUpTo 3) in
  let submitted :=
    SubmitBLSToExecutionChanges (Sim.packages cfg) (Sim.server cfg)
      (Sim.request "" "changes") Sim.start in
  let round :=
    broadcastBLSBatch (Sim.packages cfg) (Sim.server cfg) ctx batch
      (world_of submitted) in
  result_of submitted = Some (GoBroadcastBLSChanges ctx batch) /\
  result_of round = batch /\
  List.length (result_of round)
  <> List.length batch - Nat.min broadcastBLSChangesRateLimit (List.length batch).
Proof.
  cbv zeta. split; [reflexivity|]. split; [reflexivity|].
  vm_compute. discriminate.
Qed.

Lemma C5_rounds_of_the_deferred_broadcast_witness :
  let cfg := Sim.healthy in
  let ctx := StartSpan Sim.requestCtx "beacon.SubmitBLSToExecutionChanges" in
  let batch := map Some (Sim.changesUpTo 3) in
  (forall ctx w, exists st w0,
      HeadStateReadOnly (Sim.server cfg) ctx w = (inr st, w0)) /\
  exists rest,
    result_of (broadcastBLSChanges (Sim.packages cfg) (Sim.server cfg)
                 (List.length batch) ctx batch Sim.start) = Some rest.
Proof.
  cbv zeta.
  assert (Hhead : forall ctx w, exists st w0,
             HeadStateReadOnly (Sim.server Sim.healthy) ctx w = (inr st, w0)).
  { intros ctx w. eexists; eexists. reflexivity. }
  split; [exact Hhead|].
  apply (C5_rounds_of_the_deferred_broadcast (Sim.packages Sim.healthy)
           (Sim.server Sim.healthy) 0
           (StartSpan Sim.requestCtx "beacon.SubmitBLSToExecutionChanges")
           (map Some (Sim.changesUpTo 3)) Sim.start).
  exact Hhead.
Defined.

(** C6, as stated, fails at Electra: the first attestation of the batch
    fails Phase A, the broadcast of the second fails, and the committee
    index of the third cannot be derived.  [handleAttestationsElectra]
    gives up there, and the answer is a 400 that lists neither the
    validation failure nor the failed broadcast; no 500 is written. *)
Lemma C6_counterexample_electra_gives_up_after_a_failed_broadcast :
  let cfg := Sim.deafElectra in
  let pk := Sim.packages cfg in
  let s := Sim.server cfg in
  let r := Sim.request "electra" "[attEBadSig,attE0,attENoBits]" in
  let tr := trace_of (SubmitAttestationsV2 pk s r Sim.start) in
  fst (validateAttestationsElectra pk 0 (Sim.bodyAttestationsElectra cfg))
  = [{| Index := 0;
        Message := "Incorrect attestation signature: could not unmarshal bytes into signature" |}]
  /\
  broadcastAtts false tr = [eth.AttElectra Sim.attE0] /\
  response tr
  = [EvHandleError
       "Failed to handle attestations: failed to retrieve attestation committee index: no committee bits found in attestation"
       400] /\
  (forall fb, ~ In (couldNotBeBroadcasted fb) tr).
Proof.
  cbv zeta. split; [reflexivity|]. split; [vm_compute; reflexivity|].
  split; [vm_compute; reflexivity|].
  intros fb Hin.
  assert (H : In (couldNotBeBroadcasted fb)
                (response (trace_of (SubmitAttestationsV2
                                       (Sim.packages Sim.deafElectra)
                                       (Sim.server Sim.deafElectra)
                                       (Sim.request "electra"
                                          "[attEBadSig,attE0,attENoBits]")
                                       Sim.start)))).
  { unfold response. apply filter_In. split; [exact Hin | reflexivity]. }
  vm_compute in H. destruct H as [H | []]. discriminate H.
Qed.

(** C6 on a node whose broadcaster fails, for the batch of an attestation
    with a bad signature followed by a well-formed one: both handlers
    answer 500 and name index 0. *)
Lemma C6_broadcast_failures_take_priority_witness :
  let cfg := Sim.deaf [Sim.attBadSig; Sim.att0] in
  let r := Sim.request "deneb" "[attBadSig,att0]" in
  response (trace_of (SubmitAttestations (Sim.packages cfg) (Sim.server cfg)
                        r Sim.start))
  = [EvHandleError "Attestations at index 0 could not be broadcasted" 500] /\
  response (trace_of (SubmitAttestationsV2 (Sim.packages cfg) (Sim.server cfg)
                        r Sim.start))
  = [EvHandleError "Attestations at index 0 could not be broadcasted" 500].
Proof.
  cbv zeta.
  set (cfg := Sim.deaf [Sim.attBadSig; Sim.att0]).
  set (r := Sim.request "deneb" "[attBadSig,att0]").
  destruct (C6_broadcast_failures_take_priority (Sim.packages cfg) (Sim.server cfg)
              r Sim.start) as [H1 H2].
  change (json_DecodeRaw (Sim.packages cfg) (Body r))
    with (@DecodeOk RawMessage "[attBadSig,att0]") in H1, H2.
  change (String.eqb (Header r VersionHeader) "") with false in H2.
  change (version_FromString (Sim.packages cfg) (Header r VersionHeader))
    with (@inr Error nat 4) in H2.
  cbv iota zeta in H1, H2.
  destruct H1 as [H1 _]. destruct H2 as [H2 _].
  destruct (handleAttestations (Sim.packages cfg) (Sim.server cfg)
              (StartSpan (Ctx r) "beacon.SubmitAttestations")
              "[attBadSig,att0]" Sim.start)
    as [[[[af fb] err] w1] tr] eqn:Hrun.
  destruct (handleAttestationsV2 (Sim.packages cfg) (Sim.server cfg) 4
              (StartSpan (Ctx r) "beacon.SubmitAttestationsV2")
              "[attBadSig,att0]" Sim.start)
    as [[[[af2 fb2] err2] w2] tr2] eqn:Hrun2.
  compute_run Hrun. compute_run Hrun2.
  destruct H1 as [H1 _]. destruct H2 as [H2 _].
  rewrite H1, H2 by discriminate.
  split; reflexivity.
Defined.

(** C7, as stated, fails: a valid change is submitted while the head is at
    Bellatrix; the head is at Capella when the goroutine reads it, yet the
    change is not broadcast, then or later. *)
Lemma C7_counterexample_gate_is_not_at_broadcast_time :
  let cfg := Sim.forkTransition in
  let submitted :=
    SubmitBLSToExecutionChanges (Sim.packages cfg) (Sim.server cfg)
      (Sim.request "" "changes") Sim.start in
  let run := Sim.thenGo 5 cfg submitted in
  In (EvInsertBLSToExecChange (Sim.change 0)) (trace_of submitted) /\
  fst (HeadStateReadOnly (Sim.server cfg) Background (world_of submitted))
  = inr version.Capella /\
  ~ (In (eth.MsgBLSChange (Sim.change 0)) (broadcastMsgs (trace_of run)) <->
     version.Capella <= Sim.forkAt cfg (Sim.headReads (world_of submitted))).
Proof.
  cbv zeta. split; [vm_compute; auto|]. split; [reflexivity|].
  intros [_ H]. specialize (H (le_n _)). vm_compute in H. exact H.
Qed.

Lemma C7_fork_gate_at_submission_witness :
  let cfg := Sim.forkTransition in
  broadcastMsgs
    (trace_of (runGo (Sim.packages cfg) (Sim.server cfg) 5
                 (GoBroadcastBLSChanges
                    (StartSpan Sim.requestCtx "beacon.SubmitBLSToExecutionChanges")
                    [])
                 {| Sim.clock := 0; Sim.headReads := 1 |})) = [].
Proof.
  cbv zeta.
  destruct (SubmitBLSToExecutionChanges (Sim.packages Sim.forkTransition)
              (Sim.server Sim.forkTransition) (Sim.request "" "changes") Sim.start)
    as [[g w1] tr] eqn:Hrun.
  compute_run Hrun.
  destruct (C7_fork_gate_at_submission _ _ _ _ Hrun)
    as (_ & st & w0 & ctx & changes & Hst & _ & _ & Hlow & _).
  vm_compute in Hst. inversion Hst; subst.
  apply Hlow. unfold version.Capella. simpl. lia.
Defined.

(** C8 on a node at Deneb whose pools hold an Electra entry: no list is
    written, the answer is a single 500. *)
Lemma C8_v2_lists_hold_one_variant_witness :
  let cfg := Sim.mixedPools in
  let r := Sim.request "" "" in
  ((exists msg,
       trace_of (ListAttestationsV2 (Sim.packages cfg) (Sim.server cfg) r Sim.start)
       = [EvHandleError msg StatusInternalServerError]) \/
   (exists name err,
       strconv_ParseUint (Sim.packages cfg) (Query r name) = inl err /\
       trace_of (ListAttestationsV2 (Sim.packages cfg) (Sim.server cfg) r Sim.start)
       = [EvHandleError (name ++ " is invalid: " ++ err) StatusBadRequest])) /\
  exists msg,
    trace_of (GetAttesterSlashingsV2 (Sim.packages cfg) (Sim.server cfg) r Sim.start)
    = [EvHandleError msg StatusInternalServerError].
Proof.
  cbv zeta.
  destruct (C8_v2_lists_hold_one_variant (Sim.packages Sim.mixedPools)
              (Sim.server Sim.mixedPools) (Sim.request "" "") Sim.start)
    as (_ & _ & H3 & H4).
  split.
  - eapply (H3 _ _ _ _ _ _ (eth.AttElectra Sim.attE0));
      [reflexivity | reflexivity | reflexivity | simpl; auto | reflexivity].
  - eapply (H4 _ _ _ _ (eth.SlashingElectra Sim.slashingE0));
      [reflexivity | reflexivity | simpl; auto | reflexivity].
Defined.

(** C9, as stated, fails: the answer to an empty batch does not carry the
    message "No data submitted". *)
Lemma C9_counterexample_message_in_lower_case :
  let cfg := Sim.emptyBatch in
  let tr := trace_of (SubmitAttestations (Sim.packages cfg) (Sim.server cfg)
                        (Sim.request "" "[]") Sim.start) in
  json_UnmarshalAttestations (Sim.packages cfg) "[]" = inr [] /\
  tr = [EvHandleError "no data submitted" StatusBadRequest] /\
  ~ In (EvHandleError "No data submitted" StatusBadRequest) tr.
Proof.
  cbv zeta. split; [reflexivity|]. split; [reflexivity|].
  vm_compute. intros [H | []]. discriminate.
Qed.

Lemma C9_empty_batch_witness :
  let cfg := Sim.emptyBatch in
  SubmitAttestations (Sim.packages cfg) (Sim.server cfg)
    (Sim.request "" "[]") Sim.start
  = (tt, Sim.start, [EvHandleError "no data submitted" StatusBadRequest]).
Proof.
  cbv zeta.
  apply (@C9_empty_batch _ _ _ _ (Sim.packages Sim.emptyBatch)
           (Sim.server Sim.emptyBatch) (Sim.request "" "[]") Sim.start "[]");
    reflexivity.
Defined.

(** C10 on a node whose broadcaster fails, for the batch of an attestation
    with a bad signature followed by a well-formed one: the 500 names index
    0, the position of the second attestation among the survivors, while
    its index in the batch is 1. *)
Lemma C10_failed_broadcast_index_is_survivor_position_witness :
  let cfg := Sim.deaf [Sim.attBadSig; Sim.att0] in
  let pk := Sim.packages cfg in
  let s := Sim.server cfg in
  let r := Sim.request "" "[attBadSig,att0]" in
  exists af fb tr,
    trace_of (SubmitAttestations pk s r Sim.start)
    = (tr ++ [couldNotBeBroadcasted fb])%list /\
    EvHandleError "Attestations at index 0 could not be broadcasted"
      StatusInternalServerError = couldNotBeBroadcasted fb /\
    reportsPositionsOfSurvivors (Attestation_ToConsensus pk) eth.AttPhase0
      [Sim.attBadSig; Sim.att0] af [Sim.att0] fb tr /\
    nth_error [Sim.attBadSig; Sim.att0] 1 = Some Sim.att0 /\
    positionAmongSurvivors af 1 = 0.
Proof.
  cbv zeta.
  set (cfg := Sim.deaf [Sim.attBadSig; Sim.att0]).
  destruct (C10_failed_broadcast_index_is_survivor_position
              (Sim.packages cfg) (Sim.server cfg)
              (Sim.request "" "[attBadSig,att0]") Sim.start
              "Attestations at index 0 could not be broadcasted") as [H _].
  destruct H as (data & src & af & valid & fb & tr & _ & Hsrc & Hv & Htr & Hmsg & Hrep).
  { vm_compute. auto. }
  inversion Hsrc; subst src. vm_compute in Hv. inversion Hv; subst af valid.
  eexists; exists fb, tr.
  split; [exact Htr|]. split; [exact Hmsg|]. split; [exact Hrep|].
  split; reflexivity.
Defined.

(* ------------------------------------------------------------------ *)
(** ** More about the attestation handlers *)

Section GatewayMoreProofs.

Context {T : Structs} {World BeaconState Validator : Type}.
Variable pk : Packages T BeaconState Validator.
Variable s : Server World BeaconState.
Variable json_MarshalAttestationList :
  list (structs_Attestation T) -> Error + RawMessage.
Variable json_MarshalSlashingList :
  list (structs_AttesterSlashing T) -> Error + RawMessage.

Lemma validateAttestations_accounts (src : list (structs_Attestation T)) :
  forall i af valid,
    validateAttestations pk i src = (af, valid) ->
    List.length af + List.length valid = List.length src /\
    StronglySorted lt (map Index af) /\
    Forall (fun f => i <= Index f) af /\
    Forall (fun f =>
              explainsFailure pk (Attestation_ToConsensus pk) eth.Att_Signature src
                {| Index := Index f - i; Message := Message f |}) af /\
    map (Attestation_ToConsensus pk)
      (filter (passesPhaseA pk (Attestation_ToConsensus pk) eth.Att_Signature) src)
    = map inr valid.
Proof.
  induction src as [|x rest IH]; intros i af valid Hv; cbn [validateAttestations] in Hv.
  - inversion Hv; subst. simpl. repeat split; constructor.
  - destruct (validateAttestations pk (S i) rest) as [af' valid'] eqn:Hrest.
    destruct (IH (S i) af' valid' Hrest) as (Hlen & Hsorted & Hlow & Hexp & Hpass).
    assert (Hlow' : Forall (fun f => i <= Index f) af').
    { eapply Forall_impl; [|exact Hlow]. simpl. intros; lia. }
    assert (Hexp' : Forall (fun f =>
              explainsFailure pk (Attestation_ToConsensus pk) eth.Att_Signature
                (x :: rest) {| Index := Index f - i; Message := Message f |}) af').
    { rewrite Forall_forall in *. intros f Hf.
      destruct (Hexp f Hf) as (sa & Hnth & Hwhy). specialize (Hlow f Hf).
      exists sa. simpl in *. split; [|exact Hwhy].
      replace (Index f - i) with (S (Index f - S i)) by lia. exact Hnth. }
    assert (Hsorted' : forall msg,
              StronglySorted lt (map Index ({| Index := i; Message := msg |} :: af'))).
    { intros msg. simpl. constructor; [assumption|].
      rewrite Forall_map. eapply Forall_impl; [|exact Hlow]. simpl. intros; lia. }
    cbn [filter]. unfold passesPhaseA at 1.
    destruct (Attestation_ToConsensus pk x) as [err|att] eqn:Hconv.
    { inversion Hv; subst. cbn [List.length].
      split; [lia|]. split; [apply Hsorted'|].
      split; [constructor; [simpl; lia | assumption]|].
      split; [|assumption].
      constructor; [|assumption].
      exists x. simpl. rewrite Nat.sub_diag. split; [reflexivity|].
      left. exists err. split; [assumption | reflexivity]. }
    destruct (bls_SignatureFromBytes pk (eth.Att_Signature att)) as [err|] eqn:Hsig.
    { inversion Hv; subst. cbn [List.length].
      split; [lia|]. split; [apply Hsorted'|].
      split; [constructor; [simpl; lia | assumption]|].
      split; [|assumption].
      constructor; [|assumption].
      exists x. simpl. rewrite Nat.sub_diag. split; [reflexivity|].
      right. exists att, err. repeat split; assumption. }
    inversion Hv; subst. cbn [List.length map].
    split; [lia|]. split; [assumption|]. split; [assumption|].
    split; [assumption|].
    rewrite Hconv, Hpass. reflexivity.
Qed.

Lemma validateAttestationsElectra_accounts (src : list (structs_AttestationElectra T)) :
  forall i af valid,
    validateAttestationsElectra pk i src = (af, valid) ->
    List.length af + List.length valid = List.length src /\
    StronglySorted lt (map Index af) /\
    Forall (fun f => i <= Index f) af /\
    Forall (fun f =>
              explainsFailure pk (AttestationElectra_ToConsensus pk) eth.AttE_Signature src
                {| Index := Index f - i; Message := Message f |}) af /\
    map (AttestationElectra_ToConsensus pk)
      (filter (passesPhaseA pk (AttestationElectra_ToConsensus pk) eth.AttE_Signature) src)
    = map inr valid.
Proof.
  induction src as [|x rest IH]; intros i af valid Hv; cbn [validateAttestationsElectra] in Hv.
  - inversion Hv; subst. simpl. repeat split; constructor.
  - destruct (validateAttestationsElectra pk (S i) rest) as [af' valid'] eqn:Hrest.
    destruct (IH (S i) af' valid' Hrest) as (Hlen & Hsorted & Hlow & Hexp & Hpass).
    assert (Hlow' : Forall (fun f => i <= Index f) af').
    { eapply Forall_impl; [|exact Hlow]. simpl. intros; lia. }
    assert (Hexp' : Forall (fun f =>
              explainsFailure pk (AttestationElectra_ToConsensus pk) eth.AttE_Signature
                (x :: rest) {| Index := Index f - i; Message := Message f |}) af').
    { rewrite Forall_forall in *. intros f Hf.
      destruct (Hexp f Hf) as (sa & Hnth & Hwhy). specialize (Hlow f Hf).
      exists sa. simpl in *. split; [|exact Hwhy].
      replace (Index f - i) with (S (Index f - S i)) by lia. exact Hnth. }
    assert (Hsorted' : forall msg,
              StronglySorted lt (map Index ({| Index := i; Message := msg |} :: af'))).
    { intros msg. simpl. constructor; [assumption|].
      rewrite Forall_map. eapply Forall_impl; [|exact Hlow]. simpl. intros; lia. }
    cbn [filter]. unfold passesPhaseA at 1.
    destruct (AttestationElectra_ToConsensus pk x) as [err|att] eqn:Hconv.
    { inversion Hv; subst. cbn [List.length].
      split; [lia|]. split; [apply Hsorted'|].
      split; [constructor; [simpl; lia | assumption]|].
      split; [|assumption].
      constructor; [|assumption].
      exists x. simpl. rewrite Nat.sub_diag. split; [reflexivity|].
      left. exists err. split; [assumption | reflexivity]. }
    destruct (bls_SignatureFromBytes pk (eth.AttE_Signature att)) as [err|] eqn:Hsig.
    { inversion Hv; subst. cbn [List.length].
      split; [lia|]. split; [apply Hsorted'|].
      split; [constructor; [simpl; lia | assumption]|].
      split; [|assumption].
      constructor; [|assumption].
      exists x. simpl. rewrite Nat.sub_diag. split; [reflexivity|].
      right. exists att, err. repeat split; assumption. }
    inversion Hv; subst. cbn [List.length map].
    split; [lia|]. split; [assumption|]. split; [assumption|].
    split; [assumption|].
    rewrite Hconv, Hpass. reflexivity.
Qed.

Lemma explainsFailure_eta {W A : Type} (conv : W -> Error + A)
  (sig : A -> list byte) (src : list W) (af : list IndexedVerificationFailure) :
  Forall (fun f => explainsFailure pk conv sig src
                     {| Index := Index f - 0; Message := Message f |}) af ->
  Forall (explainsFailure pk conv sig src) af.
Proof.
  intros H. eapply Forall_impl; [|exact H].
  intros [i m]. simpl. rewrite Nat.sub_0_r. trivial.
Qed.

(** X1: the first loop of [handleAttestations] and of
    [handleAttestationsElectra] sorts every item of the batch into exactly
    one of its two lists.  The failures carry increasing indices, each is
    the index of an item of the batch whose conversion or whose signature
    gave the error of the message, and the valid attestations are the
    conversions of the items that pass both checks, in the order of the
    batch. *)
Theorem phaseA_sorts_every_item (src : list (structs_Attestation T))
  (srcE : list (structs_AttestationElectra T)) :
  (let af := fst (validateAttestations pk 0 src) in
   let valid := snd (validateAttestations pk 0 src) in
   List.length af + List.length valid = List.length src /\
   StronglySorted lt (map Index af) /\
   Forall (explainsFailure pk (Attestation_ToConsensus pk) eth.Att_Signature src) af /\
   map (Attestation_ToConsensus pk)
     (filter (passesPhaseA pk (Attestation_ToConsensus pk) eth.Att_Signature) src)
   = map inr valid) /\
  (let af := fst (validateAttestationsElectra pk 0 srcE) in
   let valid := snd (validateAttestationsElectra pk 0 srcE) in
   List.length af + List.length valid = List.length srcE /\
   StronglySorted lt (map Index af) /\
   Forall (explainsFailure pk (AttestationElectra_ToConsensus pk) eth.AttE_Signature
             srcE) af /\
   map (AttestationElectra_ToConsensus pk)
     (filter (passesPhaseA pk (AttestationElectra_ToConsensus pk) eth.AttE_Signature)
        srcE)
   = map inr valid).
Proof.
  split.
  - destruct (validateAttestations pk 0 src) as [af valid] eqn:Hv. simpl.
    destruct (validateAttestations_accounts _ _ Hv) as (Hlen & Hs & _ & Hexp & Hpass).
    auto using explainsFailure_eta.
  - destruct (validateAttestationsElectra pk 0 srcE) as [af valid] eqn:Hv. simpl.
    destruct (validateAttestationsElectra_accounts _ _ Hv)
      as (Hlen & Hs & _ & Hexp & Hpass).
    auto using explainsFailure_eta.
Qed.

Lemma validateAttestations_none_failed (src : list (structs_Attestation T)) :
  forall i,
    fst (validateAttestations pk i src) = [] ->
    map (Attestation_ToConsensus pk) src
    = map inr (snd (validateAttestations pk i src)).
Proof.
  induction src as [|x rest IH]; intros i H; [reflexivity|].
  cbn [validateAttestations] in *.
  destruct (validateAttestations pk (S i) rest) as [af valid] eqn:Hrest.
  specialize (IH (S i)). rewrite Hrest in IH.
  destruct (Attestation_ToConsensus pk x) as [err|att] eqn:Hconv;
    [discriminate H|].
  destruct (bls_SignatureFromBytes pk (eth.Att_Signature att)); [discriminate H|].
  simpl in *. rewrite Hconv, (IH H). reflexivity.
Qed.

Lemma validateAttestationsElectra_none_failed
  (src : list (structs_AttestationElectra T)) :
  forall i,
    fst (validateAttestationsElectra pk i src) = [] ->
    map (AttestationElectra_ToConsensus pk) src
    = map inr (snd (validateAttestationsElectra pk i src)).
Proof.
  induction src as [|x rest IH]; intros i H; [reflexivity|].
  cbn [validateAttestationsElectra] in *.
  destruct (validateAttestationsElectra pk (S i) rest) as [af valid] eqn:Hrest.
  specialize (IH (S i)). rewrite Hrest in IH.
  destruct (AttestationElectra_ToConsensus pk x) as [err|att] eqn:Hconv;
    [discriminate H|].
  destruct (bls_SignatureFromBytes pk (eth.AttE_Signature att)); [discriminate H|].
  simpl in *. rewrite Hconv, (IH H). reflexivity.
Qed.

(** A second loop that lists no failed broadcast has broadcast and saved
    every attestation it was given, in order. *)
Lemma phaseB_all_saved i atts tr :
  phaseB i atts (inr []) tr ->
  savedAtts tr = atts /\ broadcastAtts true tr = atts.
Proof.
  intros H. remember (inr []) as r eqn:Hr. revert Hr.
  induction H as [i | i a rest r tr H IH | i a rest r tr subnet err H IH
                 | i a rest r tr subnet err H IH | i a rest e];
    intros Hr.
  - split; reflexivity.
  - destruct r; discriminate Hr.
  - destruct r; discriminate Hr.
  - destruct (IH Hr) as (Hs & Hb).
    destruct (notifyEvents_quiet a) as (Hns & Hnb & _).
    rewrite savedAtts_app, broadcastAtts_app, Hns, Hnb.
    rewrite savedAtts_broadcast, broadcastAtts_ok, savedAtts_saveEvent,
      broadcastAtts_saveEvent.
    cbn [app]. split; congruence.
  - discriminate Hr.
Qed.

Lemma respondTrace_response af fb :
  response (respondTrace af fb) = respondTrace af fb.
Proof. destruct fb; [destruct af|]; reflexivity. Qed.

Lemma respondTrace_nil af fb : respondTrace af fb = [] -> af = [] /\ fb = [].
Proof. destruct fb; [destruct af|]; simpl; intros H; try discriminate H; auto. Qed.

(** X2: when [handleAttestations] or [handleAttestationsElectra] returns
    without an error, every item of the submitted batch is accounted for
    once: it is among the validation failures, or among the failed
    broadcasts, or it was handed to the pool.  When [handleAttestations]
    returns an error it has done nothing; when the Electra function does, it
    returns neither list. *)
Theorem handleAttestations_drops_nothing (ctx : Context) (data : RawMessage)
  (w : World) :
  (let '(af, fb, err, w1, tr) := handleAttestations pk s ctx data w in
   match err with
   | Some _ => af = [] /\ fb = [] /\ w1 = w /\ tr = []
   | None =>
       exists src,
         json_UnmarshalAttestations pk data = inr src /\
         List.length af + List.length fb + List.length (savedAtts tr)
         = List.length src
   end) /\
  (let '(af, fb, err, w1, tr) := handleAttestationsElectra pk s ctx data w in
   match err with
   | Some _ => af = [] /\ fb = []
   | None =>
       exists src,
         json_UnmarshalAttestationsElectra pk data = inr src /\
         List.length af + List.length fb + List.length (savedAtts tr)
         = List.length src
   end).
Proof.
  split.
  - destruct (handleAttestations pk s ctx data w) as [[[[af fb] [e|]] w1] tr] eqn:H.
    + apply handleAttestations_err in H. exact H.
    + apply handleAttestations_ok in H. destruct H as (src & Hsrc & _ & Haf & HB).
      exists src. split; [assumption|].
      destruct (validateAttestations pk 0 src) as [af' valid] eqn:Hv.
      simpl in Haf, HB. subst af'.
      destruct (validateAttestations_accounts _ _ Hv) as (Hlen & _).
      destruct (phaseB_indices HB) as (ks & -> & _ & _ & Hcount).
      rewrite (phaseB_saved HB). rewrite !length_map in *. lia.
  - destruct (handleAttestationsElectra pk s ctx data w)
      as [[[[af fb] [e|]] w1] tr] eqn:H.
    + clear - H. unfold handleAttestationsElectra in H.
      destruct (json_UnmarshalAttestationsElectra pk data) as [e'|src];
        [inversion H; auto|].
      destruct (Nat.eqb (List.length src) 0); [inversion H; auto|].
      destruct (validateAttestationsElectra pk 0 src) as [af' valid].
      unfold bind, ret in H.
      destruct (broadcastAttestationsElectra pk s ctx 0 valid w) as [[r w2] tr'].
      destruct r; inversion H; auto.
    + apply handleAttestationsElectra_ok in H.
      destruct H as (src & Hsrc & _ & Haf & HB).
      exists src. split; [assumption|].
      destruct (validateAttestationsElectra pk 0 src) as [af' valid] eqn:Hv.
      simpl in Haf, HB. subst af'.
      destruct (validateAttestationsElectra_accounts _ _ Hv) as (Hlen & _).
      destruct (phaseB_indices HB) as (ks & -> & _ & _ & Hcount).
      rewrite (phaseB_saved HB). rewrite !length_map in *. lia.
Qed.

(** X3: when [SubmitAttestations] writes nothing to the response (the
    client reads a 200 with an empty body), the body held a non-empty list
    of attestations, every one of them was converted, and all of them were
    broadcast and handed to the pool, in the order of the batch. *)
Theorem SubmitAttestations_silent_means_all_saved (r : Request) (w : World)
  (Hok : response (trace_of (SubmitAttestations pk s r w)) = []) :
  exists data src valid,
    json_DecodeRaw pk (Body r) = DecodeOk data /\
    json_UnmarshalAttestations pk data = inr src /\
    src <> [] /\
    map (Attestation_ToConsensus pk) src = map inr valid /\
    broadcastAtts true (trace_of (SubmitAttestations pk s r w))
    = map eth.AttPhase0 valid /\
    savedAtts (trace_of (SubmitAttestations pk s r w)) = map eth.AttPhase0 valid.
Proof.
  destruct (json_DecodeRaw pk (Body r)) as [| e | data] eqn:Hdec;
    try (unfold SubmitAttestations in Hok; rewrite Hdec in Hok; discriminate Hok).
  destruct (handleAttestations pk s (StartSpan (Ctx r) "beacon.SubmitAttestations")
              data w) as [[[[af fb] err] w1] tr] eqn:Hrun.
  rewrite (SubmitAttestations_run pk s r w Hdec Hrun) in *.
  unfold trace_of in *. cbn [snd] in *.
  rewrite response_app in Hok. apply app_eq_nil in Hok. destruct Hok as (_ & Hresp).
  destruct err as [e|]; [discriminate Hresp|].
  rewrite respondTrace_response in Hresp.
  apply respondTrace_nil in Hresp. destruct Hresp as (-> & ->).
  apply handleAttestations_ok in Hrun. destruct Hrun as (src & Hsrc & Hne & Haf & HB).
  apply phaseB_all_saved in HB. destruct HB as (Hs & Hb).
  exists data, src, (snd (validateAttestations pk 0 src)).
  rewrite savedAtts_app, broadcastAtts_app, Hs, Hb. simpl.
  rewrite !List.app_nil_r.
  repeat split; try assumption.
  apply validateAttestations_none_failed. symmetry. assumption.
Qed.

(** X4: the same for [SubmitAttestationsV2]: silence means that the version
    header named a fork, and that every item of the batch, read as the
    attestation type of that fork, was converted, broadcast and handed to
    the pool, in order. *)
Theorem SubmitAttestationsV2_silent_means_all_saved (r : Request) (w : World)
  (Hok : response (trace_of (SubmitAttestationsV2 pk s r w)) = []) :
  exists v data,
    version_FromString pk (Header r VersionHeader) = inr v /\
    json_DecodeRaw pk (Body r) = DecodeOk data /\
    exists atts,
      savedAtts (trace_of (SubmitAttestationsV2 pk s r w)) = atts /\
      broadcastAtts true (trace_of (SubmitAttestationsV2 pk s r w)) = atts /\
      if Nat.leb version.Electra v
      then exists src valid,
          json_UnmarshalAttestationsElectra pk data = inr src /\ src <> [] /\
          map (AttestationElectra_ToConsensus pk) src = map inr valid /\
          atts = map eth.AttElectra valid
      else exists src valid,
          json_UnmarshalAttestations pk data = inr src /\ src <> [] /\
          map (Attestation_ToConsensus pk) src = map inr valid /\
          atts = map eth.AttPhase0 valid.
Proof.
  destruct (String.eqb (Header r VersionHeader) "") eqn:Hhdr;
    [unfold SubmitAttestationsV2 in Hok; rewrite Hhdr in Hok; discriminate Hok|].
  destruct (version_FromString pk (Header r VersionHeader)) as [e|v] eqn:Hver;
    [unfold SubmitAttestationsV2 in Hok; rewrite Hhdr, Hver in Hok;
     discriminate Hok|].
  destruct (json_DecodeRaw pk (Body r)) as [| e | data] eqn:Hdec;
    try (unfold SubmitAttestationsV2 in Hok; rewrite Hhdr, Hver, Hdec in Hok;
         discriminate Hok).
  destruct (handleAttestationsV2 pk s v
              (StartSpan (Ctx r) "beacon.SubmitAttestationsV2") data w)
    as [[[[af fb] err] w1] tr] eqn:Hrun.
  apply String.eqb_neq in Hhdr.
  rewrite (SubmitAttestationsV2_run pk s r w Hhdr Hver Hdec Hrun) in *.
  unfold trace_of in *. cbn [snd] in *.
  rewrite response_app in Hok. apply app_eq_nil in Hok. destruct Hok as (_ & Hresp).
  destruct err as [e|]; [discriminate Hresp|].
  rewrite respondTrace_response in Hresp.
  apply respondTrace_nil in Hresp. destruct Hresp as (-> & ->).
  exists v, data. split; [reflexivity|]. split; [reflexivity|].
  unfold handleAttestationsV2 in Hrun.
  rewrite savedAtts_app, broadcastAtts_app.
  cbn [respondTrace savedAtts broadcastAtts]. rewrite !List.app_nil_r.
  destruct (Nat.leb version.Electra v).
  - apply handleAttestationsElectra_ok in Hrun.
    destruct Hrun as (src & Hsrc & Hne & Haf & HB).
    apply phaseB_all_saved in HB. destruct HB as (Hs & Hb).
    eexists. split; [exact Hs|]. split; [exact Hb|].
    exists src, (snd (validateAttestationsElectra pk 0 src)).
    repeat split; try assumption.
    apply validateAttestationsElectra_none_failed. symmetry. assumption.
  - apply handleAttestations_ok in Hrun.
    destruct Hrun as (src & Hsrc & Hne & Haf & HB).
    apply phaseB_all_saved in HB. destruct HB as (Hs & Hb).
    eexists. split; [exact Hs|]. split; [exact Hb|].
    exists src, (snd (validateAttestations pk 0 src)).
    repeat split; try assumption.
    apply validateAttestations_none_failed. symmetry. assumption.
Qed.

(* ---------------------------------------------------------------- *)
(** ** Who is told of an attestation *)

Lemma notifiedAtts_app (tr1 tr2 : list Event) :
  notifiedAtts (tr1 ++ tr2) = (notifiedAtts tr1 ++ notifiedAtts tr2)%list.
Proof.
  induction tr1 as [|e tr1 IH]; [reflexivity|].
  destruct e; try match goal with ev : FeedEvent |- _ => destruct ev end;
    simpl; rewrite ?IH; reflexivity.
Qed.

Lemma phaseB_notified i atts r tr :
  phaseB i atts r tr ->
  forallb savedByKind tr = true /\
  (forall fb, r = inr fb ->
              notifiedAtts tr = filter (fun a => negb (IsAggregated a)) atts).
Proof.
  induction 1 as [i | i a rest r tr H [IHs IHn] | i a rest r tr subnet err H [IHs IHn]
                 | i a rest r tr subnet err H [IHs IHn] | i a rest e].
  - split; [reflexivity | intros; reflexivity].
  - split.
    + rewrite forallb_app, IHs. unfold notifyEvents.
      destruct (IsAggregated a); reflexivity.
    + intros fb Hr. destruct r as [e|fb']; [discriminate Hr|].
      rewrite notifiedAtts_app, (IHn fb' eq_refl). unfold notifyEvents.
      cbn [filter]. destruct (IsAggregated a); reflexivity.
  - split.
    + rewrite forallb_app. cbn [forallb savedByKind]. rewrite IHs.
      unfold notifyEvents. destruct (IsAggregated a); reflexivity.
    + intros fb Hr. destruct r as [e|fb']; [discriminate Hr|].
      rewrite notifiedAtts_app. cbn [notifiedAtts]. rewrite (IHn fb' eq_refl).
      unfold notifyEvents. cbn [filter]. destruct (IsAggregated a); reflexivity.
  - split.
    + rewrite forallb_app. cbn [forallb savedByKind]. rewrite IHs.
      unfold notifyEvents, saveEvent.
      destruct (IsAggregated a) eqn:Ha; cbn [forallb savedByKind andb negb];
        rewrite Ha; reflexivity.
    + intros fb Hr. rewrite notifiedAtts_app. unfold saveEvent.
      assert (Hn : notifiedAtts
                     (EvBroadcastAttestation subnet a None
                      :: (if IsAggregated a
                          then EvSaveAggregatedAttestation a err
                          else EvSaveUnaggregatedAttestation a err) :: tr)
                   = notifiedAtts tr)
        by (destruct (IsAggregated a); reflexivity).
      rewrite Hn, (IHn fb Hr). unfold notifyEvents. cbn [filter].
      destruct (IsAggregated a); reflexivity.
  - split; [|intros fb Hr; discriminate Hr].
    unfold notifyEvents. destruct (IsAggregated a); reflexivity.
Qed.

(** X18: when [handleAttestations] or [handleAttestationsElectra] returns
    without an error, the operation feed was told of exactly the
    unaggregated attestations among the valid ones, in order, whether or
    not their broadcast succeeded; an aggregated attestation is never
    announced.  In every run, a pool save goes through the method for
    aggregated attestations exactly when the attestation is aggregated. *)
Theorem handleAttestations_notifies_the_unaggregated (ctx : Context)
  (data : RawMessage) (w : World) :
  (let '(_, _, err, _, tr) := handleAttestations pk s ctx data w in
   forallb savedByKind tr = true /\
   match err, json_UnmarshalAttestations pk data with
   | None, inr src =>
       notifiedAtts tr
       = filter (fun a => negb (IsAggregated a))
           (map eth.AttPhase0 (snd (validateAttestations pk 0 src)))
   | None, inl _ => False
   | Some _, _ => notifiedAtts tr = []
   end) /\
  (let '(_, _, err, _, tr) := handleAttestationsElectra pk s ctx data w in
   forallb savedByKind tr = true /\
   match err, json_UnmarshalAttestationsElectra pk data with
   | None, inr src =>
       notifiedAtts tr
       = filter (fun a => negb (IsAggregated a))
           (map eth.AttElectra (snd (validateAttestationsElectra pk 0 src)))
   | None, inl _ => False
   | Some _, _ => True
   end).
Proof.
  split.
  - pose proof (handleAttestations_phaseB pk s ctx data w) as (atts & r & HB).
    destruct (handleAttestations pk s ctx data w) as [[[[af fb] [e|]] w1] tr] eqn:H.
    + apply handleAttestations_err in H. destruct H as (_ & _ & _ & ->).
      split; reflexivity.
    + unfold trace_of in HB. cbn [snd] in HB.
      split; [apply (phaseB_notified HB)|].
      apply handleAttestations_ok in H. destruct H as (src & -> & _ & _ & HB').
      destruct (phaseB_notified HB') as (_ & Hn). apply (Hn fb eq_refl).
  - pose proof (handleAttestationsElectra_phaseB pk s ctx data w) as (atts & r & HB).
    destruct (handleAttestationsElectra pk s ctx data w)
      as [[[[af fb] [e|]] w1] tr] eqn:H.
    + unfold trace_of in HB. cbn [snd] in HB.
      split; [apply (phaseB_notified HB) | exact I].
    + unfold trace_of in HB. cbn [snd] in HB.
      split; [apply (phaseB_notified HB)|].
      apply handleAttestationsElectra_ok in H.
      destruct H as (src & -> & _ & _ & HB').
      destruct (phaseB_notified HB') as (_ & Hn). apply (Hn fb eq_refl).
Qed.

(* ---------------------------------------------------------------- *)
(** ** One answer, and nothing after it *)





Lemma validateBLSChanges_exact st (req : list (structs_SignedBLSToExecutionChange T)) :
  forall i (w : World) failures toBroadcast w1 tr,
    validateBLSChanges pk s st i req w = (failures, toBroadcast, w1, tr) ->
    insertedChanges tr = acceptedChanges pk st req /\
    toBroadcast = (if Nat.leb version.Capella (Version pk st)
                   then map Some (acceptedChanges pk st req) else []) /\
    List.length failures + List.length (acceptedChanges pk st req) = List.length req /\
    response tr = [].
Proof.
  remember (Nat.leb version.Capella (Version pk st)) as cap eqn:Hcap.
  induction req as [|change rest IH]; intros i w failures toBroadcast w1 tr H;
    cbn [validateBLSChanges acceptedChanges] in *.
  - inversion H; subst. destruct (Nat.leb version.Capella (Version pk st)); auto.
  - destruct (SignedBLSToExecutionChange_ToConsensus pk change) as [e|sbls].
    { unfold bind, ret in H.
      destruct (validateBLSChanges pk s st (S i) rest w) as [[[f tb] w2] tr2] eqn:E.
      destruct (IH _ _ _ _ _ _ E) as (Hi & Ht & Hl & Hq).
      inversion H; subst. rewrite List.app_nil_r. cbn [fst snd List.length].
      split; [assumption|]. split; [reflexivity|]. split; [lia | assumption]. }
    destruct (ValidateBLSToExecutionChange pk st sbls).
    { unfold bind, ret in H.
      destruct (validateBLSChanges pk s st (S i) rest w) as [[[f tb] w2] tr2] eqn:E.
      destruct (IH _ _ _ _ _ _ E) as (Hi & Ht & Hl & Hq).
      inversion H; subst. rewrite List.app_nil_r. cbn [fst snd List.length].
      split; [assumption|]. split; [reflexivity|]. split; [lia | assumption]. }
    destruct (VerifyBLSChangeSignature pk st sbls).
    { unfold bind, ret in H.
      destruct (validateBLSChanges pk s st (S i) rest w) as [[[f tb] w2] tr2] eqn:E.
      destruct (IH _ _ _ _ _ _ E) as (Hi & Ht & Hl & Hq).
      inversion H; subst. rewrite List.app_nil_r. cbn [fst snd List.length].
      split; [assumption|]. split; [reflexivity|]. split; [lia | assumption]. }
    unfold bind, ret, FeedSend, doInsertBLSToExecChange in H.
    match type of H with
    | context [validateBLSChanges pk s st (S i) rest ?w1] =>
        destruct (validateBLSChanges pk s st (S i) rest w1) as [[[f tb] w2] tr2] eqn:E
    end.
    destruct (IH _ _ _ _ _ _ E) as (Hi & Ht & Hl & Hq).
    rewrite <- Hcap in H. clear Hcap.
    inversion H; subst. rewrite List.app_nil_r. cbn [fst snd List.length app].
    cbn [insertedChanges]. unfold response in *. cbn [filter isResponse].
    rewrite Hi.
    split; [reflexivity|]. split; [destruct cap; reflexivity|].
    split; [lia | assumption].
Qed.


(* ---------------------------------------------------------------- *)
(** ** Exits and slashings: verified before they reach the pool *)

(** X6: [SubmitVoluntaryExit] either answers with one error and does
    nothing else, or it has decoded and converted the exit and verified it
    against the head state advanced to the exit's epoch; then it gives the
    exit to the pool and broadcasts it, in this order.  A failed broadcast
    is answered with a 500, and the exit stays in the pool. *)
Theorem SubmitVoluntaryExit_inserts_verified_exits (r : Request) (w : World) :
  let tr := trace_of (SubmitVoluntaryExit pk s r w) in
  (exists msg code,
      tr = [EvHandleError msg code] /\
      (code = StatusBadRequest \/ code = StatusInternalServerError)) \/
  (exists exit,
      exitVerified pk s r w exit /\
      (tr = [EvInsertVoluntaryExit exit; EvBroadcast (eth.MsgVoluntaryExit exit) None] \/
       exists err,
         tr = [EvInsertVoluntaryExit exit;
               EvBroadcast (eth.MsgVoluntaryExit exit) (Some err);
               EvHandleError ("Could not broadcast exit: " ++ err)
                 StatusInternalServerError])).
Proof.
  unfold SubmitVoluntaryExit, exitVerified, trace_of. unfold_m.
  destruct (json_DecodeExit pk (Body r)) as [|e|req] eqn:Hdec; one_error.
  destruct (SignedVoluntaryExit_ToConsensus pk req) as [e|exit] eqn:Hconv; one_error.
  destruct (HeadState s (StartSpan (Ctx r) "beacon.SubmitVoluntaryExit") w)
    as [[e|headState] w1] eqn:Hhead; one_error.
  destruct (slots_EpochStart pk (eth.Exit_Epoch (eth.SignedExit_Exit exit)))
    as [e|epochStart] eqn:Hepoch; one_error.
  destruct (ProcessSlotsIfPossible pk _ headState epochStart)
    as [e|advanced] eqn:Hadv; one_error.
  destruct (ValidatorAtIndexReadOnly pk advanced
              (eth.Exit_ValidatorIndex (eth.SignedExit_Exit exit)))
    as [[e|e]|val] eqn:Hval; one_error.
  destruct (VerifyExitAndSignature pk val advanced exit) as [e|] eqn:Hver; one_error.
  right. exists exit. split.
  { exists req, headState, w1, epochStart, advanced, val. repeat split; assumption. }
  destruct (Broadcast s _ (eth.MsgVoluntaryExit exit) _) as [[err|] w2]; cbn [snd app].
  - right. exists err. reflexivity.
  - left. reflexivity.
Qed.

(** X7: [submitAttesterSlashing], the body of both attester slashing
    handlers, either answers with one error and does nothing else, or it
    has verified the slashing against the head state advanced to the slot
    of the slashing's first attestation.  It then inserts the slashing in
    the pool; if the pool refuses it, a 500 is the only other event: no
    notification, no broadcast.  Otherwise the notification follows, and
    the broadcast unless [DisableBroadcastSlashings] is set; a failed
    broadcast is answered with a 500 and the slashing stays in the pool. *)
Theorem submitAttesterSlashing_inserts_verified_slashings (ctx : Context)
  (slashing : eth.AttSlashing) (w : World) :
  let tr := trace_of (submitAttesterSlashing pk s ctx slashing w) in
  (exists msg code,
      tr = [EvHandleError msg code] /\
      (code = StatusBadRequest \/ code = StatusInternalServerError)) \/
  (slashingVerified pk s ctx w slashing /\
   ((exists err,
        tr = [EvInsertAttesterSlashing slashing (Some err);
              EvHandleError ("Could not insert attester slashing into pool: " ++ err)
                StatusInternalServerError]) \/
    (exists rest,
        tr = EvInsertAttesterSlashing slashing None
             :: EvFeedSend (AttesterSlashingReceived slashing) :: rest /\
        if DisableBroadcastSlashings pk then rest = []
        else rest = [EvBroadcast (eth.MsgAttSlashing slashing) None] \/
             exists err,
               rest = [EvBroadcast (eth.MsgAttSlashing slashing) (Some err);
                       EvHandleError ("Could not broadcast slashing object: " ++ err)
                         StatusInternalServerError]))).
Proof.
  unfold submitAttesterSlashing, slashingVerified, trace_of. unfold_m.
  destruct (HeadState s ctx w) as [[e|headState] w1] eqn:Hhead; one_error.
  destruct (ProcessSlotsIfPossible pk ctx headState _) as [e|advanced] eqn:Hadv;
    one_error.
  destruct (VerifyAttesterSlashing pk ctx advanced slashing) as [e|] eqn:Hver;
    one_error.
  right. split.
  { exists headState, w1, advanced. repeat split; assumption. }
  destruct (InsertAttesterSlashing s ctx advanced slashing w1) as [[err|] w2];
    cbn [snd app].
  { left. exists err. reflexivity. }
  right. destruct (DisableBroadcastSlashings pk); cbn [negb snd app].
  - exists []. split; reflexivity.
  - destruct (Broadcast s ctx (eth.MsgAttSlashing slashing) _) as [[err|] w3];
      cbn [snd app]; eexists; (split; [reflexivity|]).
    + right. exists err. reflexivity.
    + left. reflexivity.
Qed.

(** X8: the same for [SubmitProposerSlashing]: one error answer and
    nothing else, or a slashing that was decoded, converted and verified
    against the head state advanced to the slot of its first header, then
    the pool insert, the notification and the broadcast, with the same two
    ways to stop. *)
Theorem SubmitProposerSlashing_inserts_verified_slashings (r : Request) (w : World) :
  let tr := trace_of (SubmitProposerSlashing pk s r w) in
  (exists msg code,
      tr = [EvHandleError msg code] /\
      (code = StatusBadRequest \/ code = StatusInternalServerError)) \/
  (exists slashing,
      proposerSlashingVerified pk s r w slashing /\
      ((exists err,
           tr = [EvInsertProposerSlashing slashing (Some err);
                 EvHandleError ("Could not insert proposer slashing into pool: " ++ err)
                   StatusInternalServerError]) \/
       (exists rest,
           tr = EvInsertProposerSlashing slashing None
                :: EvFeedSend (ProposerSlashingReceived slashing) :: rest /\
           if DisableBroadcastSlashings pk then rest = []
           else rest = [EvBroadcast (eth.MsgProposerSlashing slashing) None] \/
                exists err,
                  rest = [EvBroadcast (eth.MsgProposerSlashing slashing) (Some err);
                          EvHandleError ("Could not broadcast slashing object: " ++ err)
                            StatusInternalServerError]))).
Proof.
  unfold SubmitProposerSlashing, proposerSlashingVerified, trace_of. unfold_m.
  destruct (json_DecodeProposerSlashing pk (Body r)) as [|e|req] eqn:Hdec; one_error.
  destruct (ProposerSlashing_ToConsensus pk req) as [e|slashing] eqn:Hconv; one_error.
  destruct (HeadState s (StartSpan (Ctx r) "beacon.SubmitProposerSlashing") w)
    as [[e|headState] w1] eqn:Hhead; one_error.
  destruct (ProcessSlotsIfPossible pk _ headState _) as [e|advanced] eqn:Hadv;
    one_error.
  destruct (VerifyProposerSlashing pk advanced slashing) as [e|] eqn:Hver; one_error.
  right. exists slashing. split.
  { exists req, headState, w1, advanced. repeat split; assumption. }
  destruct (InsertProposerSlashing s _ advanced slashing w1) as [[err|] w2];
    cbn [snd app].
  { left. exists err. reflexivity. }
  right. destruct (DisableBroadcastSlashings pk); cbn [negb snd app].
  - exists []. split; reflexivity.
  - destruct (Broadcast s _ (eth.MsgProposerSlashing slashing) _) as [[err|] w3];
      cbn [snd app]; eexists; (split; [reflexivity|]).
    + right. exists err. reflexivity.
    + left. reflexivity.
Qed.

(* ---------------------------------------------------------------- *)
(** ** BLS to execution changes: the submission *)

(** X9: [SubmitBLSToExecutionChanges] starts no goroutine exactly when it
    answers with one error and does nothing else.  Otherwise the pool is
    given exactly the changes of the request that pass the conversion and
    both validations against the head state read at the start, once each
    and in the order of the request; the goroutine is given the same
    changes (none below Capella); every other item of the request is
    reported as a failure, and the only answer is the 400 that lists the
    failures, if there is one. *)
Theorem SubmitBLSToExecutionChanges_accounts (r : Request) (w : World) :
  let ctx := StartSpan (Ctx r) "beacon.SubmitBLSToExecutionChanges" in
  let run := SubmitBLSToExecutionChanges pk s r w in
  match result_of run with
  | None =>
      exists msg code,
        trace_of run = [EvHandleError msg code] /\
        (code = StatusBadRequest \/ code = StatusInternalServerError)
  | Some g =>
      exists st w0 req failures,
        HeadStateReadOnly s ctx w = (inr st, w0) /\
        json_DecodeBLSChanges pk (Body r) = DecodeOk req /\
        req <> [] /\
        insertedChanges (trace_of run) = acceptedChanges pk st req /\
        g = GoBroadcastBLSChanges ctx
              (if Nat.leb version.Capella (Version pk st)
               then map Some (acceptedChanges pk st req) else []) /\
        List.length failures + List.length (acceptedChanges pk st req)
        = List.length req /\
        response (trace_of run)
        = match failures with
          | [] => []
          | _ :: _ =>
              [EvWriteError
                 {| Code := StatusBadRequest;
                    ErrMessage := "One or more BLSToExecutionChange failed validation";
                    Failures := failures |}]
          end
  end.
Proof.
  intros ctx run. subst run ctx.
  destruct (SubmitBLSToExecutionChanges pk s r w) as [[res w1] tr] eqn:Hrun.
  unfold result_of, trace_of. cbn [fst snd]. revert Hrun.
  unfold SubmitBLSToExecutionChanges. unfold bind at 1, call at 1.
  destruct (HeadStateReadOnly s _ w) as [[e|st] w0] eqn:Hhead.
  { intros H; inversion H; subst. eexists; eexists; split; [reflexivity | auto]. }
  destruct (json_DecodeBLSChanges pk (Body r)) as [|e|req] eqn:Hdec;
    try (intros H; inversion H; subst;
         eexists; eexists; split; [reflexivity | auto]; fail).
  destruct req as [|x req];
    [intros H; inversion H; subst; eexists; eexists; split; [reflexivity | auto]|].
  cbn [List.length Nat.eqb]. unfold bind at 1.
  destruct (validateBLSChanges pk s st 0 (x :: req) w0)
    as [[[failures toBroadcast] w2] tr2] eqn:E.
  apply validateBLSChanges_exact in E. destruct E as (Hi & Ht & Hl & Hq).
  assert (Hins : forall tr, insertedChanges (tr2 ++ tr) =
                            (insertedChanges tr2 ++ insertedChanges tr)%list).
  { clear. intros tr. induction tr2 as [|e tr2 IH]; [reflexivity|].
    destruct e; simpl; rewrite ?IH; reflexivity. }
  destruct failures as [|f failures]; cbn [List.length Nat.ltb Nat.leb];
    unfold_m; cbn [fst snd app]; intros H; inversion H; subst; clear H;
    exists st, w0, (x :: req); eexists;
    (split; [reflexivity|]); (split; [reflexivity|]); (split; [discriminate|]);
    rewrite Hins, Hi, response_app, Hq; cbn [insertedChanges app];
    rewrite ?List.app_nil_r;
    (split; [reflexivity|]); (split; [reflexivity|]); (split; [exact Hl|]);
    reflexivity.
Qed.

(* ---------------------------------------------------------------- *)
(** ** BLS to execution changes: the deferred broadcast *)

Lemma Subseq_nil_l {A : Type} (l : list A) : Subseq [] l.
Proof. induction l; constructor; assumption. Qed.

Lemma Subseq_app {A : Type} (a b c d : list A) :
  Subseq a b -> Subseq c d -> Subseq (a ++ c) (b ++ d).
Proof.
  induction 1 as [|x l1 l2 H IH|x l1 l2 H IH]; intros Hcd; simpl.
  - assumption.
  - apply Subseq_skip, IH, Hcd.
  - apply Subseq_keep, IH, Hcd.
Qed.

Lemma Subseq_map {A B : Type} (f : A -> B) (a b : list A) :
  Subseq a b -> Subseq (map f a) (map f b).
Proof.
  induction 1; simpl;
    [constructor | apply Subseq_skip; assumption | apply Subseq_keep; assumption].
Qed.

Lemma validChanges_Subseq st (batch : Changes) :
  Subseq (validChanges pk st batch) (presentChanges batch).
Proof.
  induction batch as [|[c|] rest IH]; simpl; [constructor | | assumption].
  destruct (ValidateBLSToExecutionChange pk st c);
    [apply Subseq_skip | apply Subseq_keep]; assumption.
Qed.

Lemma validChanges_all st (batch : Changes) :
  (forall c, In (Some c) batch -> ValidateBLSToExecutionChange pk st c = None) ->
  validChanges pk st batch = presentChanges batch.
Proof.
  induction batch as [|[c|] rest IH]; intros H; simpl; [reflexivity | |].
  - rewrite (H c (or_introl eq_refl)). f_equal. apply IH.
    intros c' Hc'. apply H. right. assumption.
  - apply IH. intros c' Hc'. apply H. right. assumption.
Qed.

Lemma presentChanges_app (a b : Changes) :
  presentChanges (a ++ b)%list = (presentChanges a ++ presentChanges b)%list.
Proof.
  induction a as [|[c|] a IH]; simpl; rewrite ?IH; reflexivity.
Qed.

(** The slice is cut where the batch ends. *)
Lemma batch_split (changes : Changes) :
  changes =
  (firstn broadcastBLSChangesRateLimit changes
   ++ skipn (Nat.min broadcastBLSChangesRateLimit (List.length changes)) changes)%list.
Proof.
  destruct (Nat.le_gt_cases (List.length changes) broadcastBLSChangesRateLimit) as [H|H].
  - rewrite Nat.min_r by assumption.
    rewrite firstn_all2 by assumption. rewrite skipn_all. rewrite List.app_nil_r.
    reflexivity.
  - rewrite Nat.min_l by lia. symmetry. apply firstn_skipn.
Qed.

Lemma countTicks_app (tr1 tr2 : list Event) :
  countTicks (tr1 ++ tr2) = countTicks tr1 + countTicks tr2.
Proof.
  induction tr1 as [|e tr1 IH]; [reflexivity|].
  destruct e as [| | | | | | | | | | | | |[|]]; simpl; rewrite ?IH; reflexivity.
Qed.

Lemma countTicks_round (tr : list Event) : isRound tr -> countTicks tr = 0.
Proof.
  intros [_ H]. induction H as [|e tr (c & err & ->) _ IH]; [reflexivity|].
  simpl. assumption.
Qed.

(** One batch: what it broadcasts is taken from its first 128 changes, and
    what it leaves is the rest of the slice. *)
Lemma broadcastBLSBatch_Subseq ctx (changes : Changes) (w : World) rest w1 tr :
  broadcastBLSBatch pk s ctx changes w = (rest, w1, tr) ->
  countTicks tr = 0 /\
  exists batch,
    changes = (batch ++ rest)%list /\
    List.length batch <= broadcastBLSChangesRateLimit /\
    Subseq (broadcastMsgs tr) (map eth.MsgBLSChange (presentChanges batch)).
Proof.
  intros H.
  destruct (HeadStateReadOnly s ctx w) as [[e|st] w0] eqn:Hhead.
  - rewrite (broadcastBLSBatch_failed pk s ctx changes w Hhead) in H.
    inversion H; subst. split; [reflexivity|].
    exists []. split; [reflexivity|]. split; [simpl; lia | constructor].
  - destruct (broadcastBLSBatch_ok pk s ctx changes w Hhead) as (w2 & tr2 & Hrun & Hm & Hr).
    rewrite Hrun in H. inversion H; subst.
    split; [apply countTicks_round; assumption|].
    exists (firstn broadcastBLSChangesRateLimit changes).
    split; [apply batch_split|]. split; [apply firstn_le_length|].
    rewrite Hm. apply Subseq_map, validChanges_Subseq.
Qed.

Lemma broadcastBLSTicks_Subseq fuel :
  forall ctx (changes : Changes) (w : World),
    Subseq (broadcastMsgs (trace_of (broadcastBLSTicks pk s fuel ctx changes w)))
      (map eth.MsgBLSChange (presentChanges changes)).
Proof.
  induction fuel as [|fuel IH]; intros ctx changes w.
  - apply Subseq_nil_l.
  - rewrite broadcastBLSTicks_S. cbv zeta.
    destruct (ctx_done _ ctx && negb _); [apply Subseq_nil_l|].
    destruct (broadcastBLSBatch pk s ctx changes (select_wake s w))
      as [[rest w2] tr] eqn:E.
    destruct (broadcastBLSBatch_Subseq _ _ _ E) as (_ & batch & Hsplit & _ & Hsub).
    specialize (IH ctx rest w2).
    destruct (Nat.eqb (List.length rest) 0).
    + unfold trace_of. cbn [snd broadcastMsgs].
      rewrite Hsplit, presentChanges_app, map_app.
      rewrite <- (List.app_nil_r (broadcastMsgs tr)).
      apply Subseq_app; [assumption | apply Subseq_nil_l].
    + destruct (broadcastBLSTicks pk s fuel ctx rest w2) as [[r w3] tr'].
      unfold trace_of in *. cbn [snd broadcastMsgs] in *.
      rewrite broadcastMsgs_app.
      rewrite Hsplit, presentChanges_app, map_app.
      apply Subseq_app; assumption.
Qed.

(** X10: whatever the head state, the ticker and the context do, the
    deferred loop broadcasts the changes it was given in their order and
    none of them twice: the messages it hands to the broadcaster are the
    changes of its batch with some left out. *)
Theorem broadcastBLSChanges_broadcasts_in_order_once (fuel : nat) (ctx : Context)
  (changes : Changes) (w : World) :
  Subseq (broadcastMsgs (trace_of (broadcastBLSChanges pk s fuel ctx changes w)))
    (map eth.MsgBLSChange (presentChanges changes)).
Proof.
  rewrite broadcastBLSChanges_unfold.
  destruct (broadcastBLSBatch pk s ctx changes w) as [[rest w2] tr] eqn:E.
  destruct (broadcastBLSBatch_Subseq _ _ _ E) as (_ & batch & Hsplit & _ & Hsub).
  pose proof (broadcastBLSTicks_Subseq fuel ctx rest w2) as Hticks.
  destruct (Nat.eqb (List.length rest) 0).
  - unfold trace_of. cbn [snd].
    rewrite Hsplit, presentChanges_app, map_app.
    rewrite <- (List.app_nil_r (broadcastMsgs tr)).
    apply Subseq_app; [assumption | apply Subseq_nil_l].
  - destruct (broadcastBLSTicks pk s fuel ctx rest w2) as [[r w3] tr'].
    unfold trace_of in *. cbn [snd] in *.
    rewrite broadcastMsgs_app.
    rewrite Hsplit, presentChanges_app, map_app.
    apply Subseq_app; assumption.
Qed.

(** Rounds needed for [n] changes at 128 a round. *)
Lemma rounds_small (n : nat) : 0 < n -> n <= 128 -> (n + 127) / 128 = 1.
Proof.
  intros H1 H2. symmetry. apply (Nat.div_unique (n + 127) 128 1 (n - 1)); lia.
Qed.

Lemma rounds_step (n : nat) : 128 < n -> (n + 127) / 128 = S ((n - 128 + 127) / 128).
Proof.
  intros H. replace (n + 127) with ((n - 128 + 127) + 1 * 128) by lia.
  rewrite Nat.div_add by lia. lia.
Qed.

Lemma rounds_pos (n : nat) : 0 < n -> 0 < (n + 127) / 128.
Proof.
  intros H. destruct (Nat.le_gt_cases n 128) as [Hle|Hgt].
  - rewrite rounds_small by assumption. lia.
  - rewrite rounds_step by assumption. lia.
Qed.

Section CompleteDelivery.

Variable ctx : Context.
Hypothesis Hhead :
  forall ctx w, exists st w0, HeadStateReadOnly s ctx w = (inr st, w0).
Hypothesis Hlive : forall w, ctx_done (cancelled s w) ctx = false.

Lemma broadcastBLSBatch_complete (changes : Changes) (w : World) :
  (forall st c, In (Some c) changes -> ValidateBLSToExecutionChange pk st c = None) ->
  exists w1 tr,
    broadcastBLSBatch pk s ctx changes w =
    (skipn (Nat.min broadcastBLSChangesRateLimit (List.length changes)) changes,
     w1, tr) /\
    broadcastMsgs tr =
    map eth.MsgBLSChange
      (presentChanges (firstn broadcastBLSChangesRateLimit changes)) /\
    countTicks tr = 0.
Proof.
  intros Hvalid.
  destruct (Hhead ctx w) as (st & w0 & Hst).
  destruct (broadcastBLSBatch_ok pk s ctx changes w Hst) as (w1 & tr & Hrun & Hm & Hr).
  exists w1, tr. split; [assumption|]. split; [|apply countTicks_round; assumption].
  rewrite Hm. f_equal. apply validChanges_all.
  intros c Hc. apply Hvalid. eapply In_firstn. eassumption.
Qed.

Lemma broadcastBLSTicks_complete fuel :
  forall (changes : Changes) (w : World),
    changes <> [] ->
    (List.length changes + 127) / 128 <= fuel ->
    (forall st c, In (Some c) changes -> ValidateBLSToExecutionChange pk st c = None) ->
    let run := broadcastBLSTicks pk s fuel ctx changes w in
    result_of run = Some [] /\
    broadcastMsgs (trace_of run) = map eth.MsgBLSChange (presentChanges changes) /\
    countTicks (trace_of run) = (List.length changes + 127) / 128.
Proof.
  induction fuel as [|fuel IH]; intros changes w Hne Hfuel Hvalid.
  - exfalso. assert (0 < List.length changes) by (destruct changes; simpl; [congruence | lia]).
    pose proof (rounds_pos H). lia.
  - cbv zeta. rewrite broadcastBLSTicks_S. cbv zeta. rewrite Hlive. cbn [andb].
    destruct (broadcastBLSBatch_complete changes (select_wake s w) Hvalid)
      as (w1 & tr & Hrun & Hm & Hc).
    rewrite Hrun.
    assert (Hpos : 0 < List.length changes)
      by (destruct changes; simpl; [congruence | lia]).
    pose proof (batch_split changes) as Hsplit.
    destruct (Nat.eqb_spec
                (List.length (skipn (Nat.min broadcastBLSChangesRateLimit
                                       (List.length changes)) changes)) 0)
      as [Hz | Hnz].
    + pose proof Hz as Hnil. apply length_zero_iff_nil in Hnil.
      rewrite length_skipn in Hz. unfold broadcastBLSChangesRateLimit in Hz.
      unfold result_of, trace_of. cbn [fst snd broadcastMsgs countTicks].
      rewrite Hnil in *. rewrite List.app_nil_r in Hsplit.
      rewrite Hm, Hc, <- Hsplit.
      repeat split. rewrite rounds_small by lia. reflexivity.
    + pose proof Hnz as Hnz0.
      rewrite length_skipn in Hnz. unfold broadcastBLSChangesRateLimit in Hnz.
      assert (Hgt : 128 < List.length changes) by lia.
      destruct (IH (skipn (Nat.min broadcastBLSChangesRateLimit
                             (List.length changes)) changes) w1)
        as (Hres & Hmsgs & Hticks).
      * intros Heq. apply Hnz0. rewrite Heq. reflexivity.
      * rewrite length_skipn. unfold broadcastBLSChangesRateLimit.
        rewrite Nat.min_l by lia. rewrite rounds_step in Hfuel by assumption. lia.
      * intros st c Hin. apply (Hvalid st). eapply In_skipn. eassumption.
      * destruct (broadcastBLSTicks pk s fuel ctx _ w1) as [[r w3] tr'].
        unfold result_of, trace_of in *. cbn [fst snd] in *.
        cbn [broadcastMsgs countTicks].
        rewrite broadcastMsgs_app, countTicks_app, Hm, Hc, Hmsgs, Hticks.
        rewrite <- map_app, <- presentChanges_app, <- Hsplit.
        rewrite length_skipn. unfold broadcastBLSChangesRateLimit.
        rewrite Nat.min_l by lia.
        rewrite (rounds_step Hgt). repeat split; auto.
Qed.

(** X11: when the head state can always be read, every change of the batch
    passes the validation against it, and the context of the loop is never
    done, the deferred loop delivers everything: it returns with an empty
    batch after it has handed every change to the broadcaster, once each
    and in order, and it has waited for (n-1)/128 ticks of the ticker for a
    batch of n changes (none when the batch fits in one round). *)
Theorem broadcastBLSChanges_delivers_every_change (fuel : nat) (changes : Changes)
  (w : World)
  (Hvalid : forall st c,
      In (Some c) changes -> ValidateBLSToExecutionChange pk st c = None)
  (Hfuel : (List.length changes - 1) / 128 <= fuel) :
  let run := broadcastBLSChanges pk s fuel ctx changes w in
  result_of run = Some [] /\
  broadcastMsgs (trace_of run) = map eth.MsgBLSChange (presentChanges changes) /\
  countTicks (trace_of run) = (List.length changes - 1) / 128.
Proof.
  cbv zeta. rewrite broadcastBLSChanges_unfold.
  destruct (broadcastBLSBatch_complete changes w Hvalid) as (w1 & tr & Hrun & Hm & Hc).
  rewrite Hrun.
  pose proof (batch_split changes) as Hsplit.
  destruct (Nat.eqb_spec
              (List.length (skipn (Nat.min broadcastBLSChangesRateLimit
                                     (List.length changes)) changes)) 0)
    as [Hz | Hnz].
  - pose proof Hz as Hnil. apply length_zero_iff_nil in Hnil.
    rewrite length_skipn in Hz. unfold broadcastBLSChangesRateLimit in Hz.
    unfold result_of, trace_of. cbn [fst snd].
    rewrite Hnil in *. rewrite List.app_nil_r in Hsplit.
    rewrite Hm, Hc, <- Hsplit.
    repeat split. symmetry. apply Nat.div_small. lia.
  - pose proof Hnz as Hnz0.
    rewrite length_skipn in Hnz. unfold broadcastBLSChangesRateLimit in Hnz.
    assert (Hgt : 128 < List.length changes) by lia.
    assert (Hsame : (List.length changes - 128 + 127) / 128
                    = (List.length changes - 1) / 128).
    { f_equal. lia. }
    destruct (@broadcastBLSTicks_complete fuel
                (skipn (Nat.min broadcastBLSChangesRateLimit
                          (List.length changes)) changes) w1)
      as (Hres & Hmsgs & Hticks).
    + intros Heq. apply Hnz0. rewrite Heq. reflexivity.
    + rewrite length_skipn. unfold broadcastBLSChangesRateLimit.
      rewrite Nat.min_l by lia. rewrite Hsame. assumption.
    + intros st c Hin. apply (Hvalid st). eapply In_skipn. eassumption.
    + destruct (broadcastBLSTicks pk s fuel ctx _ w1) as [[r w3] tr'].
      unfold result_of, trace_of in *. cbn [fst snd] in *.
      rewrite broadcastMsgs_app, countTicks_app, Hm, Hc, Hmsgs, Hticks.
      rewrite <- map_app, <- presentChanges_app, <- Hsplit.
      rewrite length_skipn. unfold broadcastBLSChangesRateLimit.
      rewrite Nat.min_l by lia. rewrite Hsame. repeat split; auto.
Qed.

End CompleteDelivery.

(** X12: if the context of the loop is done when the loop first waits, and
    the runtime does not pick the ticker, the loop ends there: it has
    waited for no tick, and whatever it has broadcast is among the first
    128 changes of the batch.  The changes after them are never
    broadcast. *)
Theorem broadcastBLSChanges_done_after_first_round (fuel : nat) (ctx : Context)
  (changes : Changes) (w : World)
  (Hdone : ctx_done
             (cancelled s (select_wake s (world_of (broadcastBLSBatch pk s ctx changes w))))
             ctx = true)
  (Hpick : ticker_chosen s
             (select_wake s (world_of (broadcastBLSBatch pk s ctx changes w)))
           = false) :
  let run := broadcastBLSChanges pk s (S fuel) ctx changes w in
  (exists rest, result_of run = Some rest) /\
  countTicks (trace_of run) = 0 /\
  Subseq (broadcastMsgs (trace_of run))
    (map eth.MsgBLSChange
       (presentChanges (firstn broadcastBLSChangesRateLimit changes))).
Proof.
  cbv zeta. rewrite broadcastBLSChanges_unfold.
  destruct (broadcastBLSBatch pk s ctx changes w) as [[rest w1] tr] eqn:E.
  unfold world_of in *. cbn [fst snd] in *.
  assert (Hfirst : countTicks tr = 0 /\
                   Subseq (broadcastMsgs tr)
                     (map eth.MsgBLSChange
                        (presentChanges (firstn broadcastBLSChangesRateLimit changes)))).
  { destruct (HeadStateReadOnly s ctx w) as [[e|st] w0] eqn:Hst.
    - rewrite (broadcastBLSBatch_failed pk s ctx changes w Hst) in E.
      inversion E; subst. split; [reflexivity | apply Subseq_nil_l].
    - destruct (broadcastBLSBatch_ok pk s ctx changes w Hst)
        as (w2 & tr2 & Hrun & Hm & Hr).
      rewrite Hrun in E. inversion E; subst.
      split; [apply countTicks_round; assumption|].
      rewrite Hm. apply Subseq_map, validChanges_Subseq. }
  destruct Hfirst as (Hc & Hsub).
  destruct (Nat.eqb (List.length rest) 0).
  - unfold result_of, trace_of. cbn [fst snd]. split; [eexists; reflexivity|].
    split; assumption.
  - rewrite broadcastBLSTicks_S. cbv zeta. rewrite Hdone, Hpick. cbn [andb negb].
    unfold result_of, trace_of. cbn [fst snd]. split; [eexists; reflexivity|].
    rewrite countTicks_app, broadcastMsgs_app, Hc. cbn [countTicks broadcastMsgs].
    rewrite List.app_nil_r. split; [reflexivity | assumption].
Qed.

(* ---------------------------------------------------------------- *)
(** ** Listing the pools *)

(** X13: [shouldIncludeAttestation] keeps an attestation when each of the
    two query parameters is either absent (its raw text is empty) or equal
    to the attestation's value; a parameter that is absent matches any
    value, whatever number came with it. *)
Theorem shouldIncludeAttestation_matches (data : eth.AttestationData)
  (rawSlot : string) (slot : N) (rawCommitteeIndex : string) (committeeIndex : N) :
  shouldIncludeAttestation data rawSlot slot rawCommitteeIndex committeeIndex = true
  <->
  (rawCommitteeIndex = "" \/ eth.Data_CommitteeIndex data = committeeIndex) /\
  (rawSlot = "" \/ eth.Data_Slot data = slot).
Proof.
  unfold shouldIncludeAttestation.
  destruct (String.eqb_spec rawCommitteeIndex "") as [Hc|Hc];
    destruct (String.eqb_spec rawSlot "") as [Hs|Hs];
    destruct (N.eqb_spec (eth.Data_CommitteeIndex data) committeeIndex) as [Hci|Hci];
    destruct (N.eqb_spec (eth.Data_Slot data) slot) as [Hsl|Hsl];
    cbn [negb andb]; split; intros H; try discriminate H; try reflexivity;
    try (split; auto; fail);
    destruct H as [[H1|H1] [H2|H2]]; congruence.
Qed.

Lemma filterAttestations_spec rawSlot slot rawCommitteeIndex committeeIndex
  (atts : list eth.Att) :
  (exists l,
      atts = map eth.AttPhase0 l /\
      filterAttestations pk rawSlot slot rawCommitteeIndex committeeIndex atts
      = inr (map (AttFromConsensus pk)
               (filter (fun a => shouldIncludeAttestation (eth.Att_Data a)
                                   rawSlot slot rawCommitteeIndex committeeIndex) l)))
  \/
  ((exists a, In (eth.AttElectra a) atts) /\
   filterAttestations pk rawSlot slot rawCommitteeIndex committeeIndex atts
   = inl "Unable to convert attestation of type *eth.AttestationElectra").
Proof.
  induction atts as [|[att|attE] rest IH]; cbn [filterAttestations].
  - left. exists []. split; reflexivity.
  - destruct IH as [(l & -> & ->) | ((a & Ha) & ->)].
    + left. exists (att :: l). split; [reflexivity|]. cbn [filter].
      destruct (shouldIncludeAttestation _ _ _ _ _); reflexivity.
    + right. split; [exists a; right; assumption | reflexivity].
  - right. split; [exists attE; left; reflexivity | reflexivity].
Qed.

Lemma convertSlashings_spec (sl : list eth.AttSlashing) :
  (exists l,
      sl = map eth.SlashingPhase0 l /\
      convertSlashings pk sl = inr (map (AttesterSlashingFromConsensus pk) l))
  \/
  ((exists a, In (eth.SlashingElectra a) sl) /\
   convertSlashings pk sl
   = inl "Unable to convert slashing of type *eth.AttesterSlashingElectra").
Proof.
  induction sl as [|[a|aE] rest IH]; cbn [convertSlashings].
  - left. exists []. split; reflexivity.
  - destruct IH as [(l & -> & ->) | ((a' & Ha) & ->)].
    + left. exists (a :: l). split; reflexivity.
    + right. split; [exists a'; right; assumption | reflexivity].
  - right. split; [exists aE; left; reflexivity | reflexivity].
Qed.

(** X14: [ListAttestations] answers with a 400 for a query parameter it
    cannot read and with a 500 when the unaggregated attestations cannot be
    read.  Otherwise, if the pool holds an Electra attestation, the answer
    is a 500, whatever the query; and if it holds none, the answer lists
    the attestations of the pool, aggregated ones first, that match the
    query, in the order of the pool, with no version. *)
Theorem ListAttestations_lists_the_matching_attestations (r : Request) (w : World) :
  let tr := trace_of (ListAttestations pk s json_MarshalAttestationList r w) in
  (exists name err,
      tr = [EvHandleError (name ++ " is invalid: " ++ err) StatusBadRequest]) \/
  (exists err,
      tr = [EvHandleError ("Could not get unaggregated attestations: " ++ err)
              StatusInternalServerError]) \/
  (exists rawSlot slot rawCommitteeIndex committeeIndex agg w1 unagg w2,
      UintFromQuery pk r "slot" false w = (rawSlot, slot, true, w, []) /\
      UintFromQuery pk r "committee_index" false w
      = (rawCommitteeIndex, committeeIndex, true, w, []) /\
      AggregatedAttestations s w = (agg, w1) /\
      UnaggregatedAttestations s w1 = (inr unagg, w2) /\
      (((exists a, In (eth.AttElectra a) (agg ++ unagg)%list) /\
        tr = [EvHandleError
                "Unable to convert attestation of type *eth.AttestationElectra"
                StatusInternalServerError])
       \/
       (exists l,
           (agg ++ unagg)%list = map eth.AttPhase0 l /\
           match json_MarshalAttestationList
                   (map (AttFromConsensus pk)
                      (filter (fun a => shouldIncludeAttestation (eth.Att_Data a)
                                          rawSlot slot rawCommitteeIndex committeeIndex)
                         l)) with
           | inl err =>
               tr = [EvHandleError ("Could not marshal attestations: " ++ err)
                       StatusInternalServerError]
           | inr attsData => tr = [EvWriteJson (ListAttestationsResponse "" attsData)]
           end))).
Proof.
  intros tr.
  assert (Htr : tr = trace_of (ListAttestations pk s json_MarshalAttestationList r w))
    by reflexivity.
  clearbody tr. unfold ListAttestations, trace_of in Htr. unfold bind at 1 in Htr.
  destruct (UintFromQuery_run pk r "slot" w)
    as [(rawSlot & slot & Hq1) | (err & _ & Hq1)]; rewrite Hq1 in Htr;
    cbn [negb] in Htr.
  2:{ left. exists "slot", err. exact Htr. }
  unfold bind at 1 in Htr.
  destruct (UintFromQuery_run pk r "committee_index" w)
    as [(rawCI & ci & Hq2) | (err & _ & Hq2)]; rewrite Hq2 in Htr;
    cbn [negb] in Htr.
  2:{ left. exists "committee_index", err. exact Htr. }
  right. unfold bind, call, HandleError, WriteJson, emit in Htr.
  cbn [app snd] in Htr.
  destruct (AggregatedAttestations s w) as [agg w1] eqn:Hagg.
  destruct (UnaggregatedAttestations s w1) as [[err|unagg] w2] eqn:Hun;
    cbn [app snd] in Htr.
  { left. exists err. exact Htr. }
  right. exists rawSlot, slot, rawCI, ci, agg, w1, unagg, w2.
  split; [exact Hq1|]. split; [exact Hq2|]. split; [reflexivity|].
  split; [exact Hun|].
  destruct (filterAttestations_spec rawSlot slot rawCI ci (agg ++ unagg)%list)
    as [(l & Hl & Hf) | (Ha & Hf)]; rewrite Hf in Htr.
  - right. exists l. split; [assumption|].
    destruct (json_MarshalAttestationList _); exact Htr.
  - left. split; [assumption | exact Htr].
Qed.

(** X15: [GetAttesterSlashings] answers with a 500 when the head state
    cannot be read.  Otherwise, if a pending slashing is an Electra
    slashing, the answer is a 500; and if none is, the answer lists every
    pending slashing, in the order of the pool, with no version. *)
Theorem GetAttesterSlashings_lists_the_pending_slashings (r : Request) (w : World) :
  let ctx := StartSpan (Ctx r) "beacon.GetAttesterSlashings" in
  let tr := trace_of (GetAttesterSlashings pk s json_MarshalSlashingList r w) in
  match HeadStateReadOnly s ctx w with
  | (inl err, _) =>
      tr = [EvHandleError ("Could not get head state: " ++ err)
              StatusInternalServerError]
  | (inr headState, w1) =>
      let pending := fst (PendingAttesterSlashings s ctx headState true w1) in
      ((exists a, In (eth.SlashingElectra a) pending) /\
       tr = [EvHandleError
               "Unable to convert slashing of type *eth.AttesterSlashingElectra"
               StatusInternalServerError])
      \/
      (exists l,
          pending = map eth.SlashingPhase0 l /\
          match json_MarshalSlashingList (map (AttesterSlashingFromConsensus pk) l) with
          | inl err =>
              tr = [EvHandleError ("Failed to marshal slashings: " ++ err)
                      StatusInternalServerError]
          | inr attBytes =>
              tr = [EvWriteJson (GetAttesterSlashingsResponse "" attBytes)]
          end)
  end.
Proof.
  intros ctx tr.
  assert (Htr : tr = trace_of (GetAttesterSlashings pk s json_MarshalSlashingList r w))
    by reflexivity.
  clearbody tr. subst ctx. unfold GetAttesterSlashings, trace_of in Htr. unfold_m.
  destruct (HeadStateReadOnly s _ w) as [[err|headState] w1]; [exact Htr|].
  destruct (PendingAttesterSlashings s _ headState true w1) as [pending w2].
  cbn [fst].
  destruct (convertSlashings_spec pending) as [(l & Hl & Hc) | (Ha & Hc)];
    rewrite Hc in Htr.
  - right. exists l. split; [assumption|].
    destruct (json_MarshalSlashingList _); exact Htr.
  - left. split; [assumption | exact Htr].
Qed.

(** X16: below Electra the loops of the V2 list handlers do what the loops
    of the V1 handlers do: the same items are kept, in the same order, and
    the same pools are refused.  For the attestations the refusal is the
    same message; for the slashings the V2 message names the fork in
    addition. *)
Theorem list_loops_agree_below_electra (v : nat)
  (rawSlot : string) (slot : N) (rawCommitteeIndex : string) (committeeIndex : N)
  (atts : list eth.Att) (sl : list eth.AttSlashing)
  (Hv : v < version.Electra) :
  filterAttestationsV2 pk v rawSlot slot rawCommitteeIndex committeeIndex atts
  = match filterAttestations pk rawSlot slot rawCommitteeIndex committeeIndex atts with
    | inl msg => inl msg
    | inr filteredAtts => inr (map (EntryAtt T) filteredAtts)
    end /\
  convertSlashingsV2 pk v sl
  = match convertSlashings pk sl with
    | inl msg => inl (msg ++ " to a Phase0 slashing")
    | inr slashings => inr (map (EntrySlashing T) slashings)
    end.
Proof.
  assert (Hleb : Nat.leb version.Electra v = false) by (apply Nat.leb_gt; exact Hv).
  split.
  - induction atts as [|[att|attE] rest IH];
      cbn [filterAttestationsV2 filterAttestations]; rewrite ?Hleb;
      [reflexivity | | reflexivity].
    rewrite IH.
    destruct (filterAttestations pk rawSlot slot rawCommitteeIndex committeeIndex rest);
      destruct (shouldIncludeAttestation _ _ _ _ _); reflexivity.
  - induction sl as [|[a|aE] rest IH];
      cbn [convertSlashingsV2 convertSlashings]; rewrite ?Hleb;
      [reflexivity | | reflexivity].
    rewrite IH. destruct (convertSlashings pk rest); reflexivity.
Qed.

Lemma filterAttestationsV2_electra v rawSlot slot rawCommitteeIndex committeeIndex
  (atts : list eth.Att) :
  Nat.leb version.Electra v = true ->
  (exists l,
      atts = map eth.AttElectra l /\
      filterAttestationsV2 pk v rawSlot slot rawCommitteeIndex committeeIndex atts
      = inr (map (fun a => EntryAttElectra T (AttElectraFromConsensus pk a))
               (filter (fun a => shouldIncludeAttestation (eth.AttE_Data a)
                                   rawSlot slot rawCommitteeIndex committeeIndex) l)))
  \/
  ((exists a, In (eth.AttPhase0 a) atts) /\
   filterAttestationsV2 pk v rawSlot slot rawCommitteeIndex committeeIndex atts
   = inl "Unable to convert attestation of type *eth.Attestation").
Proof.
  intros Hleb.
  induction atts as [|[att|attE] rest IH]; cbn [filterAttestationsV2]; rewrite ?Hleb.
  - left. exists []. split; reflexivity.
  - right. split; [exists att; left; reflexivity | reflexivity].
  - destruct IH as [(l & -> & ->) | ((a & Ha) & ->)].
    + left. exists (attE :: l). split; [reflexivity|]. cbn [filter].
      destruct (shouldIncludeAttestation _ _ _ _ _); reflexivity.
    + right. split; [exists a; right; assumption|].
      destruct (shouldIncludeAttestation _ _ _ _ _); reflexivity.
Qed.

Lemma convertSlashingsV2_electra v (sl : list eth.AttSlashing) :
  Nat.leb version.Electra v = true ->
  (exists l,
      sl = map eth.SlashingElectra l /\
      convertSlashingsV2 pk v sl
      = inr (map (fun a => EntrySlashingElectra T
                             (AttesterSlashingElectraFromConsensus pk a)) l))
  \/
  ((exists a, In (eth.SlashingPhase0 a) sl) /\
   convertSlashingsV2 pk v sl
   = inl "Unable to convert slashing of type *eth.AttesterSlashing to an Electra slashing").
Proof.
  intros Hleb.
  induction sl as [|[a|aE] rest IH]; cbn [convertSlashingsV2]; rewrite ?Hleb.
  - left. exists []. split; reflexivity.
  - right. split; [exists a; left; reflexivity | reflexivity].
  - destruct IH as [(l & -> & ->) | ((a' & Ha) & ->)].
    + left. exists (aE :: l). split; reflexivity.
    + right. split; [exists a'; right; assumption | reflexivity].
Qed.

(** X19: from Electra on, the loops of the V2 list handlers refuse a pool
    that holds an entry of the older type, and otherwise keep the Electra
    attestations that match the query, and every Electra slashing, in the
    order of the pool. *)
Theorem list_loops_from_electra (v : nat)
  (rawSlot : string) (slot : N) (rawCommitteeIndex : string) (committeeIndex : N)
  (atts : list eth.Att) (sl : list eth.AttSlashing)
  (Hv : version.Electra <= v) :
  ((exists l,
       atts = map eth.AttElectra l /\
       filterAttestationsV2 pk v rawSlot slot rawCommitteeIndex committeeIndex atts
       = inr (map (fun a => EntryAttElectra T (AttElectraFromConsensus pk a))
                (filter (fun a => shouldIncludeAttestation (eth.AttE_Data a)
                                    rawSlot slot rawCommitteeIndex committeeIndex) l)))
   \/
   ((exists a, In (eth.AttPhase0 a) atts) /\
    filterAttestationsV2 pk v rawSlot slot rawCommitteeIndex committeeIndex atts
    = inl "Unable to convert attestation of type *eth.Attestation")) /\
  ((exists l,
       sl = map eth.SlashingElectra l /\
       convertSlashingsV2 pk v sl
       = inr (map (fun a => EntrySlashingElectra T
                              (AttesterSlashingElectraFromConsensus pk a)) l))
   \/
   ((exists a, In (eth.SlashingPhase0 a) sl) /\
    convertSlashingsV2 pk v sl
    = inl "Unable to convert slashing of type *eth.AttesterSlashing to an Electra slashing")).
Proof.
  apply Nat.leb_le in Hv.
  split; [apply filterAttestationsV2_electra | apply convertSlashingsV2_electra];
    assumption.
Qed.

Lemma bind_ret_tt {A : Type} (m : World -> A * World * list Event) (w : World) :
  bind (ret tt) (fun _ => m) w = m w.
Proof. unfold bind, ret. destruct (m w) as [[a w1] t]. reflexivity. Qed.

Lemma submitAttesterSlashing_answersLast ctx slashing (w : World) :
  answersLast (trace_of (submitAttesterSlashing pk s ctx slashing w)) = true.
Proof. unfold submitAttesterSlashing. run_handler; reflexivity. Qed.

Lemma submitAttesterSlashing_inserts ctx slashing (w : World) sl err :
  In (EvInsertAttesterSlashing sl err)
     (trace_of (submitAttesterSlashing pk s ctx slashing w)) ->
  sl = slashing.
Proof.
  unfold submitAttesterSlashing. run_handler; simpl; intros Hin;
    repeat (destruct Hin as [Hin|Hin]; [inversion Hin; subst; reflexivity|]);
    try contradiction;
    repeat (destruct Hin as [Hin|Hin]; [discriminate Hin|]); contradiction.
Qed.

(** X20: when the version header is present, [SubmitAttesterSlashingsV2]
    answers once at most and does nothing after its answer; and in every
    run, a slashing reaches the pool only if the header names a fork, and
    it is of the type of that fork: an Electra slashing from Electra on, a
    slashing of the older type below. *)
Theorem SubmitAttesterSlashingsV2_with_version_header (r : Request) (w : World)
  (Hhdr : Header r VersionHeader <> "") :
  answersLast (trace_of (SubmitAttesterSlashingsV2 pk s r w)) = true /\
  forall sl err,
    In (EvInsertAttesterSlashing sl err)
       (trace_of (SubmitAttesterSlashingsV2 pk s r w)) ->
    exists v,
      version_FromString pk (Header r VersionHeader) = inr v /\
      slashingOfFork v sl = true.
Proof.
  apply String.eqb_neq in Hhdr.
  assert (Hrun : trace_of (SubmitAttesterSlashingsV2 pk s r w) =
                 trace_of
                   (match version_FromString pk (Header r VersionHeader) with
                    | inl err =>
                        HandleError ("Invalid version: " ++ err) StatusBadRequest
                    | inr v =>
                        if Nat.leb version.Electra v then
                          match json_DecodeAttesterSlashingElectra pk (Body r) with
                          | DecodeEOF => HandleError "No data submitted" StatusBadRequest
                          | DecodeError err =>
                              HandleError ("Could not decode request body: " ++ err)
                                StatusBadRequest
                          | DecodeOk req =>
                              match AttesterSlashingElectra_ToConsensus pk req with
                              | inl err =>
                                  HandleError
                                    ("Could not convert request slashing to consensus slashing: "
                                     ++ err) StatusBadRequest
                              | inr slashing =>
                                  submitAttesterSlashing pk s
                                    (StartSpan (Ctx r) "beacon.SubmitAttesterSlashingsV2")
                                    (eth.SlashingElectra slashing)
                              end
                          end
                        else
                          match json_DecodeAttesterSlashing pk (Body r) with
                          | DecodeEOF => HandleError "No data submitted" StatusBadRequest
                          | DecodeError err =>
                              HandleError ("Could not decode request body: " ++ err)
                                StatusBadRequest
                          | DecodeOk req =>
                              match AttesterSlashing_ToConsensus pk req with
                              | inl err =>
                                  HandleError
                                    ("Could not convert request slashing to consensus slashing: "
                                     ++ err) StatusBadRequest
                              | inr slashing =>
                                  submitAttesterSlashing pk s
                                    (StartSpan (Ctx r) "beacon.SubmitAttesterSlashingsV2")
                                    (eth.SlashingPhase0 slashing)
                              end
                          end
                    end w)).
  { unfold SubmitAttesterSlashingsV2. cbv zeta. rewrite Hhdr.
    rewrite bind_ret_tt. reflexivity. }
  rewrite Hrun. clear Hrun.
  destruct (version_FromString pk (Header r VersionHeader)) as [e|v] eqn:Hver.
  { split; [reflexivity|]. unfold trace_of. simpl. intros sl err [H|[]].
    discriminate H. }
  destruct (Nat.leb version.Electra v) eqn:Hleb.
  - destruct (json_DecodeAttesterSlashingElectra pk (Body r)) as [|e|req];
      try (split; [reflexivity|]; unfold trace_of; simpl; intros sl err [H|[]];
           discriminate H).
    destruct (AttesterSlashingElectra_ToConsensus pk req) as [e|slashing];
      try (split; [reflexivity|]; unfold trace_of; simpl; intros sl err [H|[]];
           discriminate H).
    split; [apply submitAttesterSlashing_answersLast|].
    intros sl err Hin. apply submitAttesterSlashing_inserts in Hin. subst sl.
    exists v. split; [reflexivity | exact Hleb].
  - destruct (json_DecodeAttesterSlashing pk (Body r)) as [|e|req];
      try (split; [reflexivity|]; unfold trace_of; simpl; intros sl err [H|[]];
           discriminate H).
    destruct (AttesterSlashing_ToConsensus pk req) as [e|slashing];
      try (split; [reflexivity|]; unfold trace_of; simpl; intros sl err [H|[]];
           discriminate H).
    split; [apply submitAttesterSlashing_answersLast|].
    intros sl err Hin. apply submitAttesterSlashing_inserts in Hin. subst sl.
    exists v. split; [reflexivity|].
    cbn [slashingOfFork]. apply Nat.ltb_lt. apply Nat.leb_gt. exact Hleb.
Qed.

End GatewayMoreProofs.

(* ---------------------------------------------------------------- *)
(** ** Sync committee messages *)

Section SyncCommitteeProofs.

Context {World : Type}.
Variable structs_SyncCommitteeMessage : Type.
Variable SyncCommitteeMessage : Type.
Variable json_DecodeSyncMessages : string -> Decoded (list structs_SyncCommitteeMessage).
Variable SyncCommitteeMessage_ToConsensus :
  structs_SyncCommitteeMessage -> Error + SyncCommitteeMessage.
Variable ErrorReasonToHTTP : nat -> nat.
Variable SubmitSyncMessage :
  Context -> SyncCommitteeMessage -> World -> option RpcError * World.

Lemma convertSyncMessages_length (data : list structs_SyncCommitteeMessage) :
  forall i,
    List.length (fst (convertSyncMessages SyncCommitteeMessage_ToConsensus i data))
    + List.length (snd (convertSyncMessages SyncCommitteeMessage_ToConsensus i data))
    = List.length data.
Proof.
  induction data as [|x rest IH]; intros i; [reflexivity|].
  cbn [convertSyncMessages]. specialize (IH (S i)).
  destruct (convertSyncMessages SyncCommitteeMessage_ToConsensus (S i) rest)
    as [failures valid].
  destruct (SyncCommitteeMessage_ToConsensus x); cbn [fst snd List.length] in *; lia.
Qed.

Lemma submitSyncMessages_spec ctx (valid : list SyncCommitteeMessage) :
  forall (w : World),
    match submitSyncMessages SubmitSyncMessage ctx valid w with
    | (None, _, tr) => tr = map (@acceptedMessage SyncCommitteeMessage) valid
    | (Some e, _, tr) =>
        exists done msg rest,
          valid = (done ++ msg :: rest)%list /\
          tr = (map (@acceptedMessage SyncCommitteeMessage) done ++ [EvSubmitSyncMessage msg (Some e)])%list
    end.
Proof.
  induction valid as [|msg rest IH]; intros w; cbn [submitSyncMessages].
  - reflexivity.
  - destruct (SubmitSyncMessage ctx msg w) as [[e|] w1].
    + exists [], msg, rest. split; reflexivity.
    + specialize (IH w1).
      destruct (submitSyncMessages SubmitSyncMessage ctx rest w1) as [[[e|] w2] tr].
      * destruct IH as (done & msg' & rest' & -> & ->).
        exists (msg :: done), msg', rest'. split; reflexivity.
      * rewrite IH. reflexivity.
Qed.

(** X17: [SubmitSyncCommitteeSignatures] answers an unreadable or empty
    body with a 400 and submits nothing.  Otherwise every item of the
    request is either a conversion failure or a valid message, and the
    valid messages are handed to the core service in the order of the
    request.  If the core service accepts them all, the only answer is the
    400 that lists the conversion failures, if there is one.  If it refuses
    one, the handler stops there: the messages before it stay submitted,
    the messages after it are never submitted, and the answer carries the
    status of the core service's reason and says nothing of the conversion
    failures. *)
Theorem SubmitSyncCommitteeSignatures_submits_until_refused (r : Request) (w : World) :
  let tr :=
    snd (SubmitSyncCommitteeSignatures json_DecodeSyncMessages
           SyncCommitteeMessage_ToConsensus ErrorReasonToHTTP SubmitSyncMessage r w) in
  match json_DecodeSyncMessages (Body r) with
  | DecodeOk (x :: data) =>
      let failures :=
        fst (convertSyncMessages SyncCommitteeMessage_ToConsensus 0 (x :: data)) in
      let valid :=
        snd (convertSyncMessages SyncCommitteeMessage_ToConsensus 0 (x :: data)) in
      List.length failures + List.length valid = S (List.length data) /\
      (tr = (map (@acceptedMessage SyncCommitteeMessage) valid
             ++ match failures with
                | [] => []
                | _ :: _ =>
                    [SyncAnswer SyncCommitteeMessage
                       (EvWriteError
                          {| Code := StatusBadRequest;
                             ErrMessage := "One or more messages failed validation";
                             Failures := failures |})]
                end)%list
       \/
       exists done msg rest e,
         valid = (done ++ msg :: rest)%list /\
         tr = (map (@acceptedMessage SyncCommitteeMessage) done
               ++ [EvSubmitSyncMessage msg (Some e);
                   SyncAnswer SyncCommitteeMessage
                     (EvHandleError ("Could not submit message: " ++ Err e)
                        (ErrorReasonToHTTP (Reason e)))])%list)
  | _ =>
      exists msg,
        tr = [SyncAnswer SyncCommitteeMessage (EvHandleError msg StatusBadRequest)]
  end.
Proof.
  intros tr. subst tr. unfold SubmitSyncCommitteeSignatures.
  destruct (json_DecodeSyncMessages (Body r)) as [|e|[|x data]];
    try (eexists; reflexivity).
  cbv zeta. cbn [List.length Nat.eqb].
  pose proof (convertSyncMessages_length (x :: data) 0) as Hlen.
  destruct (convertSyncMessages SyncCommitteeMessage_ToConsensus 0 (x :: data))
    as [failures valid].
  cbn [fst snd List.length] in *. split; [exact Hlen|].
  pose proof (submitSyncMessages_spec
                (StartSpan (Ctx r) "beacon.SubmitPoolSyncCommitteeSignatures") valid w)
    as Hsub.
  destruct (submitSyncMessages SubmitSyncMessage _ valid w) as [[[e|] w1] tr].
  - right. destruct Hsub as (done & msg & rest & -> & ->).
    exists done, msg, rest, e. split; [reflexivity|].
    cbn [snd]. rewrite <- List.app_assoc. reflexivity.
  - left. subst tr. destruct failures; cbn [List.length Nat.ltb Nat.leb snd].
    + rewrite List.app_nil_r. reflexivity.
    + reflexivity.
Qed.

End SyncCommitteeProofs.

(* ------------------------------------------------------------------ *)
(** ** The simulated node, once more *)

(** A healthy node accepts a batch of one attestation in silence. *)
Lemma SubmitAttestations_silent_means_all_saved_witness :
  let pk := Sim.packages Sim.healthy in
  let s := Sim.server Sim.healthy in
  let r := Sim.request "" "[att0]" in
  exists data src valid,
    json_DecodeRaw pk (Body r) = DecodeOk data /\
    json_UnmarshalAttestations pk data = inr src /\
    src <> [] /\
    map (Attestation_ToConsensus pk) src = map inr valid /\
    broadcastAtts true (trace_of (SubmitAttestations pk s r Sim.start))
    = map eth.AttPhase0 valid /\
    savedAtts (trace_of (SubmitAttestations pk s r Sim.start))
    = map eth.AttPhase0 valid.
Proof.
  cbv zeta.
  apply (@SubmitAttestations_silent_means_all_saved _ _ _ _
           (Sim.packages Sim.healthy) (Sim.server Sim.healthy)
           (Sim.request "" "[att0]") Sim.start).
  vm_compute. reflexivity.
Defined.

(** The same at Electra, through the V2 handler. *)
Lemma SubmitAttestationsV2_silent_means_all_saved_witness :
  let pk := Sim.packages Sim.healthy in
  let s := Sim.server Sim.healthy in
  let r := Sim.request "electra" "[attE0]" in
  exists v data,
    version_FromString pk (Header r VersionHeader) = inr v /\
    json_DecodeRaw pk (Body r) = DecodeOk data /\
    exists atts,
      savedAtts (trace_of (SubmitAttestationsV2 pk s r Sim.start)) = atts /\
      broadcastAtts true (trace_of (SubmitAttestationsV2 pk s r Sim.start)) = atts /\
      if Nat.leb version.Electra v
      then exists src valid,
          json_UnmarshalAttestationsElectra pk data = inr src /\ src <> [] /\
          map (AttestationElectra_ToConsensus pk) src = map inr valid /\
          atts = map eth.AttElectra valid
      else exists src valid,
          json_UnmarshalAttestations pk data = inr src /\ src <> [] /\
          map (Attestation_ToConsensus pk) src = map inr valid /\
          atts = map eth.AttPhase0 valid.
Proof.
  cbv zeta.
  apply (@SubmitAttestationsV2_silent_means_all_saved _ _ _ _
           (Sim.packages Sim.healthy) (Sim.server Sim.healthy)
           (Sim.request "electra" "[attE0]") Sim.start).
  vm_compute. reflexivity.
Defined.

(** 300 changes on a healthy node: three rounds, two ticks. *)
Lemma broadcastBLSChanges_delivers_every_change_witness :
  let pk := Sim.packages Sim.healthy in
  let s := Sim.server Sim.healthy in
  let ctx := StartSpan Sim.requestCtx "beacon.SubmitBLSToExecutionChanges" in
  let changes := map Some (Sim.changesUpTo 300) in
  let run := broadcastBLSChanges pk s 2 ctx changes Sim.start in
  result_of run = Some [] /\
  broadcastMsgs (trace_of run) = map eth.MsgBLSChange (presentChanges changes) /\
  countTicks (trace_of run) = (List.length changes - 1) / 128.
Proof.
  cbv zeta.
  apply (@broadcastBLSChanges_delivers_every_change _ _ _ _
           (Sim.packages Sim.healthy) (Sim.server Sim.healthy)
           (StartSpan Sim.requestCtx "beacon.SubmitBLSToExecutionChanges")).
  - intros ctx w. eexists. eexists. reflexivity.
  - intros w. reflexivity.
  - intros st c Hin.
    apply in_map_iff in Hin. destruct Hin as (c' & Heq & Hin).
    inversion Heq; subst c'. clear Heq.
    unfold Sim.changesUpTo in Hin. apply in_map_iff in Hin.
    destruct Hin as (k & <- & Hk). apply in_seq in Hk.
    cbn [ValidateBLSToExecutionChange Sim.packages].
    unfold Sim.validateChange, Sim.change.
    cbn [eth.Change_ValidatorIndex eth.SignedChange_Message].
    destruct (N.ltb_spec (N.of_nat k) 1000) as [_|Hge]; [reflexivity | lia].
  - vm_compute. apply le_n.
Defined.

(** 129 changes, and the request is over before the first tick: the 129th
    change is not broadcast. *)
Lemma broadcastBLSChanges_done_after_first_round_witness :
  let pk := Sim.packages Sim.cancelledRequest in
  let s := Sim.server Sim.cancelledRequest in
  let ctx := StartSpan Sim.requestCtx "beacon.SubmitBLSToExecutionChanges" in
  let changes := map Some (Sim.changesUpTo 129) in
  let run := broadcastBLSChanges pk s 1 ctx changes Sim.start in
  (exists rest, result_of run = Some rest) /\
  countTicks (trace_of run) = 0 /\
  Subseq (broadcastMsgs (trace_of run))
    (map eth.MsgBLSChange
       (presentChanges (firstn broadcastBLSChangesRateLimit changes))).
Proof.
  cbv zeta.
  apply (@broadcastBLSChanges_done_after_first_round _ _ _ _
           (Sim.packages Sim.cancelledRequest) (Sim.server Sim.cancelledRequest) 0
           (StartSpan Sim.requestCtx "beacon.SubmitBLSToExecutionChanges")
           (map Some (Sim.changesUpTo 129)) Sim.start).
  - vm_compute. reflexivity.
  - vm_compute. reflexivity.
Defined.

(** At Deneb both pools of the healthy node are listed alike by V1 and
    V2. *)
Lemma list_loops_agree_below_electra_witness :
  let pk := Sim.packages Sim.healthy in
  let atts := [eth.AttPhase0 Sim.att0; eth.AttPhase0 Sim.att1] in
  let sl := [eth.SlashingPhase0 Sim.slashing0] in
  filterAttestationsV2 pk version.Deneb "" 0%N "" 0%N atts
  = match filterAttestations pk "" 0%N "" 0%N atts with
    | inl msg => inl msg
    | inr filteredAtts => inr (map (EntryAtt Sim.structs) filteredAtts)
    end /\
  convertSlashingsV2 pk version.Deneb sl
  = match convertSlashings pk sl with
    | inl msg => inl (msg ++ " to a Phase0 slashing")
    | inr slashings => inr (map (EntrySlashing Sim.structs) slashings)
    end.
Proof.
  cbv zeta.
  apply (@list_loops_agree_below_electra _ _ _
           (Sim.packages Sim.healthy) version.Deneb).
  unfold version.Deneb, version.Electra. lia.
Defined.

(** At Electra a pool of Electra entries is listed whole. *)
Lemma list_loops_from_electra_witness :
  let pk := Sim.packages Sim.healthy in
  let atts := [eth.AttElectra Sim.attE0] in
  let sl := [eth.SlashingElectra Sim.slashingE0] in
  ((exists l,
       atts = map eth.AttElectra l /\
       filterAttestationsV2 pk version.Electra "" 0%N "" 0%N atts
       = inr (map (fun a => EntryAttElectra Sim.structs (AttElectraFromConsensus pk a))
                (filter (fun a => shouldIncludeAttestation (eth.AttE_Data a)
                                    "" 0%N "" 0%N) l)))
   \/
   ((exists a, In (eth.AttPhase0 a) atts) /\
    filterAttestationsV2 pk version.Electra "" 0%N "" 0%N atts
    = inl "Unable to convert attestation of type *eth.Attestation")) /\
  ((exists l,
       sl = map eth.SlashingElectra l /\
       convertSlashingsV2 pk version.Electra sl
       = inr (map (fun a => EntrySlashingElectra Sim.structs
                              (AttesterSlashingElectraFromConsensus pk a)) l))
   \/
   ((exists a, In (eth.SlashingPhase0 a) sl) /\
    convertSlashingsV2 pk version.Electra sl
    = inl "Unable to convert slashing of type *eth.AttesterSlashing to an Electra slashing")).
Proof.
  cbv zeta.
  apply (@list_loops_from_electra _ _ _ (Sim.packages Sim.healthy) version.Electra).
  apply le_n.
Defined.

(** A slashing submitted with the header of Deneb is of the older type. *)
Lemma SubmitAttesterSlashingsV2_with_version_header_witness :
  let pk := Sim.packages Sim.healthy in
  let s := Sim.server Sim.healthy in
  let r := Sim.request "deneb" "slashing" in
  answersLast (trace_of (SubmitAttesterSlashingsV2 pk s r Sim.start)) = true /\
  forall sl err,
    In (EvInsertAttesterSlashing sl err)
       (trace_of (SubmitAttesterSlashingsV2 pk s r Sim.start)) ->
    exists v,
      version_FromString pk (Header r VersionHeader) = inr v /\
      slashingOfFork v sl = true.
Proof.
  cbv zeta.
  apply (@SubmitAttesterSlashingsV2_with_version_header _ _ _ _
           (Sim.packages Sim.healthy) (Sim.server Sim.healthy)
           (Sim.request "deneb" "slashing") Sim.start).
  vm_compute. discriminate.
Defined.
